(** * XCMS-Visualization-Tool: the matching core, embedded and verified

    A shallow embedding of the feature locator (ms2_extractor.py), the
    precursor-to-feature correlator (ms2_extractor.py), the similarity
    engine (spectral_matcher.py, ms2query_matcher.py, main.py) and the
    result aggregator (results_processor.py).

    Numbers.  Python floats are modelled by the rationals [Q] they denote;
    Python ints by [Z].  Python's float division raises [ZeroDivisionError]
    on a zero divisor, which the embedding keeps ([py_div]).  In the two
    feature lookups (find_matching_xcms_peak, find_peak_by_mz_rt) the
    result of every float operation is rounded to binary64 as IEEE 754
    prescribes ([binary64], [float_sub], [float_div], [float_add]); in
    validate_xcms_params a float is an IEEE 754 value and its product the
    IEEE 754 product; the other operations are kept exact.

    Dictionaries.  The dictionaries handled by the core are built in a
    single place each, with a fixed set of keys (load_xcms_data builds the
    peak dictionaries, match_with_traditional and match_with_ms2query the
    match dictionaries), so they are modelled by records; a key read with
    [d.get(key)] that can really be missing is an [option] field. *)

From Stdlib Require Import QArith Qabs Lqa Lia.
From Stdlib Require Floats.SpecFloat.
From stdpp Require Import base option list gmap strings pretty sorting.

(** ** Python exceptions and fallible computations *)

Inductive exn : Type :=
  | ZeroDivisionError
  | ValueError
  | ImportError.

Inductive result (A : Type) : Type :=
  | Ok (a : A)
  | Raise (e : exn).
Arguments Ok {A} a.
Arguments Raise {A} e.

Definition bind {A B : Type} (r : result A) (k : A -> result B) : result B :=
  match r with
  | Ok a => k a
  | Raise e => Raise e
  end.

Notation "x <-! r ;; k" := (bind r (fun x => k))
  (at level 100, r at next level, k at level 200, right associativity).

(** ** Rational helpers *)

Definition Qlt_bool (x y : Q) : bool := negb (Qle_bool y x).

(** [x / y] on Python floats. *)
Definition py_div (x y : Q) : result Q :=
  if Qeq_bool y 0 then Raise ZeroDivisionError else Ok (x / y)%Q.

(** ** Binary64 arithmetic *)

(** The binary64 number nearest to a rational, ties to even: the rational
    is a quotient of two integers, and the quotient is rounded by the
    division of the IEEE 754 specification of the standard library
    ([SpecFloat.SFdiv] at precision 53 and maximal exponent 1024).  A
    rational beyond the largest binary64 number rounds to an infinity,
    which is kept as the power 2^1024: it exceeds every binary64 number,
    as the infinity does in a comparison.  The quotient of two integers
    with a divisor that is not zero is never a NaN. *)
Definition SF_of_Z (z : Z) : SpecFloat.spec_float :=
  match z with
  | Z0 => SpecFloat.S754_zero false
  | Zpos m => SpecFloat.S754_finite false m 0
  | Zneg m => SpecFloat.S754_finite true m 0
  end.

Definition Q_of_SF (f : SpecFloat.spec_float) : Q :=
  match f with
  | SpecFloat.S754_zero _ => 0
  | SpecFloat.S754_nan => 0
  | SpecFloat.S754_infinity s =>
      if s then inject_Z (- 2 ^ 1024) else inject_Z (2 ^ 1024)
  | SpecFloat.S754_finite s m e =>
      let n := if s then Zneg m else Zpos m in
      if (0 <=? e)%Z then inject_Z (n * 2 ^ e)
      else n # Z.to_pos (2 ^ (- e))
  end.

(** [float(x)] for a rational [x], as for a decimal literal. *)
Definition float_of_Q (x : Q) : SpecFloat.spec_float :=
  SpecFloat.SFdiv 53 1024 (SF_of_Z (Qnum x)) (SF_of_Z (Zpos (Qden x))).

Definition binary64 (x : Q) : Q := Q_of_SF (float_of_Q x).

(** [x - y], [x + y] and [x / y] on Python floats. *)
Definition float_sub (x y : Q) : Q := binary64 (x - y).
Definition float_add (x y : Q) : Q := binary64 (x + y).

Definition float_div (x y : Q) : result Q :=
  if Qeq_bool y 0 then Raise ZeroDivisionError else Ok (binary64 (x / y)).

(** Python's [min(a, b)] and [max(a, b)]: the first argument is kept unless
    the second is strictly smaller (resp. larger). *)
Definition py_min (a b : Q) : Q := if Qlt_bool b a then b else a.
Definition py_max (a b : Q) : Q := if Qlt_bool a b then b else a.

(** [sum(xs)] on a list of floats. *)
Definition py_sum (xs : list Q) : Q := foldl Qplus 0%Q xs.

(** [l[:n]]: a negative bound counts from the end of the list. *)
Definition py_slice_to {A : Type} (l : list A) (n : Z) : list A :=
  if (0 <=? n)%Z then take (Z.to_nat n) l
  else take (length l - Z.to_nat (- n)) l.

(** Truthiness of an optional float ([None] and [0.0] are falsy). *)
Definition truthy (x : option Q) : bool :=
  match x with
  | None => false
  | Some v => negb (Qeq_bool v 0)
  end.

(** ** Feature table (data_loader.py) *)

(** A peak dictionary as built by load_xcms_data: every key is present. *)
Record xcms_peak : Type := XcmsPeak {
  pk_name : string;
  pk_mz : Q;
  pk_mzmin : Q;
  pk_mzmax : Q;
  pk_rt : Q;
  pk_rtmin : Q;
  pk_rtmax : Q;
  pk_npeaks : Z
}.

(** get_peak_info: first peak carrying the name. *)
Fixpoint get_peak_info (peaks : list xcms_peak) (peak_name : string)
    : option xcms_peak :=
  match peaks with
  | [] => None
  | peak :: rest =>
      if String.eqb (pk_name peak) peak_name then Some peak
      else get_peak_info rest peak_name
  end.

(** ** Feature locator (ms2_extractor.py, find_matching_xcms_peak) *)

(** The guard of the scan: both windows must hold. *)
Definition within (peak : xcms_peak) (mz rt mz_tolerance rt_tolerance : Q)
    : bool :=
  Qle_bool (Qabs (float_sub (pk_mz peak) mz)) mz_tolerance
  && Qle_bool (Qabs (float_sub (pk_rt peak) rt)) rt_tolerance.

(** [score < best_score] where [best_score] starts at [float('inf')],
    modelled by [None]. *)
Definition below (score : Q) (best_score : option Q) : bool :=
  match best_score with
  | None => true
  | Some b => Qlt_bool score b
  end.

(** The [for peak in xcms_peaks] loop, threading [best_match] and
    [best_score]; the differences, the two quotients and their sum are
    binary64 operations. *)
Fixpoint locator_scan (xcms_peaks : list xcms_peak)
    (mz rt mz_tolerance rt_tolerance : Q)
    (best_match : option xcms_peak) (best_score : option Q)
    : result (option xcms_peak) :=
  match xcms_peaks with
  | [] => Ok best_match
  | peak :: rest =>
      let mz_diff := Qabs (float_sub (pk_mz peak) mz) in
      let rt_diff := Qabs (float_sub (pk_rt peak) rt) in
      if Qle_bool mz_diff mz_tolerance && Qle_bool rt_diff rt_tolerance then
        a <-! float_div mz_diff mz_tolerance ;;
        b <-! float_div rt_diff rt_tolerance ;;
        let score := float_add a b in
        if below score best_score
        then locator_scan rest mz rt mz_tolerance rt_tolerance
               (Some peak) (Some score)
        else locator_scan rest mz rt mz_tolerance rt_tolerance
               best_match best_score
      else locator_scan rest mz rt mz_tolerance rt_tolerance
             best_match best_score
  end.

Definition find_matching_xcms_peak (xcms_peaks : list xcms_peak)
    (mz rt mz_tolerance rt_tolerance : Q) : result (option xcms_peak) :=
  locator_scan xcms_peaks mz rt mz_tolerance rt_tolerance None None.

(** ** Secondary lookup (results_processor.py, find_peak_by_mz_rt) *)

Definition DEFAULT_MZ_TOLERANCE : Q := 0.01.
Definition DEFAULT_RT_TOLERANCE : Q := 30.0.

Fixpoint find_peak_by_mz_rt (peaks : list xcms_peak)
    (mz rt mz_tolerance rt_tolerance : Q) : option xcms_peak :=
  match peaks with
  | [] => None
  | peak :: rest =>
      if Qle_bool (Qabs (float_sub (pk_mz peak) mz)) mz_tolerance
         && Qle_bool (Qabs (float_sub (pk_rt peak) rt)) rt_tolerance
      then Some peak
      else find_peak_by_mz_rt rest mz rt mz_tolerance rt_tolerance
  end.

(** ** Correlator (ms2_extractor.py, extract_ms2_spectra) *)

(** A spectrum as the pymzml reader yields it.  An attribute probed with
    [hasattr] is an [option]; a precursor is a dictionary read with
    [.get('mz', None)]. *)
Record raw_spectrum : Type := RawSpectrum {
  ms_level : Z;
  precursors : option (list (option Q));
  scan_time : option Q;
  raw_peaks : option (list (Q * Q))
}.

Record spectrum_dict : Type := SpectrumDict {
  sd_feature_name : string;
  sd_precursor_mz : Q;
  sd_rt : Q;
  sd_mz : list Q;
  sd_intensities : list Q;
  sd_n_peaks : nat;
  sd_matched_xcms_peak : string
}.

Definition get_precursor_mz (spectrum : raw_spectrum) : option Q :=
  match precursors spectrum with
  | Some (p :: _) => p
  | _ => None
  end.

Definition get_precursor_rt (spectrum : raw_spectrum) : option Q :=
  match scan_time spectrum with
  | Some t => Some (t * 60)%Q
  | None => None
  end.

(** Peaks kept by the intensity threshold, in order. *)
Fixpoint keep_peaks (peaks : list (Q * Q)) (min_intensity : Q) : list (Q * Q) :=
  match peaks with
  | [] => []
  | (mz, intensity) :: rest =>
      if Qle_bool min_intensity intensity
      then (mz, intensity) :: keep_peaks rest min_intensity
      else keep_peaks rest min_intensity
  end.

Definition extract_peaks (spectrum : raw_spectrum) (min_intensity : Q)
    : list (Q * Q) :=
  match raw_peaks spectrum with
  | Some ps => keep_peaks ps min_intensity
  | None => []
  end.

(** The loop over the run.  Besides the emitted spectra, the embedding
    records every invocation of the locator (its [mz], [rt] arguments), in
    order; an exception of the locator ends the run. *)
Fixpoint extract_loop (xcms_peaks : list xcms_peak) (run : list raw_spectrum)
    (mz_tolerance rt_tolerance min_intensity : Q)
    : list (Q * Q) * result (list spectrum_dict) :=
  match run with
  | [] => ([], Ok [])
  | spectrum :: rest =>
      let continue :=
        extract_loop xcms_peaks rest mz_tolerance rt_tolerance min_intensity in
      if (ms_level spectrum =? 2)%Z then
        match get_precursor_mz spectrum, get_precursor_rt spectrum with
        | Some precursor_mz, Some precursor_rt =>
            let peaks := extract_peaks spectrum min_intensity in
            if (length peaks =? 0)%nat then continue
            else
              let call := (precursor_mz, precursor_rt) in
              match find_matching_xcms_peak xcms_peaks precursor_mz
                      precursor_rt mz_tolerance rt_tolerance with
              | Raise e => ([call], Raise e)
              | Ok None => (call :: continue.1, continue.2)
              | Ok (Some matched_peak) =>
                  let d := {|
                    sd_feature_name := pk_name matched_peak;
                    sd_precursor_mz := precursor_mz;
                    sd_rt := precursor_rt;
                    sd_mz := peaks.*1;
                    sd_intensities := peaks.*2;
                    sd_n_peaks := length peaks;
                    sd_matched_xcms_peak := pk_name matched_peak
                  |} in
                  (call :: continue.1,
                   out <-! continue.2 ;; Ok (d :: out))
              end
        | _, _ => continue
        end
      else continue
  end.

(** The feature table and the run are read from files by external
    collaborators (load_xcms_data, pymzml); they are arguments here. *)
Definition extract_ms2_spectra (xcms_peaks : list xcms_peak)
    (run : list raw_spectrum) (mz_tolerance rt_tolerance min_intensity : Q)
    : list (Q * Q) * result (list spectrum_dict) :=
  extract_loop xcms_peaks run mz_tolerance rt_tolerance min_intensity.

(** ** Spectra and match dictionaries (matchms, spectral_matcher.py) *)

(** A matchms [Spectrum]: the peak arrays and the metadata keys the core
    reads with [spectrum.get(key)]. *)
Record Spectrum : Type := MkSpectrum {
  peaks_mz : list Q;
  peaks_intensities : list Q;
  spectrum_id : option string;
  sp_compound_name : option string;
  sp_name : option string;
  sp_precursor_mz : option Q;
  sp_retention_time : option Q;
  sp_smiles : option string;
  sp_inchi : option string;
  sp_inchikey : option string
}.

Record match_metadata : Type := MatchMetadata {
  md_precursor_mz : option Q;
  md_retention_time : option Q;
  md_smiles : option string;
  md_inchi : option string;
  md_inchikey : option string;
  md_analog : option bool
}.

Record match_dict : Type := MatchDict {
  library_id : string;
  compound_name : string;
  score : Q;
  algorithm : string;
  matched_peaks : Z;
  total_peaks : Z;
  metadata : match_metadata
}.

(** The ["query_spectrum"] entry of a result; [feature_name] is read by the
    aggregator with a default, so the key may be missing. *)
Record query_info : Type := QueryInfo {
  qi_precursor_mz : option Q;
  qi_retention_time : option Q;
  qi_feature_name : option string
}.

(** One entry of the list returned by a matcher.  [query_spectrum] and
    [best_match] are read with [.get]: an entry without them (the error
    entries of match_with_ms2query) has [None] there. *)
Record match_result : Type := MatchResult {
  query_index : Z;
  query_spectrum : option query_info;
  matches : list match_dict;
  best_match : option match_dict
}.

(** *** count_matched_peaks *)

(** The inner [for j, mz_val2 in enumerate(mz2)] loop from index [j] on:
    the index of the first library peak that is not used and lies within
    the tolerance, if any ([break]). *)
Fixpoint first_free (mz2 : list Q) (j : nat) (used_indices : gset nat)
    (mz_val mz_tolerance : Q) : option nat :=
  match mz2 with
  | [] => None
  | mz_val2 :: rest =>
      if bool_decide (j ∈ used_indices)
      then first_free rest (S j) used_indices mz_val mz_tolerance
      else if Qle_bool (Qabs (mz_val - mz_val2)) mz_tolerance
      then Some j
      else first_free rest (S j) used_indices mz_val mz_tolerance
  end.

(** The outer [for mz_val in mz1] loop, threading [matched] and
    [used_indices]. *)
Fixpoint count_loop (mz1 mz2 : list Q) (mz_tolerance : Q)
    (matched : nat) (used_indices : gset nat) : nat * gset nat :=
  match mz1 with
  | [] => (matched, used_indices)
  | mz_val :: rest =>
      match first_free mz2 0 used_indices mz_val mz_tolerance with
      | Some j =>
          count_loop rest mz2 mz_tolerance (matched + 1) ({[j]} ∪ used_indices)
      | None => count_loop rest mz2 mz_tolerance matched used_indices
      end
  end.

Definition count_matched_peaks (spectrum1 spectrum2 : Spectrum)
    (mz_tolerance : Q) : nat :=
  (count_loop (peaks_mz spectrum1) (peaks_mz spectrum2) mz_tolerance 0 ∅).1.

(** *** match_with_traditional *)

(** The similarity objects of matchms, built with their tolerance. *)
Inductive similarity_fn : Type :=
  | DotProduct (tolerance : Q)
  | CosineGreedy (tolerance : Q)
  | ModifiedCosine (tolerance : Q).

(** What [similarity_fn.pair(query, lib)] can do: raise, return [None], or
    return a score (its first component). *)
Inductive pair_outcome : Type :=
  | PairRaises
  | PairNone
  | PairScore (s : Q).

Definition select_similarity (algorithm : string) (mz_tolerance : Q)
    : result similarity_fn :=
  if String.eqb algorithm "dot_product" then Ok (DotProduct mz_tolerance)
  else if String.eqb algorithm "cosine" then Ok (CosineGreedy mz_tolerance)
  else if String.eqb algorithm "modified_cosine"
  then Ok (ModifiedCosine mz_tolerance)
  else Raise ValueError.

(** [lib.get("compound_name") or lib.get("name", "Unknown")]: the empty
    string is falsy.  A [name] key stored with no value is not modelled. *)
Definition display_name (lib_spectrum : Spectrum) : string :=
  let fallback := default "Unknown" (sp_name lib_spectrum) in
  match sp_compound_name lib_spectrum with
  | Some s => if String.eqb s "" then fallback else s
  | None => fallback
  end.

(** [matches.sort(key=lambda x: x["score"], reverse=True)].  Python's sort
    is stable, also under [reverse=True]; the result of a stable sort is
    determined by its input ([Ranking.sort_by_score_reverse_unique] below),
    and is computed here by insertion. *)
Fixpoint insert_by_score (m : match_dict) (sorted : list match_dict)
    : list match_dict :=
  match sorted with
  | [] => [m]
  | x :: rest =>
      if Qlt_bool (score m) (score x) then x :: insert_by_score m rest
      else m :: x :: rest
  end.

Definition sort_by_score_reverse (ms : list match_dict) : list match_dict :=
  foldr insert_by_score [] ms.

Section Matching.

(** The scoring of matchms is an external collaborator. *)
Variable pair : similarity_fn -> Spectrum -> Spectrum -> pair_outcome.

(** The [for lib_spectrum in library_spectra] loop for query number [i].
    Returns the calls made to [pair], in order, and the [matches] list
    before sorting.  An exception inside the [try] skips the pair. *)
Fixpoint score_library (fn : similarity_fn) (algorithm : string)
    (mz_tolerance min_score : Q) (i : nat) (query_spectrum : Spectrum)
    (library_spectra : list Spectrum)
    : list (Spectrum * Spectrum) * list match_dict :=
  match library_spectra with
  | [] => ([], [])
  | lib_spectrum :: rest =>
      let continue :=
        score_library fn algorithm mz_tolerance min_score i query_spectrum rest in
      let call := (query_spectrum, lib_spectrum) in
      match pair fn query_spectrum lib_spectrum with
      | PairRaises => (call :: continue.1, continue.2)
      | PairNone => (call :: continue.1, continue.2)
      | PairScore s =>
          if Qlt_bool s min_score then (call :: continue.1, continue.2)
          else
            let match_dict := {|
              library_id :=
                default ("lib_" +:+ pretty i) (spectrum_id lib_spectrum);
              compound_name := display_name lib_spectrum;
              score := s;
              algorithm := algorithm;
              matched_peaks :=
                Z.of_nat (count_matched_peaks query_spectrum lib_spectrum
                            mz_tolerance);
              total_peaks := Z.of_nat (length (peaks_mz query_spectrum));
              metadata := {|
                md_precursor_mz := sp_precursor_mz lib_spectrum;
                md_retention_time := sp_retention_time lib_spectrum;
                md_smiles := sp_smiles lib_spectrum;
                md_inchi := sp_inchi lib_spectrum;
                md_inchikey := sp_inchikey lib_spectrum;
                md_analog := None
              |}
            |} in
            (call :: continue.1, match_dict :: continue.2)
      end
  end.

(** One iteration of the [for i, query_spectrum in enumerate(...)] loop. *)
Definition match_query (fn : similarity_fn) (algorithm : string)
    (mz_tolerance min_score : Q) (top_n : Z) (library_spectra : list Spectrum)
    (i : nat) (query_spectrum : Spectrum)
    : list (Spectrum * Spectrum) * match_result :=
  let scored :=
    score_library fn algorithm mz_tolerance min_score i query_spectrum
      library_spectra in
  let top_matches := py_slice_to (sort_by_score_reverse scored.2) top_n in
  (scored.1,
   {| query_index := Z.of_nat i;
      query_spectrum := Some {|
        qi_precursor_mz := sp_precursor_mz query_spectrum;
        qi_retention_time := sp_retention_time query_spectrum;
        qi_feature_name := None
      |};
      matches := top_matches;
      best_match := head top_matches |}).

Fixpoint match_queries (fn : similarity_fn) (algorithm : string)
    (mz_tolerance min_score : Q) (top_n : Z) (library_spectra : list Spectrum)
    (i : nat) (query_spectra : list Spectrum)
    : list (Spectrum * Spectrum) * list match_result :=
  match query_spectra with
  | [] => ([], [])
  | query_spectrum :: rest =>
      let r := match_query fn algorithm mz_tolerance min_score top_n
                 library_spectra i query_spectrum in
      let rs := match_queries fn algorithm mz_tolerance min_score top_n
                  library_spectra (S i) rest in
      (r.1 ++ rs.1, r.2 :: rs.2)
  end.

(** Returns the calls made to [pair] and the outcome. *)
Definition match_with_traditional (query_spectra library_spectra : list Spectrum)
    (algorithm : string) (mz_tolerance min_score : Q) (top_n : Z)
    : list (Spectrum * Spectrum) * result (list match_result) :=
  match select_similarity algorithm mz_tolerance with
  | Raise e => ([], Raise e)
  | Ok similarity_fn =>
      let rs := match_queries similarity_fn algorithm mz_tolerance min_score
                  top_n library_spectra 0 query_spectra in
      (rs.1, Ok rs.2)
  end.

End Matching.

(** ** Result aggregator (results_processor.py) *)

(** calculate_confidence_score.  The two divisions are Python divisions;
    both are guarded in the source. *)
Definition calculate_confidence_score (matches : list match_dict)
    (best_match : option match_dict) : result Q :=
  match best_match with
  | None => Ok 0.0%Q
  | Some best_match =>
      let base_score := score best_match in
      base_score <-!
        (if (1 <? length matches)%nat then
           let top_scores := score <$> take 3 matches in
           avg_top_score <-!
             py_div (py_sum top_scores) (inject_Z (Z.of_nat (length top_scores))) ;;
           let consistency_boost :=
             py_min 0.2 ((avg_top_score - base_score) * 0.5) in
           Ok (base_score + consistency_boost)%Q
         else Ok base_score) ;;
      let matched_peaks := matched_peaks best_match in
      let total_peaks := total_peaks best_match in
      peak_ratio <-!
        (if (0 <? total_peaks)%Z
         then py_div (inject_Z matched_peaks) (inject_Z total_peaks)
         else Ok 0%Q) ;;
      let base_score := (base_score * (0.5 + 0.5 * peak_ratio))%Q in
      Ok (py_min 1.0 (py_max 0.0 base_score))
  end.

Record combined_result : Type := CombinedResult {
  cr_feature_name : string;
  cr_xcms_peak : option xcms_peak;
  cr_precursor_mz : option Q;
  cr_retention_time : option Q;
  cr_algorithm : string;
  cr_matches : list match_dict;
  cr_best_match : option match_dict;
  cr_match_count : nat;
  cr_confidence_score : Q
}.

(** The feature resolution of process_matching_results: by name first,
    then by m/z and retention time when both are truthy. *)
Definition resolve_peak (xcms_peaks : list xcms_peak) (feature_name : string)
    (precursor_mz rt : option Q) : option xcms_peak :=
  match get_peak_info xcms_peaks feature_name with
  | Some peak => Some peak
  | None =>
      match precursor_mz, rt with
      | Some m, Some t =>
          if truthy precursor_mz && truthy rt
          then find_peak_by_mz_rt xcms_peaks m t
                 DEFAULT_MZ_TOLERANCE DEFAULT_RT_TOLERANCE
          else None
      | _, _ => None
      end
  end.

(** The body of the loop of process_matching_results. *)
Definition process_one (xcms_peaks : list xcms_peak) (algorithm : string)
    (match_result : match_result) : result combined_result :=
  let query_index := query_index match_result in
  let query_spectrum :=
    default (QueryInfo None None None) (query_spectrum match_result) in
  let matches := matches match_result in
  let best_match := best_match match_result in
  let feature_name :=
    default ("Feature_" +:+ pretty query_index)
      (qi_feature_name query_spectrum) in
  let xcms_peak :=
    resolve_peak xcms_peaks feature_name (qi_precursor_mz query_spectrum)
      (qi_retention_time query_spectrum) in
  confidence <-! calculate_confidence_score matches best_match ;;
  Ok {| cr_feature_name := feature_name;
        cr_xcms_peak := xcms_peak;
        cr_precursor_mz := qi_precursor_mz query_spectrum;
        cr_retention_time := qi_retention_time query_spectrum;
        cr_algorithm := algorithm;
        cr_matches := matches;
        cr_best_match := best_match;
        cr_match_count := length matches;
        cr_confidence_score := confidence |}.

Fixpoint process_matching_results (xcms_peaks : list xcms_peak)
    (matching_results : list match_result) (algorithm : string)
    : result (list combined_result) :=
  match matching_results with
  | [] => Ok []
  | match_result :: rest =>
      combined_result <-! process_one xcms_peaks algorithm match_result ;;
      processed_results <-! process_matching_results xcms_peaks rest algorithm ;;
      Ok (combined_result :: processed_results)
  end.

(** ** The learned-ranking matcher (ms2query_matcher.py) and the workflow
       (main.py, match_spectra) *)

(** A match as MS2Query returns it: a dictionary read with [.get]. *)
Record ms2query_match : Type := Ms2queryMatch {
  rm_library_id : option string;
  rm_compound_name : option string;
  rm_ms2query_score : option Q;
  rm_matched_peaks : option Z;
  rm_precursor_mz : option Q;
  rm_retention_time : option Q;
  rm_smiles : option string;
  rm_inchi : option string;
  rm_inchikey : option string;
  rm_analog : option bool
}.

Definition ms2query_match_dict (query_spectrum : Spectrum)
    (match_ : ms2query_match) : match_dict :=
  {| library_id := default "" (rm_library_id match_);
     compound_name := default "" (rm_compound_name match_);
     score := default 0.0%Q (rm_ms2query_score match_);
     algorithm := "ms2query";
     matched_peaks := default 0%Z (rm_matched_peaks match_);
     total_peaks := Z.of_nat (length (peaks_mz query_spectrum));
     metadata := {|
       md_precursor_mz := rm_precursor_mz match_;
       md_retention_time := rm_retention_time match_;
       md_smiles := rm_smiles match_;
       md_inchi := rm_inchi match_;
       md_inchikey := rm_inchikey match_;
       md_analog := Some (default false (rm_analog match_))
     |} |}.

Section Workflow.

Variable pair : similarity_fn -> Spectrum -> Spectrum -> pair_outcome.

(** The MS2Query package is an external collaborator: whether its import
    succeeded, the loading of a library object for a library path ([None]
    when both loaders fail, which the source turns into a ValueError) and
    the matching of one spectrum ([None] when it raises). *)
Variable MS2QUERY_AVAILABLE : bool.
Variable ms2library : Type.
Variable load_ms2library : string -> option ms2library.
Variable match_spectrum :
  ms2library -> Spectrum -> bool -> Z -> option (list ms2query_match).

Definition is_ms2query_available : bool := MS2QUERY_AVAILABLE.

(** The loop over the queries: a failing query yields an entry that has
    only [query_index], [error] and an empty [matches]. *)
Fixpoint ms2query_loop (lib : ms2library) (analog_search : bool) (top_n : Z)
    (i : nat) (query_spectra : list Spectrum) : list match_result :=
  match query_spectra with
  | [] => []
  | query_spectrum :: rest =>
      let entry :=
        match match_spectrum lib query_spectrum analog_search top_n with
        | Some matches =>
            let match_results :=
              ms2query_match_dict query_spectrum <$> matches in
            {| query_index := Z.of_nat i;
               query_spectrum := Some {|
                 qi_precursor_mz := sp_precursor_mz query_spectrum;
                 qi_retention_time := sp_retention_time query_spectrum;
                 qi_feature_name := None
               |};
               matches := match_results;
               best_match := head match_results |}
        | None =>
            {| query_index := Z.of_nat i;
               query_spectrum := None;
               matches := [];
               best_match := None |}
        end in
      entry :: ms2query_loop lib analog_search top_n (S i) rest
  end.

Definition match_with_ms2query (query_spectra : list Spectrum)
    (library_path : option string) (ms2lib : option ms2library)
    (analog_search : bool) (top_n : Z) : result (list match_result) :=
  if negb MS2QUERY_AVAILABLE then Raise ImportError
  else
    lib <-!
      match ms2lib with
      | Some lib => Ok lib
      | None =>
          match library_path with
          | None => Raise ValueError
          | Some path =>
              match load_ms2library path with
              | Some lib => Ok lib
              | None => Raise ValueError
              end
          end
      end ;;
    Ok (ms2query_loop lib analog_search top_n 0 query_spectra).

Record MatchingConfig : Type := MkMatchingConfig {
  cfg_mz_tolerance : Q;
  cfg_rt_tolerance : Q;
  cfg_min_score : Q;
  cfg_top_n : Z
}.

Record matching_response : Type := MatchingResponse {
  resp_algorithm : string;
  resp_matches : list match_result;
  resp_processed_results : list combined_result
}.

(** Step 3 of match_spectra: the matcher that runs, with the algorithm name
    carried on to step 4.  Any exception in the ms2query branch is caught
    and answered by the cosine matcher. *)
Definition run_matching (algorithm : string)
    (query_spectra library_spectra : list Spectrum) (library_dir : string)
    (config : MatchingConfig) : result (list match_result * string) :=
  let traditional algorithm :=
    (match_with_traditional pair query_spectra library_spectra algorithm
       (cfg_mz_tolerance config) (cfg_min_score config) (cfg_top_n config)).2 in
  if String.eqb algorithm "ms2query" then
    let attempt :=
      if is_ms2query_available
      then match_with_ms2query query_spectra (Some library_dir) None true
             (cfg_top_n config)
      else Raise ImportError in
    match attempt with
    | Ok matching_results => Ok (matching_results, algorithm)
    | Raise _ =>
        matching_results <-! traditional "cosine" ;;
        Ok (matching_results, "cosine")
    end
  else
    matching_results <-! traditional algorithm ;;
    Ok (matching_results, algorithm).

(** Steps 3 and 4 of match_spectra. *)
Definition match_spectra (algorithm : string)
    (query_spectra library_spectra : list Spectrum) (library_dir : string)
    (config : MatchingConfig) (xcms_peaks : list xcms_peak)
    : result matching_response :=
  r <-! run_matching algorithm query_spectra library_spectra library_dir config ;;
  processed_results <-! process_matching_results xcms_peaks r.1 r.2 ;;
  Ok {| resp_algorithm := r.2;
        resp_matches := r.1;
        resp_processed_results := processed_results |}.

End Workflow.

(** * Properties *)

(** ** Rational comparisons *)

Lemma Qlt_bool_iff (x y : Q) : Qlt_bool x y = true <-> (x < y)%Q.
Proof.
  unfold Qlt_bool. rewrite negb_true_iff. split.
  - intros H. apply Qnot_le_lt. intros Hle.
    apply Qle_bool_iff in Hle. congruence.
  - intros H. destruct (Qle_bool y x) eqn:E; [|done].
    apply Qle_bool_iff in E. apply Qlt_not_le in H. contradiction.
Qed.

Lemma Qlt_bool_false (x y : Q) : Qlt_bool x y = false <-> (y <= x)%Q.
Proof.
  unfold Qlt_bool. rewrite negb_false_iff. apply Qle_bool_iff.
Qed.

Lemma Qle_bool_false (x y : Q) : Qle_bool x y = false <-> (y < x)%Q.
Proof.
  split.
  - intros H. apply Qnot_le_lt. intros Hle.
    apply Qle_bool_iff in Hle. congruence.
  - intros H. destruct (Qle_bool x y) eqn:E; [|done].
    apply Qle_bool_iff in E. apply Qlt_not_le in H. contradiction.
Qed.

Lemma Qeq_bool_false (x y : Q) : Qeq_bool x y = false <-> ~ (x == y)%Q.
Proof.
  split.
  - intros H Heq. apply Qeq_bool_iff in Heq. congruence.
  - intros H. destruct (Qeq_bool x y) eqn:E; [|done].
    apply Qeq_bool_iff in E. contradiction.
Qed.

Lemma py_div_nonzero (x y : Q) : ~ (y == 0)%Q -> py_div x y = Ok (x / y)%Q.
Proof.
  intros H. unfold py_div. apply Qeq_bool_false in H. by rewrite H.
Qed.

Lemma float_div_nonzero (x y : Q) :
  ~ (y == 0)%Q -> float_div x y = Ok (binary64 (x / y)).
Proof.
  intros H. unfold float_div. apply Qeq_bool_false in H. by rewrite H.
Qed.

(** The rounding at work: the binary64 numbers 0.1 and 1.75 / 30; two ties
    above 2^53, both resolved to the even mantissa; a tie at one and a
    half times the smallest positive binary64 number 2^-1074, and the
    rounding to zero of a half of it. *)
Example binary64_values :
  (binary64 0.1 == 3602879701896397 # 36028797018963968)%Q
  /\ (binary64 (1.75 / 30) == 8406719304424926 # 144115188075855872)%Q
  /\ (binary64 9007199254740993 == 9007199254740992)%Q
  /\ (binary64 9007199254740995 == 9007199254740996)%Q
  /\ (binary64 (3 # Z.to_pos (2 ^ 1075)) == 2 # Z.to_pos (2 ^ 1074))%Q
  /\ (binary64 (1 # Z.to_pos (2 ^ 1075)) == 0)%Q.
Proof. repeat split; vm_compute; reflexivity. Qed.

(** ** The feature locator *)

Module Locator.

(** The combined normalised distance of the specification, in exact
    arithmetic. *)
Definition distance (peak : xcms_peak) (mz rt mz_tolerance rt_tolerance : Q) : Q :=
  (Qabs (pk_mz peak - mz) / mz_tolerance
   + Qabs (pk_rt peak - rt) / rt_tolerance)%Q.

(** The same distance as the code computes it: the two differences, the
    two quotients and the sum are rounded to binary64. *)
Definition computed_distance (peak : xcms_peak)
    (mz rt mz_tolerance rt_tolerance : Q) : Q :=
  float_add
    (binary64 (Qabs (float_sub (pk_mz peak) mz) / mz_tolerance))
    (binary64 (Qabs (float_sub (pk_rt peak) rt) / rt_tolerance)).

(** An answer [r] of the locator that is nearest for the measure [d]:
    [None] when no feature is within both windows; otherwise a feature
    within both windows, of least [d], and the earliest of that [d]. *)
Definition nearest_by (d : xcms_peak -> Q) (xcms_peaks : list xcms_peak)
    (mz rt mz_tolerance rt_tolerance : Q)
    (r : result (option xcms_peak)) : Prop :=
  let cand p := within p mz rt mz_tolerance rt_tolerance = true in
  ((forall p, p ∈ xcms_peaks -> ~ cand p) -> r = Ok None)
  /\ ((exists p, p ∈ xcms_peaks /\ cand p) ->
      exists i f, r = Ok (Some f)
        /\ xcms_peaks !! i = Some f
        /\ cand f
        /\ forall j g, xcms_peaks !! j = Some g -> cand g ->
             (d f <= d g)%Q /\ ((j < i)%nat -> (d f < d g)%Q)).

(** The answer that is nearest for the distance as the code computes it. *)
Definition locator_spec (xcms_peaks : list xcms_peak)
    (mz rt mz_tolerance rt_tolerance : Q)
    (r : result (option xcms_peak)) : Prop :=
  nearest_by (fun p => computed_distance p mz rt mz_tolerance rt_tolerance)
    xcms_peaks mz rt mz_tolerance rt_tolerance r.

(** The answer that is nearest for the exact distance: the claim as the
    specification states it. *)
Definition stated_spec (xcms_peaks : list xcms_peak)
    (mz rt mz_tolerance rt_tolerance : Q)
    (r : result (option xcms_peak)) : Prop :=
  nearest_by (fun p => distance p mz rt mz_tolerance rt_tolerance)
    xcms_peaks mz rt mz_tolerance rt_tolerance r.

Section Scan.

Variables mz rt mz_tolerance rt_tolerance : Q.
Hypothesis mz_tolerance_nonzero : ~ (mz_tolerance == 0)%Q.
Hypothesis rt_tolerance_nonzero : ~ (rt_tolerance == 0)%Q.

Let cand (p : xcms_peak) : Prop :=
  within p mz rt mz_tolerance rt_tolerance = true.
Let d (p : xcms_peak) : Q :=
  computed_distance p mz rt mz_tolerance rt_tolerance.

(** The loop invariant after the features [pre] have been visited. *)
Definition scanned (pre : list xcms_peak)
    (best_match : option xcms_peak) (best_score : option Q) : Prop :=
  match best_match, best_score with
  | None, None => forall p, p ∈ pre -> ~ cand p
  | Some f, Some s =>
      s = d f /\ exists i, pre !! i = Some f /\ cand f
        /\ forall j g, pre !! j = Some g -> cand g ->
             (d f <= d g)%Q /\ ((j < i)%nat -> (d f < d g)%Q)
  | _, _ => False
  end.

Lemma scanned_skip pre peak bm bs :
  ~ cand peak -> scanned pre bm bs -> scanned (pre ++ [peak]) bm bs.
Proof using Type.
  intros Hn. unfold scanned. destruct bm as [f|], bs as [s|]; try done.
  - intros [-> (i & Hi & Hf & Hmin)]. split; [done|].
    exists i. split; [by apply lookup_app_l_Some|]. split; [done|].
    intros j g Hj Hg. apply lookup_app_Some in Hj as [Hj|[_ Hj]].
    + by apply Hmin.
    + apply list_lookup_singleton_Some in Hj as [_ <-]. contradiction.
  - intros H p Hp. apply elem_of_app in Hp as [Hp|Hp]; [by apply H|].
    apply list_elem_of_singleton in Hp as ->. done.
Qed.

Lemma scanned_take pre peak bm bs :
  cand peak -> below (d peak) bs = true -> scanned pre bm bs ->
  scanned (pre ++ [peak]) (Some peak) (Some (d peak)).
Proof using Type.
  intros Hc Hb Hs. split; [done|]. exists (length pre).
  split; [by apply list_lookup_middle|]. split; [done|].
  intros j g Hj Hg. apply lookup_app_Some in Hj as [Hj|[Hle Hj]].
  - unfold scanned in Hs. destruct bm as [f|], bs as [s|]; try done.
    + destruct Hs as [-> (i & Hi & Hf & Hmin)].
      apply Qlt_bool_iff in Hb. destruct (Hmin j g Hj Hg) as [Hfg _].
      split; [|intros _]; [apply Qlt_le_weak|]; by eapply Qlt_le_trans.
    + exfalso. eapply Hs; [|exact Hg]. by eapply list_elem_of_lookup_2.
  - apply list_lookup_singleton_Some in Hj as [Hj <-].
    split; [apply Qle_refl|]. lia.
Qed.

Lemma scanned_keep pre peak bm bs :
  below (d peak) bs = false -> scanned pre bm bs ->
  scanned (pre ++ [peak]) bm bs.
Proof using Type.
  intros Hb. unfold scanned. destruct bm as [f|], bs as [s|]; try done.
  intros [-> (i & Hi & Hf & Hmin)]. split; [done|].
  exists i. split; [by apply lookup_app_l_Some|]. split; [done|].
  intros j g Hj Hg. apply lookup_app_Some in Hj as [Hj|[Hle Hj]].
  - by apply Hmin.
  - apply list_lookup_singleton_Some in Hj as [Hj <-].
    apply Qlt_bool_false in Hb. split; [done|].
    apply lookup_lt_Some in Hi. lia.
Qed.

Lemma locator_scan_cons peak rest bm bs :
  locator_scan (peak :: rest) mz rt mz_tolerance rt_tolerance bm bs =
  if within peak mz rt mz_tolerance rt_tolerance then
    a <-! float_div (Qabs (float_sub (pk_mz peak) mz)) mz_tolerance ;;
    b <-! float_div (Qabs (float_sub (pk_rt peak) rt)) rt_tolerance ;;
    if below (float_add a b) bs
    then locator_scan rest mz rt mz_tolerance rt_tolerance
           (Some peak) (Some (float_add a b))
    else locator_scan rest mz rt mz_tolerance rt_tolerance bm bs
  else locator_scan rest mz rt mz_tolerance rt_tolerance bm bs.
Proof using Type. reflexivity. Qed.

Lemma locator_scan_scanned rest : forall pre bm bs,
  scanned pre bm bs ->
  exists bm' bs',
    locator_scan rest mz rt mz_tolerance rt_tolerance bm bs = Ok bm'
    /\ scanned (pre ++ rest) bm' bs'.
Proof using mz_tolerance_nonzero rt_tolerance_nonzero.
  induction rest as [|peak rest IH]; intros pre bm bs Hs.
  - exists bm, bs. by rewrite app_nil_r.
  - rewrite cons_middle, app_assoc, locator_scan_cons.
    destruct (within peak mz rt mz_tolerance rt_tolerance) eqn:Hw.
    + rewrite !float_div_nonzero by done. unfold bind.
      change (float_add _ _) with (d peak).
      destruct (below (d peak) bs) eqn:Hb; apply IH.
      * by eapply scanned_take.
      * by apply scanned_keep.
    + apply IH, scanned_skip; [|done]. unfold cand. by rewrite Hw.
Qed.

Lemma find_matching_xcms_peak_spec xcms_peaks :
  locator_spec xcms_peaks mz rt mz_tolerance rt_tolerance
    (find_matching_xcms_peak xcms_peaks mz rt mz_tolerance rt_tolerance).
Proof using mz_tolerance_nonzero rt_tolerance_nonzero.
  unfold find_matching_xcms_peak.
  destruct (locator_scan_scanned xcms_peaks [] None None) as (bm & bs & -> & Hs).
  { intros p Hp. by apply elem_of_nil in Hp. }
  simpl in Hs. unfold scanned in Hs. split.
  - intros Hnone. destruct bm as [f|], bs as [s|]; try done.
    destruct Hs as [_ (i & Hi & Hf & _)]. exfalso.
    eapply Hnone; [|exact Hf]. by eapply list_elem_of_lookup_2.
  - intros (p & Hp & Hc). destruct bm as [f|], bs as [s|]; try done.
    + destruct Hs as [_ (i & Hi & Hf & Hmin)]. by exists i, f.
    + exfalso. by eapply Hs.
Qed.

End Scan.

End Locator.

(** *** Claim C1 *)

Definition F1 : xcms_peak :=
  XcmsPeak "F1" 150.0 149.99 150.01 120.0 110.0 130.0 1.

(** Scenario A of the specification: the query lies within both windows. *)
Example locator_scenario_A :
  find_matching_xcms_peak [F1] 150.005 121.0 0.01 30 = Ok (Some F1).
Proof. vm_compute. reflexivity. Qed.

(** Scenario B: the m/z window is missed. *)
Example locator_scenario_B :
  find_matching_xcms_peak [F1] 150.02 121.0 0.01 30 = Ok None.
Proof. vm_compute. reflexivity. Qed.

(** C1, as amended: for every list of features, every query pair (mz, rt)
    and every pair of tolerances that are both different from zero,
    find_matching_xcms_peak returns None when no feature satisfies both
    |feature.mz - mz| <= mz_tolerance and |feature.rt - rt| <= rt_tolerance;
    otherwise it returns a feature satisfying both bounds that minimizes
    |dmz|/mz_tolerance + |drt|/rt_tolerance, as the code computes it in
    binary64, over all such candidates, the earliest-encountered one among
    those of least computed distance. *)
Theorem find_matching_xcms_peak_nearest
    (xcms_peaks : list xcms_peak) (mz rt mz_tolerance rt_tolerance : Q) :
  ~ (mz_tolerance == 0)%Q ->
  ~ (rt_tolerance == 0)%Q ->
  Locator.locator_spec xcms_peaks mz rt mz_tolerance rt_tolerance
    (find_matching_xcms_peak xcms_peaks mz rt mz_tolerance rt_tolerance).
Proof.
  intros Hmz Hrt. by apply Locator.find_matching_xcms_peak_spec.
Qed.

Lemma find_matching_xcms_peak_nearest_witness :
  ~ (0.01 == 0)%Q /\ ~ (30 == 0)%Q
  /\ Locator.locator_spec [F1] 150.005 121.0 0.01 30
       (find_matching_xcms_peak [F1] 150.005 121.0 0.01 30).
Proof.
  split; [intros H; vm_compute in H; discriminate H|].
  split; [intros H; vm_compute in H; discriminate H|].
  apply (find_matching_xcms_peak_nearest [F1] 150.005 121.0 0.01 30).
  - intros H; vm_compute in H; discriminate H.
  - intros H; vm_compute in H; discriminate H.
Defined.

(** Two features at the same exact distance 11/60 of the query
    (150.0, 120.0) under the tolerances 0.25 and 30; every number involved
    is a binary64 number. *)
Definition P1 : xcms_peak :=
  XcmsPeak "P1" 150.03125 150.0 150.0625 121.75 120.0 123.5 1.

Definition P2 : xcms_peak :=
  XcmsPeak "P2" 150.0 149.9375 150.0625 125.5 124.0 127.0 1.

Example locator_exact_tie :
  (Locator.distance P1 150.0 120.0 0.25 30 == 11 # 60)%Q
  /\ (Locator.distance P2 150.0 120.0 0.25 30 == 11 # 60)%Q.
Proof. split; vm_compute; reflexivity. Qed.

(** The code computes 0.18333333333333335 for the first feature and
    0.18333333333333332 for the second, and returns the second. *)
Example locator_computed_tie :
  (Locator.computed_distance P1 150.0 120.0 0.25 30
   == 6605279453476728 # 36028797018963968)%Q
  /\ (Locator.computed_distance P2 150.0 120.0 0.25 30
      == 6605279453476727 # 36028797018963968)%Q
  /\ find_matching_xcms_peak [P1; P2] 150.0 120.0 0.25 30 = Ok (Some P2).
Proof. repeat split; vm_compute; reflexivity. Qed.

(** C1 as stated fails in two ways.  At a zero tolerance, a feature that
    coincides with the query in m/z is within both windows, and the
    division by the zero tolerance raises instead of returning it.  At
    tolerances different from zero, two candidates at the same exact
    distance can be given different computed distances by the rounding of
    the quotients and of the sum, and the later one is then returned. *)
Lemma find_matching_xcms_peak_not_as_stated :
  ~ Locator.stated_spec [F1] 150.0 121.0 0 30
      (find_matching_xcms_peak [F1] 150.0 121.0 0 30)
  /\ ~ Locator.stated_spec [P1; P2] 150.0 120.0 0.25 30
        (find_matching_xcms_peak [P1; P2] 150.0 120.0 0.25 30).
Proof.
  split.
  - intros [_ H]. destruct H as (i & f & Hr & _).
    + exists F1. split; [apply list_elem_of_here|]. vm_compute. reflexivity.
    + vm_compute in Hr. discriminate Hr.
  - intros [_ H]. destruct H as (i & f & Hr & Hi & _ & Hmin).
    + exists P1. split; [apply list_elem_of_here|]. vm_compute. reflexivity.
    + assert (f = P2) as ->.
      { destruct locator_computed_tie as (_ & _ & Hfind).
        rewrite Hfind in Hr. by injection Hr. }
      destruct i as [|[|i]]; [discriminate Hi| |discriminate Hi].
      destruct (Hmin 0%nat P1 eq_refl) as [_ Hlt];
        [vm_compute; reflexivity|].
      specialize (Hlt (Nat.lt_0_succ 0)).
      destruct locator_exact_tie as [H1 H2]. rewrite H1, H2 in Hlt.
      by apply Qlt_irrefl in Hlt.
Qed.

(** ** count_matched_peaks *)

Module Counting.

(** A query peak and a library peak are within the tolerance. *)
Definition close (mz_tolerance mz_val mz_val2 : Q) : bool :=
  Qle_bool (Qabs (mz_val - mz_val2)) mz_tolerance.

Lemma first_free_Some mz2 : forall j used q tol k,
  first_free mz2 j used q tol = Some k ->
  (j <= k)%nat /\ (k ∉ used)
  /\ exists l, mz2 !! (k - j)%nat = Some l /\ close tol q l = true.
Proof.
  induction mz2 as [|l mz2 IH]; intros j used q tol k; [done|].
  cbn [first_free]. case_bool_decide as Hu.
  - intros H. apply IH in H as (Hle & Hk & l' & Hl & Hc).
    split; [lia|]. split; [done|]. exists l'. split; [|done].
    replace (k - j)%nat with (S (k - S j)) by lia. done.
  - destruct (Qle_bool _ _) eqn:Hc.
    + intros [= <-]. split; [lia|]. split; [done|].
      exists l. rewrite Nat.sub_diag. done.
    + intros H. apply IH in H as (Hle & Hk & l' & Hl & Hc').
      split; [lia|]. split; [done|]. exists l'. split; [|done].
      replace (k - j)%nat with (S (k - S j)) by lia. done.
Qed.


(** Every claimed index is a fresh index of the library list, and the
    counter grows by one with each of them. *)
Lemma count_loop_claims mz2 tol mz1 : forall matched used,
  (forall j, j ∈ used -> (j < length mz2)%nat) ->
  let r := count_loop mz1 mz2 tol matched used in
  (matched <= r.1 <= matched + length mz1)%nat
  /\ (r.1 - matched + size used = size r.2)%nat
  /\ (forall j, j ∈ r.2 -> (j < length mz2)%nat).
Proof.
  induction mz1 as [|q mz1 IH]; intros matched used Hb; cbn [count_loop].
  - cbn. split; [lia|]. split; [lia|done].
  - destruct (first_free mz2 0 used q tol) as [j|] eqn:Hf.
    + apply first_free_Some in Hf as (_ & Hj & l & Hl & _).
      rewrite Nat.sub_0_r in Hl. apply lookup_lt_Some in Hl.
      destruct (IH (matched + 1)%nat ({[j]} ∪ used)) as (H1 & H2 & H3).
      { intros k [->%elem_of_singleton|Hk]%elem_of_union; [done|by apply Hb]. }
      rewrite size_union, size_singleton in H2
        by (by apply disjoint_singleton_l).
      cbn [length]. split; [lia|]. split; [lia|done].
    + destruct (IH matched used Hb) as (H1 & H2 & H3).
      cbn [length]. split; [lia|]. split; [lia|done].
Qed.

Lemma size_below (n : nat) (X : gset nat) :
  (forall j, j ∈ X -> (j < n)%nat) -> (size X <= n)%nat.
Proof.
  intros H. rewrite <- (size_set_seq (C:=gset nat) 0 n).
  apply subseteq_size. intros j Hj. apply elem_of_set_seq.
  specialize (H j Hj). lia.
Qed.

(** *** Claim C4 *)

(** C4: for every pair of spectra and every tolerance, count_matched_peaks
    returns an integer that is at most min(len(query.peaks),
    len(library.peaks)): every query peak adds at most one to the counter,
    and the counter equals the number of distinct library indices claimed,
    each of them an index of the library peak list. *)
Theorem count_matched_peaks_bound (spectrum1 spectrum2 : Spectrum) (tol : Q) :
  let r := count_loop (peaks_mz spectrum1) (peaks_mz spectrum2) tol 0 ∅ in
  count_matched_peaks spectrum1 spectrum2 tol = r.1
  /\ r.1 = size r.2
  /\ (forall j, j ∈ r.2 -> (j < length (peaks_mz spectrum2))%nat)
  /\ (count_matched_peaks spectrum1 spectrum2 tol
      <= length (peaks_mz spectrum1) `min` length (peaks_mz spectrum2))%nat.
Proof.
  intros r. unfold count_matched_peaks. fold r.
  destruct (count_loop_claims (peaks_mz spectrum2) tol (peaks_mz spectrum1) 0 ∅)
    as (H1 & H2 & H3); [by intros j ?%elem_of_empty|].
  fold r in H1, H2, H3. rewrite size_empty in H2.
  split; [done|]. split; [lia|]. split; [done|].
  pose proof (size_below _ _ H3). lia.
Qed.

(** *** Claim C3 *)





Definition spectrum_of_mz (mz : list Q) : Spectrum :=
  MkSpectrum mz (const 1000%Q <$> mz) None None None None None None None None.














Example count_first_library_order :
  count_matched_peaks (spectrum_of_mz [1; 2]%Q) (spectrum_of_mz [1.5; 0.5]%Q) 0.5
  = 1%nat.
Proof. vm_compute. reflexivity. Qed.

Example count_second_library_order :
  count_matched_peaks (spectrum_of_mz [1; 2]%Q) (spectrum_of_mz [0.5; 1.5]%Q) 0.5
  = 2%nat.
Proof. vm_compute. reflexivity. Qed.

End Counting.

(** ** match_with_traditional *)

Module Ranking.

(** Non-increasing score order. *)
Definition score_ge (a b : match_dict) : Prop := (score b <= score a)%Q.

Lemma insert_by_score_perm m l : insert_by_score m l ≡ₚ m :: l.
Proof.
  induction l as [|x l IH]; cbn [insert_by_score]; [done|].
  destruct (Qlt_bool (score m) (score x)); [|done].
  by rewrite IH, Permutation_swap.
Qed.

Lemma sort_by_score_reverse_perm l : sort_by_score_reverse l ≡ₚ l.
Proof.
  unfold sort_by_score_reverse.
  induction l as [|m l IH]; cbn [foldr]; [done|].
  by rewrite insert_by_score_perm, IH.
Qed.

Lemma insert_by_score_sorted m l :
  StronglySorted score_ge l -> StronglySorted score_ge (insert_by_score m l).
Proof.
  induction 1 as [|x l Hs IH Hx]; cbn [insert_by_score].
  - repeat constructor.
  - destruct (Qlt_bool (score m) (score x)) eqn:Hlt.
    + apply Qlt_bool_iff in Hlt. constructor; [done|].
      rewrite insert_by_score_perm. constructor; [|done].
      by apply Qlt_le_weak.
    + apply Qlt_bool_false in Hlt.
      constructor; [by constructor|]. constructor; [done|].
      eapply Forall_impl; [exact Hx|]. intros y Hy.
      unfold score_ge in *. by eapply Qle_trans.
Qed.

Lemma sort_by_score_reverse_sorted l :
  StronglySorted score_ge (sort_by_score_reverse l).
Proof.
  unfold sort_by_score_reverse.
  induction l as [|m l IH]; cbn [foldr]; [constructor|].
  by apply insert_by_score_sorted.
Qed.

(** The entries of a given score, in order. *)
Definition of_score (s : Q) (l : list match_dict) : list match_dict :=
  filter (fun m => Qeq_bool (score m) s = true) l.

Lemma insert_by_score_stable s m l :
  of_score s (insert_by_score m l) = of_score s (m :: l).
Proof.
  unfold of_score. induction l as [|x l IH]; cbn [insert_by_score]; [done|].
  destruct (Qlt_bool (score m) (score x)) eqn:Hlt; [|done].
  apply Qlt_bool_iff in Hlt.
  destruct (Qeq_bool (score x) s) eqn:Hx, (Qeq_bool (score m) s) eqn:Hm.
  - apply Qeq_bool_iff in Hx, Hm. rewrite Hx, Hm in Hlt.
    by apply Qlt_irrefl in Hlt.
  - rewrite filter_cons_True, IH by done.
    rewrite (filter_cons_False _ m) by (by rewrite Hm).
    rewrite (filter_cons_False _ m) by (by rewrite Hm).
    by rewrite filter_cons_True.
  - rewrite filter_cons_False, IH by (by rewrite Hx).
    rewrite !(filter_cons_True _ m) by done.
    by rewrite filter_cons_False by (by rewrite Hx).
  - rewrite filter_cons_False, IH by (by rewrite Hx).
    rewrite !(filter_cons_False _ m) by (by rewrite Hm).
    by rewrite filter_cons_False by (by rewrite Hx).
Qed.

Lemma sort_by_score_reverse_stable s l :
  of_score s (sort_by_score_reverse l) = of_score s l.
Proof.
  unfold sort_by_score_reverse.
  induction l as [|m l IH]; cbn [foldr]; [done|].
  rewrite insert_by_score_stable. unfold of_score in *.
  destruct (Qeq_bool (score m) s) eqn:Hm.
  - by rewrite !filter_cons_True, IH.
  - by rewrite !filter_cons_False, IH by (by rewrite Hm).
Qed.

Lemma of_score_cons s m l :
  of_score s (m :: l)
  = if Qeq_bool (score m) s then m :: of_score s l else of_score s l.
Proof.
  unfold of_score. destruct (Qeq_bool (score m) s) eqn:E.
  - by rewrite filter_cons_True.
  - by rewrite filter_cons_False by (by rewrite E).
Qed.

Lemma of_score_elem s m l :
  m ∈ of_score s l <-> m ∈ l /\ (score m == s)%Q.
Proof.
  unfold of_score. rewrite list_elem_of_filter, Qeq_bool_iff. tauto.
Qed.

(** The head of a sorted list cannot score below an entry of another
    list that has the same entries of each score. *)
Lemma sorted_head_max x l1 y l2 :
  Forall (score_ge y) l2 ->
  (forall s, of_score s (x :: l1) = of_score s (y :: l2)) ->
  (score x <= score y)%Q.
Proof.
  intros Hy Heq.
  assert (x ∈ y :: l2) as [->|Hx]%elem_of_cons.
  { eapply (proj1 (of_score_elem (score x) x (y :: l2))).
    rewrite <- Heq. apply of_score_elem. split; [apply list_elem_of_here|].
    reflexivity. }
  - apply Qle_refl.
  - by eapply Forall_forall in Hy.
Qed.

(** A list in non-increasing score order that keeps the entries of each
    score in their order is determined: the result of the sort does not
    depend on the algorithm that computes it. *)
Lemma stable_sorted_unique l1 : forall l2,
  StronglySorted score_ge l1 ->
  StronglySorted score_ge l2 ->
  (forall s, of_score s l1 = of_score s l2) ->
  l1 = l2.
Proof.
  induction l1 as [|x l1 IH]; intros [|y l2] H1 H2 Heq.
  - done.
  - specialize (Heq (score y)). rewrite of_score_cons in Heq.
    rewrite (proj2 (Qeq_bool_iff _ _) (Qeq_refl _)) in Heq. done.
  - specialize (Heq (score x)). rewrite of_score_cons in Heq.
    rewrite (proj2 (Qeq_bool_iff _ _) (Qeq_refl _)) in Heq. done.
  - apply StronglySorted_cons in H1 as [Hx H1], H2 as [Hy H2].
    assert (score x == score y)%Q as Hxy.
    { apply Qle_antisym.
      - by eapply sorted_head_max.
      - eapply sorted_head_max; [exact Hx|]. intros s. by rewrite Heq. }
    assert (x = y) as ->.
    { specialize (Heq (score x)). rewrite !of_score_cons in Heq.
      rewrite (proj2 (Qeq_bool_iff _ _) (Qeq_refl _)) in Heq.
      rewrite (proj2 (Qeq_bool_iff _ _) (Qeq_sym _ _ Hxy)) in Heq.
      by injection Heq. }
    f_equal. apply IH; [done..|]. intros s. specialize (Heq s).
    rewrite !of_score_cons in Heq.
    destruct (Qeq_bool (score y) s); [by injection Heq|done].
Qed.

Lemma sort_by_score_reverse_unique l l' :
  StronglySorted score_ge l' ->
  (forall s, of_score s l' = of_score s l) ->
  l' = sort_by_score_reverse l.
Proof.
  intros Hs Heq. apply stable_sorted_unique; [done|..].
  - apply sort_by_score_reverse_sorted.
  - intros s. by rewrite sort_by_score_reverse_stable.
Qed.

Lemma py_slice_to_take {A} (l : list A) (n : Z) :
  exists k, py_slice_to l n = take k l
            /\ ((0 <= n)%Z -> k = Z.to_nat n).
Proof.
  unfold py_slice_to. destruct (0 <=? n)%Z eqn:E.
  - by exists (Z.to_nat n).
  - exists (length l - Z.to_nat (- n))%nat. split; [done|]. lia.
Qed.

Lemma StronglySorted_take {A} (R : relation A) (k : nat) (l : list A) :
  StronglySorted R l -> StronglySorted R (take k l).
Proof.
  intros H. rewrite <- (take_drop k l) in H.
  by apply StronglySorted_app_1_l in H.
Qed.

Lemma of_score_take s k l : of_score s (take k l) `prefix_of` of_score s l.
Proof.
  exists (of_score s (drop k l)). unfold of_score.
  by rewrite <- filter_app, take_drop.
Qed.

Section Ranked.

Variable pair : similarity_fn -> Spectrum -> Spectrum -> pair_outcome.

(** The match dictionary built for one library spectrum, when the pair is
    scored and the score is not below [min_score]. *)
Definition scored_entry (fn : similarity_fn) (algorithm : string)
    (mz_tolerance min_score : Q) (i : nat) (query lib : Spectrum)
    : option match_dict :=
  match pair fn query lib with
  | PairScore s =>
      if Qlt_bool s min_score then None
      else Some {|
        library_id := default ("lib_" +:+ pretty i) (spectrum_id lib);
        compound_name := display_name lib;
        score := s;
        algorithm := algorithm;
        matched_peaks := Z.of_nat (count_matched_peaks query lib mz_tolerance);
        total_peaks := Z.of_nat (length (peaks_mz query));
        metadata := {|
          md_precursor_mz := sp_precursor_mz lib;
          md_retention_time := sp_retention_time lib;
          md_smiles := sp_smiles lib;
          md_inchi := sp_inchi lib;
          md_inchikey := sp_inchikey lib;
          md_analog := None
        |}
      |}
  | _ => None
  end.

(** The candidates of a query, in library order. *)
Definition candidates (fn : similarity_fn) (algorithm : string)
    (mz_tolerance min_score : Q) (i : nat) (query : Spectrum)
    (library_spectra : list Spectrum) : list match_dict :=
  omap (scored_entry fn algorithm mz_tolerance min_score i query)
    library_spectra.

Lemma score_library_candidates fn algorithm tol min_score i query library :
  (score_library pair fn algorithm tol min_score i query library).2
  = candidates fn algorithm tol min_score i query library.
Proof.
  unfold candidates.
  induction library as [|lib library IH]; cbn [score_library omap list_omap];
    [done|].
  unfold scored_entry at 1. destruct (pair fn query lib) as [| |s]; [done..|].
  destruct (Qlt_bool s min_score); [done|]. cbn. by rewrite IH.
Qed.

Lemma score_library_calls fn algorithm tol min_score i query library :
  (score_library pair fn algorithm tol min_score i query library).1
  = (fun lib => (query, lib)) <$> library.
Proof.
  induction library as [|lib library IH]; cbn [score_library fmap list_fmap];
    [done|].
  destruct (pair fn query lib) as [| |s]; cbn; [by rewrite IH..|].
  destruct (Qlt_bool s min_score); cbn; by rewrite IH.
Qed.

Lemma candidates_min_score fn algorithm tol min_score i query library :
  Forall (fun m => (min_score <= score m)%Q)
    (candidates fn algorithm tol min_score i query library).
Proof.
  apply Forall_forall. intros m Hm. unfold candidates in Hm.
  apply list_elem_of_omap in Hm as (lib & _ & Hm). unfold scored_entry in Hm.
  destruct (pair fn query lib) as [| |s]; [done..|].
  destruct (Qlt_bool s min_score) eqn:E; [done|].
  injection Hm as <-. cbn. by apply Qlt_bool_false.
Qed.

(** What the specification asks of the entry returned for one query, with
    [reference] the candidates of the query in library order. *)
Definition well_ranked (min_score : Q) (top_n : Z)
    (reference : list match_dict) (r : match_result) : Prop :=
  Forall (fun m => (min_score <= score m)%Q) (matches r)
  /\ StronglySorted score_ge (matches r)
  /\ (forall s, of_score s (matches r) `prefix_of` of_score s reference)
  /\ (Z.of_nat (length (matches r)) <= top_n)%Z
  /\ match matches r with
     | [] => best_match r = None
     | m :: _ => best_match r = Some m
     end.

(** The part of [well_ranked] that does not depend on the sign of
    [top_n]. *)
Lemma match_query_ranked fn algorithm tol min_score top_n library i query :
  let r := (match_query pair fn algorithm tol min_score top_n library i query).2 in
  let reference := candidates fn algorithm tol min_score i query library in
  Forall (fun m => (min_score <= score m)%Q) (matches r)
  /\ StronglySorted score_ge (matches r)
  /\ (forall s, of_score s (matches r) `prefix_of` of_score s reference)
  /\ ((0 <= top_n)%Z -> (Z.of_nat (length (matches r)) <= top_n)%Z)
  /\ match matches r with
     | [] => best_match r = None
     | m :: _ => best_match r = Some m
     end.
Proof.
  intros r reference. subst r. unfold match_query. cbn [snd matches best_match].
  rewrite score_library_candidates. fold reference.
  destruct (py_slice_to_take (sort_by_score_reverse reference) top_n)
    as (k & -> & Hk).
  split; [|split; [|split; [|split]]].
  - apply Forall_take. rewrite sort_by_score_reverse_perm.
    apply candidates_min_score.
  - apply StronglySorted_take, sort_by_score_reverse_sorted.
  - intros s. rewrite <- (sort_by_score_reverse_stable s reference).
    apply of_score_take.
  - intros Hn. rewrite length_take, (Hk Hn). lia.
  - by destruct (take k _).
Qed.

Lemma match_queries_lookup fn algorithm tol min_score top_n library queries :
  forall i0 k r,
  (match_queries pair fn algorithm tol min_score top_n library i0 queries).2
    !! k = Some r ->
  exists query, queries !! k = Some query
    /\ r = (match_query pair fn algorithm tol min_score top_n library
              (i0 + k) query).2.
Proof.
  induction queries as [|q queries IH]; intros i0 k r; [done|].
  cbn [match_queries snd]. destruct k as [|k]; cbn [lookup list_lookup].
  - intros [= <-]. exists q. by rewrite Nat.add_0_r.
  - intros H. apply IH in H as (query & Hq & ->). exists query.
    split; [done|]. by replace (i0 + S k)%nat with (S i0 + k)%nat by lia.
Qed.

Lemma match_queries_length fn algorithm tol min_score top_n library queries :
  forall i0,
  length (match_queries pair fn algorithm tol min_score top_n library i0 queries).2
  = length queries.
Proof.
  induction queries as [|q queries IH]; intros i0; cbn; [done|].
  by rewrite IH.
Qed.

End Ranked.

(** *** Claim C5 *)

(** The claim at given arguments: every entry of the returned list is well
    ranked against the candidates of its query. *)
Definition ranked_results
    (pair : similarity_fn -> Spectrum -> Spectrum -> pair_outcome)
    (query_spectra library_spectra : list Spectrum) (algorithm : string)
    (mz_tolerance min_score : Q) (top_n : Z) : Prop :=
  forall rs,
    (match_with_traditional pair query_spectra library_spectra algorithm
       mz_tolerance min_score top_n).2 = Ok rs ->
    exists fn,
      select_similarity algorithm mz_tolerance = Ok fn
      /\ length rs = length query_spectra
      /\ forall i query r,
           query_spectra !! i = Some query -> rs !! i = Some r ->
           well_ranked min_score top_n
             (candidates pair fn algorithm mz_tolerance min_score i query
                library_spectra) r.

(** C5: for every query processed by match_with_traditional, top_n being
    a number of entries (not negative), the returned matches list contains
    no pair with score below min_score, is sorted in non-increasing score
    order with equal-score entries kept in their original library
    (insertion) order, has at most top_n entries, and best_match is its
    first element when non-empty and None when empty. *)
Theorem match_with_traditional_ranked
    (pair : similarity_fn -> Spectrum -> Spectrum -> pair_outcome)
    (query_spectra library_spectra : list Spectrum) (algorithm : string)
    (mz_tolerance min_score : Q) (top_n : Z) :
  (0 <= top_n)%Z ->
  ranked_results pair query_spectra library_spectra algorithm
    mz_tolerance min_score top_n.
Proof.
  intros Hn rs. unfold match_with_traditional.
  destruct (select_similarity algorithm mz_tolerance) as [fn|e]; [|done].
  cbn [snd]. intros [= <-]. exists fn. split; [done|].
  split; [apply match_queries_length|].
  intros i query r Hq Hr.
  apply match_queries_lookup in Hr as (query' & Hq' & ->).
  assert (query' = query) as -> by congruence. cbn [Nat.add].
  destruct (match_query_ranked pair fn algorithm mz_tolerance min_score top_n
              library_spectra i query) as (H1 & H2 & H3 & H4 & H5).
  repeat split; auto.
Qed.

(** The external scorer of the examples: every pair scores 1. *)
Definition always_one (_ : similarity_fn) (_ _ : Spectrum) : pair_outcome :=
  PairScore 1.

Definition query0 : Spectrum :=
  MkSpectrum [50.1; 60.2]%Q [500; 300]%Q None None None (Some 150.005%Q)
    (Some 121.0%Q) None None None.

Definition lib_spectrum (id : string) : Spectrum :=
  MkSpectrum [50.1; 60.2]%Q [500; 300]%Q (Some id) (Some id) None None None
    None None None.

Lemma match_with_traditional_ranked_witness :
  exists rs,
    (match_with_traditional always_one [query0]
       [lib_spectrum "A"; lib_spectrum "B"] "cosine" 0.01 0 10).2 = Ok rs
    /\ exists fn,
      select_similarity "cosine" 0.01 = Ok fn
      /\ length rs = length [query0]
      /\ forall i query r,
           [query0] !! i = Some query -> rs !! i = Some r ->
           well_ranked 0 10
             (candidates always_one fn "cosine" 0.01 0 i query
                [lib_spectrum "A"; lib_spectrum "B"]) r.
Proof.
  eexists. split; [reflexivity|].
  apply (match_with_traditional_ranked always_one [query0]
           [lib_spectrum "A"; lib_spectrum "B"] "cosine" 0.01 0 10).
  - lia.
  - reflexivity.
Defined.

(** Scenario C of the specification: two library spectra of equal score
    are returned in library order. *)
Example match_with_traditional_scenario_C :
  match (match_with_traditional always_one [query0]
           [lib_spectrum "A"; lib_spectrum "B"] "cosine" 0.01 0 10).2 with
  | Ok [r] => library_id <$> matches r
  | _ => []
  end = ["A"; "B"].
Proof. vm_compute. reflexivity. Qed.

(** *** Claim C10 *)

(** C10: for every algorithm string other than "dot_product", "cosine" or
    "modified_cosine", match_with_traditional raises a ValueError before
    any query/library pair is scored; for the three known strings it
    returns a result list. *)
Theorem match_with_traditional_algorithm
    (pair : similarity_fn -> Spectrum -> Spectrum -> pair_outcome)
    (query_spectra library_spectra : list Spectrum) (algorithm : string)
    (mz_tolerance min_score : Q) (top_n : Z) :
  (algorithm <> "dot_product" -> algorithm <> "cosine" ->
   algorithm <> "modified_cosine" ->
   match_with_traditional pair query_spectra library_spectra algorithm
     mz_tolerance min_score top_n = ([], Raise ValueError))
  /\ (algorithm = "dot_product" \/ algorithm = "cosine"
      \/ algorithm = "modified_cosine" ->
      exists rs,
        (match_with_traditional pair query_spectra library_spectra algorithm
           mz_tolerance min_score top_n).2 = Ok rs).
Proof.
  unfold match_with_traditional, select_similarity. split.
  - intros H1 H2 H3. apply String.eqb_neq in H1, H2, H3.
    by rewrite H1, H2, H3.
  - intros [-> | [-> | ->]]; cbn; eauto.
Qed.

Lemma match_with_traditional_algorithm_witness :
  match_with_traditional always_one [query0] [lib_spectrum "A"] "euclidean"
    0.01 0 10 = ([], Raise ValueError)
  /\ exists rs,
       (match_with_traditional always_one [query0] [lib_spectrum "A"]
          "modified_cosine" 0.01 0 10).2 = Ok rs.
Proof.
  split.
  - apply (proj1 (match_with_traditional_algorithm always_one [query0]
                    [lib_spectrum "A"] "euclidean" 0.01 0 10)); discriminate.
  - apply (proj2 (match_with_traditional_algorithm always_one [query0]
                    [lib_spectrum "A"] "modified_cosine" 0.01 0 10)).
    right. right. reflexivity.
Defined.

End Ranking.

(** ** calculate_confidence_score *)

Module Confidence.

Lemma inject_Z_nonzero (z : Z) : z <> 0%Z -> ~ (inject_Z z == 0)%Q.
Proof. unfold Qeq. cbn. lia. Qed.

Lemma py_max_lower (a b : Q) : (a <= py_max a b)%Q.
Proof.
  unfold py_max. destruct (Qlt_bool a b) eqn:E.
  - apply Qlt_bool_iff in E. by apply Qlt_le_weak.
  - apply Qle_refl.
Qed.

Lemma py_min_upper (a b : Q) : (py_min a b <= a)%Q.
Proof.
  unfold py_min. destruct (Qlt_bool b a) eqn:E.
  - apply Qlt_bool_iff in E. by apply Qlt_le_weak.
  - apply Qle_refl.
Qed.

Lemma py_min_lower (a b c : Q) : (c <= a)%Q -> (c <= b)%Q -> (c <= py_min a b)%Q.
Proof. intros Ha Hb. unfold py_min. by destruct (Qlt_bool b a). Qed.

(** The final [min(1.0, max(0.0, base_score))]. *)
Lemma clamp_range (x : Q) :
  (0 <= py_min 1.0 (py_max 0.0 x) <= 1)%Q.
Proof.
  split.
  - apply py_min_lower; [done|].
    eapply Qle_trans; [|apply py_max_lower]. done.
  - eapply Qle_trans; [apply py_min_upper|]. done.
Qed.

(** The average of the top scores, as the source computes it. *)
Definition avg_top_score (matches : list match_dict) : Q :=
  let top_scores := score <$> take 3 matches in
  (py_sum top_scores / inject_Z (Z.of_nat (length top_scores)))%Q.

(** The consistency term that the source adds to the base score. *)
Definition consistency_boost (matches : list match_dict) (base_score : Q) : Q :=
  py_min 0.2 ((avg_top_score matches - base_score) * 0.5).

Definition peak_ratio (best_match : match_dict) : Q :=
  if (0 <? total_peaks best_match)%Z
  then (inject_Z (matched_peaks best_match)
        / inject_Z (total_peaks best_match))%Q
  else 0%Q.

(** The value computed by the source; none of its divisions can raise. *)
Lemma calculate_confidence_score_value matches best_match :
  calculate_confidence_score matches (Some best_match)
  = Ok (py_min 1.0 (py_max 0.0
          ((if (1 <? length matches)%nat
            then score best_match
                 + consistency_boost matches (score best_match)
            else score best_match)
           * (0.5 + 0.5 * peak_ratio best_match))%Q)).
Proof.
  unfold calculate_confidence_score, consistency_boost, avg_top_score,
    peak_ratio.
  destruct (1 <? length matches)%nat eqn:Hlen.
  - apply Nat.ltb_lt in Hlen. rewrite py_div_nonzero.
    2:{ apply inject_Z_nonzero. rewrite length_fmap, length_take. lia. }
    cbn [bind]. destruct (0 <? total_peaks best_match)%Z eqn:Ht; [|done].
    apply Z.ltb_lt in Ht. rewrite py_div_nonzero; [done|].
    apply inject_Z_nonzero. lia.
  - cbn [bind]. destruct (0 <? total_peaks best_match)%Z eqn:Ht; [|done].
    apply Z.ltb_lt in Ht. rewrite py_div_nonzero; [done|].
    apply inject_Z_nonzero. lia.
Qed.

Lemma calculate_confidence_score_total matches best_match :
  exists c, calculate_confidence_score matches best_match = Ok c
            /\ (0 <= c <= 1)%Q.
Proof.
  destruct best_match as [bm|].
  - rewrite calculate_confidence_score_value. eexists. split; [done|].
    apply clamp_range.
  - exists 0.0%Q. done.
Qed.

(** *** Claim C7 *)

(** C7: for every input, calculate_confidence_score returns a value in
    [0,1], and it returns exactly 0.0 whenever best_match is absent; in
    particular an entry of match_with_traditional whose match list is empty
    is aggregated to confidence 0.0 and best_match None. *)
Theorem calculate_confidence_score_range
    (ms : list match_dict) (bm : option match_dict) :
  (exists c, calculate_confidence_score ms bm = Ok c /\ (0 <= c <= 1)%Q)
  /\ calculate_confidence_score ms None = Ok 0.0%Q
  /\ forall pair fn algorithm mz_tolerance min_score top_n library_spectra i
       query_spectrum xcms_peaks algorithm',
       let r := (match_query pair fn algorithm mz_tolerance min_score top_n
                   library_spectra i query_spectrum).2 in
       matches r = [] ->
       exists cr, process_one xcms_peaks algorithm' r = Ok cr
                  /\ cr_confidence_score cr = 0.0%Q
                  /\ cr_best_match cr = None
                  /\ cr_match_count cr = 0%nat.
Proof.
  split; [apply calculate_confidence_score_total|]. split; [done|].
  intros pair fn algorithm mz_tolerance min_score top_n library_spectra i
    query_spectrum xcms_peaks algorithm' r Hr.
  assert (best_match r = None) as Hb.
  { subst r. unfold match_query in *. cbn in *. by rewrite Hr. }
  unfold process_one. rewrite Hr, Hb. cbn. eexists. done.
Qed.

Lemma calculate_confidence_score_range_witness :
  exists cr,
    process_one [F1] "cosine"
      (match_query Ranking.always_one (CosineGreedy 0.01) "cosine" 0.01 0 10
         [] 0 Ranking.query0).2 = Ok cr
    /\ cr_confidence_score cr = 0.0%Q
    /\ cr_best_match cr = None
    /\ cr_match_count cr = 0%nat.
Proof.
  apply (proj2 (proj2 (calculate_confidence_score_range [] None))
           Ranking.always_one (CosineGreedy 0.01) "cosine" 0.01%Q 0%Q 10%Z
           [] 0%nat Ranking.query0 [F1] "cosine").
  reflexivity.
Defined.

(** *** Claim C2 *)

(** The confidence in the words of the specification: the consistency
    boost is [min(0.2, max(0, (avg_top3 - base) * 0.5))]. *)
Definition specified_confidence (matches : list match_dict)
    (best_match : match_dict) : Q :=
  let base := score best_match in
  let boost := py_min 0.2 (py_max 0 ((avg_top_score matches - base) * 0.5)) in
  py_min 1 (py_max 0
    ((base + boost)
     * (0.5 + 0.5 * (inject_Z (matched_peaks best_match)
                      / inject_Z (total_peaks best_match))))%Q).

(** Two candidates of a query with a single peak, scored 1.0 and 0.5, as
    match_with_traditional returns them. *)
Definition top_candidate : match_dict :=
  MatchDict "A" "A" 1.0 "cosine" 1 1
    (MatchMetadata None None None None None None).
Definition second_candidate : match_dict :=
  MatchDict "B" "B" 0.5 "cosine" 1 1
    (MatchMetadata None None None None None None).

(** C2 fails on the code: with two candidates scored 1.0 and 0.5 the term
    called consistency_boost is -0.125 and the confidence is 0.875, where
    the specified formula, whose boost is never negative, gives 1. *)
Theorem calculate_confidence_score_negative_boost :
  exists c,
    calculate_confidence_score [top_candidate; second_candidate]
      (Some top_candidate) = Ok c
    /\ (c == 0.875)%Q
    /\ (consistency_boost [top_candidate; second_candidate]
          (score top_candidate) == - 0.125)%Q
    /\ (specified_confidence [top_candidate; second_candidate] top_candidate
        == 1)%Q.
Proof.
  eexists. split; [vm_compute; reflexivity|].
  repeat split; vm_compute; reflexivity.
Qed.

Lemma py_sum_bound (h : Q) (l : list Q) : forall a,
  Forall (fun x => (x <= h)%Q) l ->
  (foldl Qplus a l <= a + inject_Z (Z.of_nat (length l)) * h)%Q.
Proof.
  induction l as [|x l IH]; intros a Hl; cbn [foldl length].
  - change (inject_Z (Z.of_nat 0)) with 0%Q. lra.
  - apply Forall_cons in Hl as [Hx Hl].
    eapply Qle_trans; [by apply IH|].
    rewrite Nat2Z.inj_succ, <- Z.add_1_r, inject_Z_plus.
    change (inject_Z 1) with 1%Q.
    set (n := inject_Z (Z.of_nat (length l))).
    assert ((n + 1) * h == n * h + h)%Q as -> by ring. lra.
Qed.

(** On a list in non-increasing score order whose head is the best match,
    which is what match_with_traditional returns, the term added by the
    source is never positive. *)
Lemma consistency_boost_sorted (matches : list match_dict) (best : match_dict) :
  StronglySorted Ranking.score_ge matches ->
  head matches = Some best ->
  (consistency_boost matches (score best) <= 0)%Q.
Proof.
  intros Hs Hh. destruct matches as [|m rest]; [done|].
  injection Hh as ->. apply StronglySorted_cons in Hs as [Hall _].
  unfold consistency_boost, py_min.
  set (n := inject_Z (Z.of_nat (length (score <$> take 3 (best :: rest))))).
  assert (0 < n)%Q as Hn.
  { subst n. cbn [take fmap list_fmap length].
    rewrite Nat2Z.inj_succ, <- Z.add_1_r, inject_Z_plus.
    assert (0 <= inject_Z (Z.of_nat (length (score <$> take 2 rest))))%Q.
    { change 0%Q with (inject_Z 0). rewrite <- Zle_Qle. lia. }
    change (inject_Z 1) with 1%Q. lra. }
  assert (avg_top_score (best :: rest) <= score best)%Q as Havg.
  { unfold avg_top_score. fold n. apply Qle_shift_div_r; [done|].
    unfold py_sum. eapply Qle_trans.
    - apply (py_sum_bound (score best)). apply Forall_fmap.
      cbn [take]. constructor; [apply Qle_refl|].
      apply Forall_take. eapply Forall_impl; [exact Hall|]. by intros y Hy.
    - fold n. lra. }
  destruct (Qlt_bool _ 0.2) eqn:E; [lra|].
  apply Qlt_bool_false in E. lra.
Qed.

End Confidence.

(** ** The secondary lookup of the aggregator *)

Module SecondaryLookup.

(** find_peak_by_mz_rt returns the first feature of the table that is
    within both windows. *)
Lemma find_peak_by_mz_rt_first peaks mz rt mz_tolerance rt_tolerance :
  match find_peak_by_mz_rt peaks mz rt mz_tolerance rt_tolerance with
  | None =>
      forall p, p ∈ peaks -> within p mz rt mz_tolerance rt_tolerance = false
  | Some f =>
      exists i, peaks !! i = Some f
        /\ within f mz rt mz_tolerance rt_tolerance = true
        /\ forall j g, peaks !! j = Some g -> (j < i)%nat ->
             within g mz rt mz_tolerance rt_tolerance = false
  end.
Proof.
  induction peaks as [|peak peaks IH]; cbn [find_peak_by_mz_rt].
  - intros p Hp. by apply elem_of_nil in Hp.
  - change (Qle_bool _ _ && Qle_bool _ _)
      with (within peak mz rt mz_tolerance rt_tolerance).
    destruct (within peak mz rt mz_tolerance rt_tolerance) eqn:Hw.
    + exists 0%nat. split; [done|]. split; [done|]. intros j g _ Hj. lia.
    + destruct (find_peak_by_mz_rt peaks mz rt mz_tolerance rt_tolerance)
        as [f|].
      * destruct IH as (i & Hi & Hf & Hbefore). exists (S i).
        split; [done|]. split; [done|]. intros [|j] g Hg Hj.
        -- injection Hg as <-. done.
        -- apply (Hbefore j g Hg). lia.
      * intros p [->|Hp]%elem_of_cons; [done|by apply IH].
Qed.

Lemma default_tolerances_nonzero :
  ~ (DEFAULT_MZ_TOLERANCE == 0)%Q /\ ~ (DEFAULT_RT_TOLERANCE == 0)%Q.
Proof. split; intros H; vm_compute in H; discriminate H. Qed.

(** *** Claim C9 *)

(** The claim at a given table and query: the secondary lookup returns
    what the feature locator returns with the default tolerances. *)
Definition agrees_with_locator (xcms_peaks : list xcms_peak)
    (feature_name : string) (precursor_mz rt : Q) : Prop :=
  get_peak_info xcms_peaks feature_name = None ->
  truthy (Some precursor_mz) = true ->
  truthy (Some rt) = true ->
  find_matching_xcms_peak xcms_peaks precursor_mz rt
    DEFAULT_MZ_TOLERANCE DEFAULT_RT_TOLERANCE
  = Ok (resolve_peak xcms_peaks feature_name (Some precursor_mz) (Some rt)).

(** C9, as amended: in process_matching_results, when a query's tagged
    feature name is not found in the feature table and precursor m/z and
    retention time are available, the secondary lookup uses the AND-bound
    of the feature locator with the default tolerances (0.01, 30.0): it
    returns None exactly when find_matching_xcms_peak returns None, that
    is when no peak is within both bounds, and otherwise it returns the
    first peak of the table, in table order, that is within both bounds. *)
Theorem secondary_lookup_first_in_window
    (xcms_peaks : list xcms_peak) (feature_name : string) (precursor_mz rt : Q) :
  get_peak_info xcms_peaks feature_name = None ->
  truthy (Some precursor_mz) = true ->
  truthy (Some rt) = true ->
  let inside p :=
    within p precursor_mz rt DEFAULT_MZ_TOLERANCE DEFAULT_RT_TOLERANCE in
  let found :=
    resolve_peak xcms_peaks feature_name (Some precursor_mz) (Some rt) in
  exists nearest,
    find_matching_xcms_peak xcms_peaks precursor_mz rt
      DEFAULT_MZ_TOLERANCE DEFAULT_RT_TOLERANCE = Ok nearest
    /\ (found = None <-> nearest = None)
    /\ (found = None <-> forall p, p ∈ xcms_peaks -> inside p = false)
    /\ forall f, found = Some f ->
         exists i, xcms_peaks !! i = Some f /\ inside f = true
           /\ forall j g, xcms_peaks !! j = Some g -> (j < i)%nat ->
                inside g = false.
Proof.
  intros Hname Hmz Hrt inside found. subst inside found. unfold resolve_peak.
  rewrite Hname, Hmz, Hrt. cbn [andb].
  destruct default_tolerances_nonzero as [Hm Hr].
  destruct (Locator.find_matching_xcms_peak_spec precursor_mz rt
              DEFAULT_MZ_TOLERANCE DEFAULT_RT_TOLERANCE Hm Hr xcms_peaks)
    as [Hnone Hsome].
  pose proof (find_peak_by_mz_rt_first xcms_peaks precursor_mz rt
                DEFAULT_MZ_TOLERANCE DEFAULT_RT_TOLERANCE) as Hfirst.
  destruct (find_peak_by_mz_rt xcms_peaks precursor_mz rt
              DEFAULT_MZ_TOLERANCE DEFAULT_RT_TOLERANCE) as [f|].
  - destruct Hfirst as (i & Hi & Hf & Hbefore).
    destruct Hsome as (i' & g & -> & _).
    { exists f. split; [by eapply list_elem_of_lookup_2|done]. }
    exists (Some g). split; [done|]. split; [done|]. split.
    + split; [done|]. intros Hall. exfalso.
      rewrite (Hall f) in Hf; [done|]. by eapply list_elem_of_lookup_2.
    + intros f' [= <-]. by exists i.
  - exists None. split.
    + apply Hnone. intros p Hp Hc. by rewrite (Hfirst p Hp) in Hc.
    + split; [done|]. split; done.
Qed.

(** Two features within the windows of the query (100.0, 5.0); the second
    one coincides with the query. *)
Definition far_feature : xcms_peak :=
  XcmsPeak "FT001" 100.0 99.99 100.01 15.0 10.0 20.0 1.
Definition near_feature : xcms_peak :=
  XcmsPeak "FT002" 100.0 99.99 100.01 5.0 0.0 10.0 1.

Lemma secondary_lookup_first_in_window_witness :
  exists nearest,
    find_matching_xcms_peak [far_feature; near_feature] 100.0 5.0
      DEFAULT_MZ_TOLERANCE DEFAULT_RT_TOLERANCE = Ok nearest
    /\ (resolve_peak [far_feature; near_feature] "Feature_0"
          (Some 100.0%Q) (Some 5.0%Q) = None <-> nearest = None).
Proof.
  destruct (secondary_lookup_first_in_window [far_feature; near_feature]
              "Feature_0" 100.0 5.0 eq_refl eq_refl eq_refl)
    as (nearest & H1 & H2 & _).
  exists nearest. split; [exact H1|exact H2].
Defined.

(** C9 as stated fails: the lookup returns the first feature within the
    windows, the locator the nearest one. *)
Lemma secondary_lookup_not_nearest :
  ~ agrees_with_locator [far_feature; near_feature] "Feature_0" 100.0 5.0.
Proof.
  intros H. specialize (H eq_refl eq_refl eq_refl).
  vm_compute in H. discriminate H.
Qed.

Example secondary_lookup_returns_first :
  resolve_peak [far_feature; near_feature] "Feature_0"
    (Some 100.0%Q) (Some 5.0%Q) = Some far_feature.
Proof. vm_compute. reflexivity. Qed.

Example locator_returns_nearest :
  find_matching_xcms_peak [far_feature; near_feature] 100.0 5.0
    DEFAULT_MZ_TOLERANCE DEFAULT_RT_TOLERANCE = Ok (Some near_feature).
Proof. vm_compute. reflexivity. Qed.

End SecondaryLookup.

(** ** The correlator *)

Module Correlator.

Lemma keep_peaks_intensity (min_intensity : Q) (ps : list (Q * Q)) :
  Forall (fun p => (min_intensity <= p.2)%Q) (keep_peaks ps min_intensity).
Proof.
  induction ps as [|[mz intensity] ps IH]; cbn [keep_peaks]; [constructor|].
  destruct (Qle_bool min_intensity intensity) eqn:E; [|done].
  constructor; [|done]. by apply Qle_bool_iff.
Qed.

Lemma keep_peaks_all_below (min_intensity : Q) (ps : list (Q * Q)) :
  Forall (fun p => (p.2 < min_intensity)%Q) ps ->
  keep_peaks ps min_intensity = [].
Proof.
  induction 1 as [|[mz intensity] ps Hp _ IH]; cbn [keep_peaks]; [done|].
  cbn in Hp. apply Qle_bool_false in Hp. by rewrite Hp.
Qed.

Lemma locator_scan_elem mz rt mz_tolerance rt_tolerance peaks :
  forall bm bs f,
  locator_scan peaks mz rt mz_tolerance rt_tolerance bm bs = Ok (Some f) ->
  f ∈ peaks \/ bm = Some f.
Proof.
  induction peaks as [|peak peaks IH]; intros bm bs f.
  - cbn. intros [= ->]. by right.
  - rewrite Locator.locator_scan_cons.
    destruct (within peak mz rt mz_tolerance rt_tolerance).
    + unfold float_div. destruct (Qeq_bool mz_tolerance 0); [done|].
      destruct (Qeq_bool rt_tolerance 0); [done|]. cbn [bind].
      destruct (below _ bs); intros [H|H]%IH.
      * left. by apply list_elem_of_further.
      * injection H as ->. left. apply list_elem_of_here.
      * left. by apply list_elem_of_further.
      * by right.
    + intros [H|H]%IH; [left; by apply list_elem_of_further|by right].
Qed.

Lemma find_matching_xcms_peak_elem peaks mz rt mz_tolerance rt_tolerance f :
  find_matching_xcms_peak peaks mz rt mz_tolerance rt_tolerance = Ok (Some f) ->
  f ∈ peaks.
Proof. intros H. by apply locator_scan_elem in H as [H|H]. Qed.

Section Run.

Variable xcms_peaks : list xcms_peak.
Variables mz_tolerance rt_tolerance min_intensity : Q.

Let outcome : Type := (list (Q * Q) * result (list spectrum_dict))%type.

(** One iteration of the loop, given what the rest of the run yields. *)
Definition step (spectrum : raw_spectrum) (continue : outcome) : outcome :=
  if (ms_level spectrum =? 2)%Z then
    match get_precursor_mz spectrum, get_precursor_rt spectrum with
    | Some precursor_mz, Some precursor_rt =>
        let peaks := extract_peaks spectrum min_intensity in
        if (length peaks =? 0)%nat then continue
        else
          let call := (precursor_mz, precursor_rt) in
          match find_matching_xcms_peak xcms_peaks precursor_mz
                  precursor_rt mz_tolerance rt_tolerance with
          | Raise e => ([call], Raise e)
          | Ok None => (call :: continue.1, continue.2)
          | Ok (Some matched_peak) =>
              let d := {|
                sd_feature_name := pk_name matched_peak;
                sd_precursor_mz := precursor_mz;
                sd_rt := precursor_rt;
                sd_mz := peaks.*1;
                sd_intensities := peaks.*2;
                sd_n_peaks := length peaks;
                sd_matched_xcms_peak := pk_name matched_peak
              |} in
              (call :: continue.1, out <-! continue.2 ;; Ok (d :: out))
          end
    | _, _ => continue
    end
  else continue.

Lemma extract_loop_cons spectrum run :
  extract_loop xcms_peaks (spectrum :: run) mz_tolerance rt_tolerance
    min_intensity
  = step spectrum
      (extract_loop xcms_peaks run mz_tolerance rt_tolerance min_intensity).
Proof. reflexivity. Qed.

(** A spectrum the loop passes over before the locator is reached. *)
Definition dropped (spectrum : raw_spectrum) : Prop :=
  ms_level spectrum <> 2%Z
  \/ get_precursor_mz spectrum = None
  \/ get_precursor_rt spectrum = None
  \/ extract_peaks spectrum min_intensity = [].

(** What every emitted spectrum satisfies. *)
Definition annotated (d : spectrum_dict) : Prop :=
  sd_mz d <> []
  /\ length (sd_mz d) = sd_n_peaks d
  /\ length (sd_intensities d) = sd_n_peaks d
  /\ Forall (fun x => (min_intensity <= x)%Q) (sd_intensities d)
  /\ exists f, f ∈ xcms_peaks
       /\ find_matching_xcms_peak xcms_peaks (sd_precursor_mz d) (sd_rt d)
            mz_tolerance rt_tolerance = Ok (Some f)
       /\ sd_feature_name d = pk_name f
       /\ sd_matched_xcms_peak d = pk_name f.

Lemma step_dropped spectrum continue :
  dropped spectrum -> step spectrum continue = continue.
Proof.
  unfold dropped, step. intros [H|[H|[H|H]]].
  - apply Z.eqb_neq in H. by rewrite H.
  - rewrite H. by destruct (ms_level spectrum =? 2)%Z.
  - rewrite H. destruct (ms_level spectrum =? 2)%Z; [|done].
    by destruct (get_precursor_mz spectrum).
  - rewrite H. destruct (ms_level spectrum =? 2)%Z; [|done].
    by destruct (get_precursor_mz spectrum), (get_precursor_rt spectrum).
Qed.

Lemma step_unmatched spectrum continue mz rt :
  get_precursor_mz spectrum = Some mz ->
  get_precursor_rt spectrum = Some rt ->
  find_matching_xcms_peak xcms_peaks mz rt mz_tolerance rt_tolerance = Ok None ->
  (step spectrum continue).2 = continue.2.
Proof.
  intros Hmz Hrt Hnone. unfold step. rewrite Hmz, Hrt, Hnone.
  destruct (ms_level spectrum =? 2)%Z; [|done].
  by destruct (length _ =? 0)%nat.
Qed.

Lemma step_snd spectrum c c' :
  c.2 = c'.2 -> (step spectrum c).2 = (step spectrum c').2.
Proof.
  intros H. unfold step. destruct (ms_level spectrum =? 2)%Z; [|done].
  destruct (get_precursor_mz spectrum) as [mz|]; [|done].
  destruct (get_precursor_rt spectrum) as [rt|]; [|done].
  destruct (length _ =? 0)%nat; [done|].
  destruct (find_matching_xcms_peak _ _ _ _ _) as [[f|]|e]; cbn [snd];
    [by rewrite H|done|done].
Qed.

Lemma extract_loop_app_congr pre l l' :
  extract_loop xcms_peaks l mz_tolerance rt_tolerance min_intensity
  = extract_loop xcms_peaks l' mz_tolerance rt_tolerance min_intensity ->
  extract_loop xcms_peaks (pre ++ l) mz_tolerance rt_tolerance min_intensity
  = extract_loop xcms_peaks (pre ++ l') mz_tolerance rt_tolerance min_intensity.
Proof.
  intros H. induction pre as [|s pre IH]; [done|].
  rewrite <- !app_comm_cons, !extract_loop_cons. by rewrite IH.
Qed.

Lemma extract_loop_app_congr_snd pre l l' :
  (extract_loop xcms_peaks l mz_tolerance rt_tolerance min_intensity).2
  = (extract_loop xcms_peaks l' mz_tolerance rt_tolerance min_intensity).2 ->
  (extract_loop xcms_peaks (pre ++ l) mz_tolerance rt_tolerance
     min_intensity).2
  = (extract_loop xcms_peaks (pre ++ l') mz_tolerance rt_tolerance
       min_intensity).2.
Proof.
  intros H. induction pre as [|s pre IH]; [done|].
  rewrite <- !app_comm_cons, !extract_loop_cons. by apply step_snd.
Qed.

Lemma extract_loop_annotated run : forall out,
  (extract_loop xcms_peaks run mz_tolerance rt_tolerance min_intensity).2
    = Ok out ->
  Forall annotated out.
Proof.
  induction run as [|s run IH]; intros out.
  - cbn. intros [= <-]. constructor.
  - rewrite extract_loop_cons. unfold step.
    destruct (ms_level s =? 2)%Z; [|by apply IH].
    destruct (get_precursor_mz s) as [mz|]; [|by apply IH].
    destruct (get_precursor_rt s) as [rt|]; [|by apply IH].
    destruct (length (extract_peaks s min_intensity) =? 0)%nat eqn:Hlen;
      [by apply IH|].
    destruct (find_matching_xcms_peak xcms_peaks mz rt mz_tolerance
                rt_tolerance) as [[f|]|e] eqn:Hloc; cbn [snd];
      [|by apply IH|done].
    destruct (extract_loop xcms_peaks run mz_tolerance rt_tolerance
                min_intensity).2 as [out'|e]; [|done].
    cbn [bind]. intros [= <-]. constructor; [|by apply IH].
    apply Nat.eqb_neq in Hlen. unfold annotated. cbn.
    split; [intros Hnil; apply Hlen; by rewrite <- (length_fmap fst), Hnil|].
    split; [apply length_fmap|]. split; [apply length_fmap|].
    split.
    + apply Forall_fmap. unfold extract_peaks.
      destruct (raw_peaks s); [apply keep_peaks_intensity|constructor].
    + exists f. split; [by eapply find_matching_xcms_peak_elem|done].
Qed.

End Run.

(** *** Claim C6 *)

(** C6: every spectrum emitted by extract_ms2_spectra has a non-empty peak
    list in which every intensity is >= min_intensity and carries the name
    of a feature returned by the locator for its precursor m/z and
    retention time; a raw spectrum lacking precursor m/z or retention time,
    or whose filtered peak list is empty, leaves neither an output nor a
    call of the locator; a spectrum with no locator match leaves no output;
    and a spectrum whose every peak is below min_intensity is among those
    for which the locator is not invoked. *)
Theorem extract_ms2_spectra_annotated
    (xcms_peaks : list xcms_peak) (run : list raw_spectrum)
    (mz_tolerance rt_tolerance min_intensity : Q) :
  let extract run :=
    extract_ms2_spectra xcms_peaks run mz_tolerance rt_tolerance
      min_intensity in
  (forall out, (extract run).2 = Ok out ->
     Forall (annotated xcms_peaks mz_tolerance rt_tolerance min_intensity) out)
  /\ (forall pre spectrum post,
        run = pre ++ spectrum :: post ->
        dropped min_intensity spectrum ->
        extract run = extract (pre ++ post))
  /\ (forall pre spectrum post mz rt,
        run = pre ++ spectrum :: post ->
        get_precursor_mz spectrum = Some mz ->
        get_precursor_rt spectrum = Some rt ->
        find_matching_xcms_peak xcms_peaks mz rt mz_tolerance rt_tolerance
          = Ok None ->
        (extract run).2 = (extract (pre ++ post)).2)
  /\ (forall spectrum,
        (forall ps, raw_peaks spectrum = Some ps ->
           Forall (fun p => (p.2 < min_intensity)%Q) ps) ->
        dropped min_intensity spectrum).
Proof.
  intros extract. subst extract. unfold extract_ms2_spectra. cbv beta.
  split; [apply extract_loop_annotated|]. split; [|split].
  - intros pre s post -> Hs. apply extract_loop_app_congr.
    rewrite extract_loop_cons. by apply step_dropped.
  - intros pre s post mz rt -> Hmz Hrt Hnone. apply extract_loop_app_congr_snd.
    rewrite extract_loop_cons. by eapply step_unmatched.
  - intros s Hs. right. right. right. unfold extract_peaks.
    destruct (raw_peaks s) as [ps|]; [|done].
    by apply keep_peaks_all_below, Hs.
Qed.

(** The spectrum of Scenario A (retention time 121 s, read in minutes). *)
Definition scan_A : raw_spectrum :=
  RawSpectrum 2 (Some [Some 150.005%Q]) (Some (121 # 60)%Q)
    (Some [(50.1, 500); (60.2, 300)]%Q).

Definition scan_B : raw_spectrum :=
  RawSpectrum 2 (Some [Some 150.02%Q]) (Some (121 # 60)%Q)
    (Some [(50.1, 500); (60.2, 300)]%Q).

(** The spectrum of Scenario E: every peak is below 100. *)
Definition scan_E : raw_spectrum :=
  RawSpectrum 2 (Some [Some 150.005%Q]) (Some (121 # 60)%Q)
    (Some [(50.1, 50); (60.2, 30)]%Q).

Example extract_scenario_A :
  match (extract_ms2_spectra [F1] [scan_A] 0.01 30 100).2 with
  | Ok out => sd_feature_name <$> out
  | Raise _ => []
  end = ["F1"].
Proof. vm_compute. reflexivity. Qed.

Example extract_scenario_B :
  (extract_ms2_spectra [F1] [scan_B] 0.01 30 100).2 = Ok [].
Proof. vm_compute. reflexivity. Qed.

Example extract_scenario_E :
  extract_ms2_spectra [F1] [scan_E] 0.01 30 100 = ([], Ok []).
Proof. vm_compute. reflexivity. Qed.

Lemma extract_ms2_spectra_annotated_witness :
  extract_ms2_spectra [F1] [scan_A; scan_E] 0.01 30 100
  = extract_ms2_spectra [F1] ([scan_A] ++ []) 0.01 30 100
  /\ (extract_ms2_spectra [F1] [scan_B; scan_A] 0.01 30 100).2
     = (extract_ms2_spectra [F1] ([] ++ [scan_A]) 0.01 30 100).2.
Proof.
  split.
  - apply (proj1 (proj2 (extract_ms2_spectra_annotated [F1] [scan_A; scan_E]
                           0.01 30 100)) [scan_A] scan_E []).
    + reflexivity.
    + right. right. right. vm_compute. reflexivity.
  - apply (proj1 (proj2 (proj2 (extract_ms2_spectra_annotated [F1]
                                  [scan_B; scan_A] 0.01 30 100)))
             [] scan_B [scan_A] 150.02%Q ((121 # 60) * 60)%Q).
    + reflexivity.
    + reflexivity.
    + reflexivity.
    + vm_compute. reflexivity.
Defined.

End Correlator.

(** ** The workflow and its fallback *)

Module Workflow.

(** Every match of an entry built by match_query carries the algorithm
    name the matcher was called with. *)
Lemma match_query_algorithm pair fn alg tol min_score top_n library i query :
  let r := (match_query pair fn alg tol min_score top_n library i query).2 in
  Forall (fun m => algorithm m = alg) (matches r)
  /\ forall m, best_match r = Some m -> algorithm m = alg.
Proof.
  intros r.
  assert (Forall (fun m => algorithm m = alg) (matches r)) as Hall.
  { subst r. unfold match_query. cbn [snd matches].
    rewrite Ranking.score_library_candidates.
    destruct (Ranking.py_slice_to_take
                (sort_by_score_reverse
                   (Ranking.candidates pair fn alg tol min_score i
                      query library)) top_n) as (k & -> & _).
    apply Forall_take. rewrite Ranking.sort_by_score_reverse_perm.
    apply Forall_forall. intros m Hm. unfold Ranking.candidates in Hm.
    apply list_elem_of_omap in Hm as (lib & _ & Hm).
    unfold Ranking.scored_entry in Hm.
    destruct (pair fn query lib) as [| |s]; [done..|].
    destruct (Qlt_bool s min_score); [done|]. by injection Hm as <-. }
  split; [done|]. intros m Hm.
  assert (best_match r = head (matches r)) as Hh by done.
  rewrite Hh in Hm. apply head_Some_elem_of in Hm.
  by eapply Forall_forall in Hall.
Qed.

Lemma match_queries_algorithm pair fn alg tol min_score top_n library
    queries : forall i0,
  Forall (fun r =>
            Forall (fun m => algorithm m = alg) (matches r)
            /\ forall m, best_match r = Some m -> algorithm m = alg)
    (match_queries pair fn alg tol min_score top_n library i0 queries).2.
Proof.
  induction queries as [|q queries IH]; intros i0; cbn [match_queries snd].
  - constructor.
  - constructor; [apply match_query_algorithm|apply IH].
Qed.

(** The aggregator returns one entry per result, with the algorithm name it
    was given and the matches of the result. *)
Lemma process_matching_results_total xcms_peaks alg rs :
  exists prs,
    process_matching_results xcms_peaks rs alg = Ok prs
    /\ Forall2 (fun r cr =>
                  cr_algorithm cr = alg
                  /\ cr_matches cr = matches r
                  /\ cr_best_match cr = best_match r) rs prs.
Proof.
  induction rs as [|r rs (prs & Hprs & Hall)];
    cbn [process_matching_results].
  - exists []. split; [done|constructor].
  - unfold process_one.
    destruct (Confidence.calculate_confidence_score_total (matches r)
                (best_match r)) as (c & -> & _).
    cbn [bind]. rewrite Hprs. cbn [bind]. eexists. split; [done|].
    constructor; [|done]. done.
Qed.

Lemma Forall2_transport {A B} (P : A -> Prop) (R : A -> B -> Prop)
    (Q : B -> Prop) (l : list A) (k : list B) :
  (forall x y, P x -> R x y -> Q y) ->
  Forall P l -> Forall2 R l k -> Forall Q k.
Proof.
  intros HPQ HP HR. induction HR as [|x y l k Hxy _ IH]; [constructor|].
  apply Forall_cons in HP as [Hx HP]. constructor; eauto.
Qed.

(** All matches of an entry, and its best match, name the algorithm. *)
Definition reports (alg : string) (ms : list match_dict)
    (best : option match_dict) : Prop :=
  Forall (fun m => algorithm m = alg) ms
  /\ forall m, best = Some m -> algorithm m = alg.

(** *** Claim C8 *)

(** C8: when the ms2query strategy is requested but the MS2Query package or
    its library is unavailable, the workflow runs the cosine matcher for
    the whole run, and the response, every returned match and every
    processed result report the algorithm "cosine". *)
Theorem match_spectra_fallback
    (pair : similarity_fn -> Spectrum -> Spectrum -> pair_outcome)
    (MS2QUERY_AVAILABLE : bool) (ms2library : Type)
    (load_ms2library : string -> option ms2library)
    (match_spectrum :
       ms2library -> Spectrum -> bool -> Z -> option (list ms2query_match))
    (query_spectra library_spectra : list Spectrum) (library_dir : string)
    (config : MatchingConfig) (xcms_peaks : list xcms_peak) :
  MS2QUERY_AVAILABLE = false \/ load_ms2library library_dir = None ->
  exists resp,
    match_spectra pair MS2QUERY_AVAILABLE ms2library load_ms2library
      match_spectrum "ms2query" query_spectra library_spectra library_dir
      config xcms_peaks = Ok resp
    /\ resp_algorithm resp = "cosine"
    /\ (match_with_traditional pair query_spectra library_spectra "cosine"
          (cfg_mz_tolerance config) (cfg_min_score config)
          (cfg_top_n config)).2 = Ok (resp_matches resp)
    /\ length (resp_matches resp) = length query_spectra
    /\ length (resp_processed_results resp) = length query_spectra
    /\ Forall (fun r => reports "cosine" (matches r) (best_match r))
         (resp_matches resp)
    /\ Forall (fun cr =>
                 cr_algorithm cr = "cosine"
                 /\ reports "cosine" (cr_matches cr) (cr_best_match cr))
         (resp_processed_results resp).
Proof.
  intros Hunavailable. unfold match_spectra, run_matching.
  rewrite String.eqb_refl.
  set (attempt := if is_ms2query_available MS2QUERY_AVAILABLE then _ else _).
  assert (exists e, attempt = Raise e) as [e ->].
  { subst attempt. unfold is_ms2query_available, match_with_ms2query.
    destruct MS2QUERY_AVAILABLE; [|by eexists].
    destruct Hunavailable as [?| ->]; [done|]. cbn. by eexists. }
  unfold match_with_traditional.
  change (select_similarity "cosine" (cfg_mz_tolerance config))
    with (Ok (CosineGreedy (cfg_mz_tolerance config))).
  cbn [snd bind fst].
  set (fn := CosineGreedy (cfg_mz_tolerance config)).
  set (rs := (match_queries pair fn "cosine" (cfg_mz_tolerance config)
                (cfg_min_score config) (cfg_top_n config) library_spectra 0
                query_spectra).2).
  destruct (process_matching_results_total xcms_peaks "cosine" rs)
    as (prs & -> & Hprs).
  cbn [bind]. eexists. split; [done|]. cbn.
  pose proof (match_queries_algorithm pair fn "cosine"
                (cfg_mz_tolerance config) (cfg_min_score config)
                (cfg_top_n config) library_spectra query_spectra 0%nat)
    as Hrs. fold rs in Hrs.
  assert (length rs = length query_spectra) as Hlen
    by apply Ranking.match_queries_length.
  split; [done|]. split; [done|]. split; [done|].
  split; [by rewrite <- (Forall2_length _ _ _ Hprs)|]. split; [done|].
  eapply Forall2_transport; [|exact Hrs|exact Hprs].
  intros r cr Hr (Ha & Hm & Hb). split; [done|]. unfold reports.
  by rewrite Hm, Hb.
Qed.

Definition no_library (_ : string) : option unit := None.
Definition no_match (_ : unit) (_ : Spectrum) (_ : bool) (_ : Z)
    : option (list ms2query_match) := None.
Definition default_config : MatchingConfig :=
  MkMatchingConfig 0.01 30.0 0.0 10.

Lemma match_spectra_fallback_witness :
  exists resp,
    match_spectra Ranking.always_one false unit no_library no_match
      "ms2query" [Ranking.query0] [Ranking.lib_spectrum "A"] "uploads"
      default_config [F1] = Ok resp
    /\ resp_algorithm resp = "cosine".
Proof.
  destruct (match_spectra_fallback Ranking.always_one false unit no_library
              no_match [Ranking.query0] [Ranking.lib_spectrum "A"] "uploads"
              default_config [F1] (or_introl eq_refl))
    as (resp & H1 & H2 & _).
  exists resp. split; [exact H1|exact H2].
Defined.

(** Scenario D of the specification, evaluated: MS2Query is installed but
    its library cannot be loaded. *)
Example match_spectra_scenario_D :
  match match_spectra Ranking.always_one true unit no_library no_match
          "ms2query" [Ranking.query0] [Ranking.lib_spectrum "A"] "uploads"
          default_config [F1] with
  | Ok resp =>
      (resp_algorithm resp,
       cr_algorithm <$> resp_processed_results resp,
       (fun r => algorithm <$> matches r) <$> resp_matches resp)
  | Raise _ => ("", [], [])
  end = ("cosine", ["cosine"], [["cosine"]]).
Proof. vm_compute. reflexivity. Qed.

End Workflow.

(** * Further properties of the code *)

(** ** The feature locator: when it raises *)

Module LocatorErrors.

Lemma locator_scan_no_candidate mz rt mz_tolerance rt_tolerance peaks :
  forall bm bs,
  (forall p, p ∈ peaks -> within p mz rt mz_tolerance rt_tolerance = false) ->
  locator_scan peaks mz rt mz_tolerance rt_tolerance bm bs = Ok bm.
Proof.
  induction peaks as [|peak peaks IH]; intros bm bs Hnone; [done|].
  rewrite Locator.locator_scan_cons, (Hnone peak) by apply list_elem_of_here.
  apply IH. intros p Hp. by apply Hnone, list_elem_of_further.
Qed.

Lemma within_negative_tolerance peak mz rt mz_tolerance rt_tolerance :
  (mz_tolerance < 0)%Q \/ (rt_tolerance < 0)%Q ->
  within peak mz rt mz_tolerance rt_tolerance = false.
Proof.
  intros Hneg. unfold within. apply andb_false_iff.
  destruct Hneg as [H|H]; [left|right]; apply Qle_bool_false;
    (eapply Qlt_le_trans; [exact H|apply Qabs_nonneg]).
Qed.

Lemma locator_scan_raises mz rt mz_tolerance rt_tolerance peaks :
  forall bm bs,
  (exists e, locator_scan peaks mz rt mz_tolerance rt_tolerance bm bs = Raise e)
  <-> ((mz_tolerance == 0)%Q \/ (rt_tolerance == 0)%Q)
      /\ exists p, p ∈ peaks
           /\ within p mz rt mz_tolerance rt_tolerance = true.
Proof.
  induction peaks as [|peak peaks IH]; intros bm bs.
  - cbn. split; [by intros [e ?]|].
    intros [_ (p & Hp & _)]. by apply elem_of_nil in Hp.
  - rewrite Locator.locator_scan_cons.
    destruct (within peak mz rt mz_tolerance rt_tolerance) eqn:Hw.
    + unfold float_div. destruct (Qeq_bool mz_tolerance 0) eqn:Hm.
      { apply Qeq_bool_iff in Hm. split; [|by eexists]. intros _.
        split; [by left|]. exists peak. split; [apply list_elem_of_here|done]. }
      destruct (Qeq_bool rt_tolerance 0) eqn:Hr.
      { apply Qeq_bool_iff in Hr. split; [|by eexists]. intros _.
        split; [by right|]. exists peak. split; [apply list_elem_of_here|done]. }
      apply Qeq_bool_false in Hm, Hr. cbn [bind].
      split.
      * intros H. exfalso.
        destruct (below _ bs); apply IH in H as [[?|?] _]; contradiction.
      * intros [[?|?] _]; contradiction.
    + rewrite IH. split; intros [Hz (p & Hp & Hc)]; (split; [done|]).
      * exists p. split; [by apply list_elem_of_further|done].
      * apply elem_of_cons in Hp as [->|Hp]; [congruence|]. by exists p.
Qed.

Lemma locator_scan_raises_only mz rt mz_tolerance rt_tolerance peaks :
  forall bm bs e,
  locator_scan peaks mz rt mz_tolerance rt_tolerance bm bs = Raise e ->
  e = ZeroDivisionError.
Proof.
  induction peaks as [|peak peaks IH]; intros bm bs e; [done|].
  rewrite Locator.locator_scan_cons.
  destruct (within peak mz rt mz_tolerance rt_tolerance); [|apply IH].
  unfold float_div. destruct (Qeq_bool mz_tolerance 0); [by intros [= <-]|].
  destruct (Qeq_bool rt_tolerance 0); [by intros [= <-]|]. cbn [bind].
  destruct (below _ bs); apply IH.
Qed.

(** X1: find_matching_xcms_peak raises exactly when a tolerance is zero and
    some feature is within both windows, the exception is then
    ZeroDivisionError; with a negative tolerance it returns None. *)
Theorem find_matching_xcms_peak_raises
    (xcms_peaks : list xcms_peak) (mz rt mz_tolerance rt_tolerance : Q) :
  let r := find_matching_xcms_peak xcms_peaks mz rt mz_tolerance rt_tolerance in
  ((exists e, r = Raise e)
   <-> ((mz_tolerance == 0)%Q \/ (rt_tolerance == 0)%Q)
       /\ exists p, p ∈ xcms_peaks
            /\ within p mz rt mz_tolerance rt_tolerance = true)
  /\ (forall e, r = Raise e -> e = ZeroDivisionError)
  /\ ((mz_tolerance < 0)%Q \/ (rt_tolerance < 0)%Q -> r = Ok None).
Proof.
  intros r. subst r. unfold find_matching_xcms_peak.
  split; [apply locator_scan_raises|]. split; [apply locator_scan_raises_only|].
  intros Hneg. apply locator_scan_no_candidate.
  intros p _. by apply within_negative_tolerance.
Qed.

Lemma find_matching_xcms_peak_raises_witness :
  find_matching_xcms_peak [F1] 150.0 121.0 (-1) 30 = Ok None.
Proof.
  apply (proj2 (proj2 (find_matching_xcms_peak_raises [F1] 150.0 121.0
                         (-1) 30))).
  left. reflexivity.
Defined.

End LocatorErrors.

(** ** count_matched_peaks: no match, and a spectrum against itself *)

Module CountingEdge.





Lemma close_refl (tol q : Q) : (0 <= tol)%Q -> Counting.close tol q q = true.
Proof.
  intros Htol. unfold Counting.close. apply Qle_bool_iff.
  apply Qabs_Qle_condition. split; lra.
Qed.

(** With the indices below [length pre] used, the peak after [pre] is the
    first free one in reach of itself. *)
Lemma first_free_own tol q used post : forall pre j,
  (0 <= tol)%Q ->
  (forall i, (i < length pre)%nat -> (j + i)%nat ∈ used) ->
  (j + length pre)%nat ∉ used ->
  first_free (pre ++ q :: post) j used q tol = Some (j + length pre)%nat.
Proof.
  induction pre as [|p pre IH]; intros j Htol Hused Hfree; cbn [app first_free].
  - cbn [length] in Hfree. rewrite Nat.add_0_r in Hfree.
    rewrite bool_decide_eq_false_2 by done.
    change (Qle_bool _ _) with (Counting.close tol q q).
    rewrite close_refl by done. cbn [length]. f_equal. lia.
  - rewrite bool_decide_eq_true_2.
    2:{ specialize (Hused 0%nat). rewrite Nat.add_0_r in Hused.
        apply Hused. cbn. lia. }
    rewrite IH; [cbn [length]; f_equal; lia|done|..].
    + intros i Hi. replace (S j + i)%nat with (j + S i)%nat by lia.
      apply Hused. cbn. lia.
    + by replace (S j + length pre)%nat with (j + length (p :: pre))%nat
        by (cbn; lia).
Qed.

Lemma count_loop_self tol l : forall rest pre matched,
  (0 <= tol)%Q ->
  l = pre ++ rest ->
  (count_loop rest l tol matched (set_seq 0 (length pre))).1
  = (matched + length rest)%nat.
Proof.
  induction rest as [|q rest IH]; intros pre matched Htol Hl; cbn [count_loop].
  - cbn. lia.
  - subst l. rewrite first_free_own; [|done|..].
    + cbn [Nat.add].
      replace ({[length pre]} ∪ set_seq 0 (length pre) : gset nat)
        with (set_seq (C:=gset nat) 0 (length (pre ++ [q]))).
      2:{ rewrite length_app. cbn [length]. rewrite Nat.add_1_r.
          rewrite set_seq_S_end_union_L. done. }
      rewrite (IH (pre ++ [q])); [cbn [length]; lia|done|].
      by rewrite <- app_assoc.
    + intros i Hi. apply elem_of_set_seq. lia.
    + rewrite elem_of_set_seq. lia.
Qed.

(** X3: for a tolerance that is not negative, a spectrum matched against
    itself has all its peaks matched. *)
Theorem count_matched_peaks_self (spectrum : Spectrum) (tol : Q) :
  (0 <= tol)%Q ->
  count_matched_peaks spectrum spectrum tol = length (peaks_mz spectrum).
Proof.
  intros Htol. unfold count_matched_peaks.
  change (∅ : gset nat) with (set_seq (C:=gset nat) 0 (length (@nil Q))).
  by rewrite (count_loop_self tol (peaks_mz spectrum) (peaks_mz spectrum) []).
Qed.

Lemma count_matched_peaks_self_witness :
  count_matched_peaks (Counting.spectrum_of_mz [1; 1.2; 1.4]%Q)
    (Counting.spectrum_of_mz [1; 1.2; 1.4]%Q) 0.5 = 3%nat.
Proof.
  apply (count_matched_peaks_self (Counting.spectrum_of_mz [1; 1.2; 1.4]%Q) 0.5).
  intros H. vm_compute in H. discriminate H.
Defined.

End CountingEdge.

(** ** match_with_traditional: what is scored, what is returned *)

Module RankingShape.

Section Shape.

Variable pair : similarity_fn -> Spectrum -> Spectrum -> pair_outcome.
Variables (fn : similarity_fn) (alg : string) (tol min_score : Q) (top_n : Z).
Variable library : list Spectrum.

Lemma match_queries_calls queries : forall i0,
  (match_queries pair fn alg tol min_score top_n library i0 queries).1
  = queries ≫= (fun q => (fun lib => (q, lib)) <$> library).
Proof.
  induction queries as [|q queries IH]; intros i0; [done|].
  cbn [match_queries fst]. rewrite IH. unfold match_query. cbn [fst].
  by rewrite Ranking.score_library_calls.
Qed.

Lemma match_query_elem i query m :
  m ∈ matches (match_query pair fn alg tol min_score top_n library i query).2 ->
  exists lib, lib ∈ library
    /\ Ranking.scored_entry pair fn alg tol min_score i query lib = Some m.
Proof.
  unfold match_query. cbn [snd matches].
  rewrite Ranking.score_library_candidates.
  destruct (Ranking.py_slice_to_take
              (sort_by_score_reverse
                 (Ranking.candidates pair fn alg tol min_score i query library))
              top_n) as (k & -> & _).
  intros Hm. apply elem_of_take in Hm as (j & Hm & _).
  apply list_elem_of_lookup_2 in Hm.
  rewrite Ranking.sort_by_score_reverse_perm in Hm.
  by apply list_elem_of_omap in Hm.
Qed.

Lemma scored_entry_fields i query lib m :
  Ranking.scored_entry pair fn alg tol min_score i query lib = Some m ->
  pair fn query lib = PairScore (score m)
  /\ algorithm m = alg
  /\ matched_peaks m = Z.of_nat (count_matched_peaks query lib tol)
  /\ total_peaks m = Z.of_nat (length (peaks_mz query))
  /\ library_id m = default ("lib_" +:+ pretty i) (spectrum_id lib).
Proof.
  unfold Ranking.scored_entry. destruct (pair fn query lib) as [| |s]; [done..|].
  destruct (Qlt_bool s min_score); [done|]. by intros [= <-].
Qed.

Lemma count_matched_peaks_le_query query lib :
  (count_matched_peaks query lib tol <= length (peaks_mz query))%nat.
Proof.
  unfold count_matched_peaks.
  destruct (Counting.count_loop_claims (peaks_mz lib) tol (peaks_mz query) 0 ∅)
    as ([_ H] & _); [by intros j ?%elem_of_empty|]. exact H.
Qed.

(** The entries kept by the truncation are the best ones. *)
Lemma match_query_keeps_best i query :
  let r := (match_query pair fn alg tol min_score top_n library i query).2 in
  let cands := Ranking.candidates pair fn alg tol min_score i query library in
  exists dropped,
    cands ≡ₚ matches r ++ dropped
    /\ (forall k d, k ∈ matches r -> d ∈ dropped -> (score d <= score k)%Q)
    /\ ((0 <= top_n)%Z ->
        length (matches r) = Z.to_nat top_n `min` length cands).
Proof.
  intros r cands. subst r. unfold match_query. cbn [snd matches].
  rewrite Ranking.score_library_candidates. fold cands.
  destruct (Ranking.py_slice_to_take (sort_by_score_reverse cands) top_n)
    as (k & -> & Hk).
  exists (drop k (sort_by_score_reverse cands)).
  pose proof (Ranking.sort_by_score_reverse_sorted cands) as Hs.
  rewrite <- (take_drop k (sort_by_score_reverse cands)) in Hs.
  apply StronglySorted_app in Hs as (Hord & _ & _).
  split; [by rewrite take_drop, Ranking.sort_by_score_reverse_perm|].
  split; [intros x d Hx Hd; by apply Hord|].
  intros Hn. rewrite length_take, (Hk Hn).
  by rewrite Ranking.sort_by_score_reverse_perm.
Qed.

End Shape.

(** X4: for a known algorithm, match_with_traditional scores every query
    against every library spectrum exactly once, query by query in library
    order, whatever min_score and top_n are, and returns one entry per
    query, numbered from 0. *)
Theorem match_with_traditional_scores_all
    (pair : similarity_fn -> Spectrum -> Spectrum -> pair_outcome)
    (query_spectra library_spectra : list Spectrum) (alg : string)
    (mz_tolerance min_score : Q) (top_n : Z) (rs : list match_result) :
  (match_with_traditional pair query_spectra library_spectra alg
     mz_tolerance min_score top_n).2 = Ok rs ->
  (match_with_traditional pair query_spectra library_spectra alg
     mz_tolerance min_score top_n).1
  = query_spectra ≫= (fun q => (fun lib => (q, lib)) <$> library_spectra)
  /\ length rs = length query_spectra
  /\ forall i r, rs !! i = Some r -> query_index r = Z.of_nat i.
Proof.
  unfold match_with_traditional.
  destruct (select_similarity alg mz_tolerance) as [fn|e]; [|done].
  cbn [fst snd]. intros [= <-]. split; [apply match_queries_calls|].
  split; [apply Ranking.match_queries_length|].
  intros i r Hr. by apply Ranking.match_queries_lookup in Hr as (q & _ & ->).
Qed.

Lemma match_with_traditional_scores_all_witness :
  exists rs,
    (match_with_traditional Ranking.always_one [Ranking.query0]
       [Ranking.lib_spectrum "A"; Ranking.lib_spectrum "B"] "cosine"
       0.01 2 0).2 = Ok rs
    /\ (match_with_traditional Ranking.always_one [Ranking.query0]
          [Ranking.lib_spectrum "A"; Ranking.lib_spectrum "B"] "cosine"
          0.01 2 0).1
       = [(Ranking.query0, Ranking.lib_spectrum "A");
          (Ranking.query0, Ranking.lib_spectrum "B")].
Proof.
  eexists. split; [reflexivity|].
  apply (match_with_traditional_scores_all Ranking.always_one [Ranking.query0]
           [Ranking.lib_spectrum "A"; Ranking.lib_spectrum "B"] "cosine"
           0.01 2 0 _ eq_refl).
Defined.

(** X5: every match returned by match_with_traditional for query i comes
    from a library spectrum that the scorer scored with the match's score;
    it carries the algorithm name, total_peaks is the number of peaks of
    the query, and 0 <= matched_peaks <= total_peaks. *)
Theorem match_with_traditional_match_fields
    (pair : similarity_fn -> Spectrum -> Spectrum -> pair_outcome)
    (query_spectra library_spectra : list Spectrum) (alg : string)
    (mz_tolerance min_score : Q) (top_n : Z) (rs : list match_result) :
  (match_with_traditional pair query_spectra library_spectra alg
     mz_tolerance min_score top_n).2 = Ok rs ->
  forall i query r m,
    query_spectra !! i = Some query -> rs !! i = Some r -> m ∈ matches r ->
    algorithm m = alg
    /\ total_peaks m = Z.of_nat (length (peaks_mz query))
    /\ (0 <= matched_peaks m <= total_peaks m)%Z
    /\ exists fn lib,
         select_similarity alg mz_tolerance = Ok fn
         /\ lib ∈ library_spectra
         /\ pair fn query lib = PairScore (score m)
         /\ matched_peaks m
            = Z.of_nat (count_matched_peaks query lib mz_tolerance).
Proof.
  unfold match_with_traditional.
  destruct (select_similarity alg mz_tolerance) as [fn|e]; [|done].
  cbn [snd]. intros [= <-] i query r m Hq Hr Hm.
  apply Ranking.match_queries_lookup in Hr as (q' & Hq' & ->).
  assert (q' = query) as -> by congruence. cbn [Nat.add] in Hm.
  apply match_query_elem in Hm as (lib & Hlib & Hm).
  apply scored_entry_fields in Hm as (Hs & Ha & Hmp & Htp & _).
  split; [done|]. split; [done|]. split.
  - rewrite Hmp, Htp.
    pose proof (count_matched_peaks_le_query mz_tolerance query lib). lia.
  - by exists fn, lib.
Qed.

(** The match built for the library spectrum "A" and [Ranking.query0]. *)
Definition match_A : match_dict :=
  MatchDict "A" "A" 1 "cosine" 2 2
    (MatchMetadata None None None None None None).

Lemma match_with_traditional_match_fields_witness :
  algorithm match_A = "cosine"
  /\ total_peaks match_A = Z.of_nat (length (peaks_mz Ranking.query0))
  /\ (0 <= matched_peaks match_A <= total_peaks match_A)%Z.
Proof.
  destruct (match_with_traditional_match_fields Ranking.always_one
              [Ranking.query0] [Ranking.lib_spectrum "A"] "cosine" 0.01 0 10
              _ eq_refl 0%nat Ranking.query0 _ match_A eq_refl eq_refl)
    as (H1 & H2 & H3 & _).
  - vm_compute. apply list_elem_of_here.
  - split; [exact H1|]. split; [exact H2|exact H3].
Defined.

(** X6: the truncation to top_n keeps the best candidates: the candidates
    of a query are the returned matches together with dropped ones, no
    dropped candidate scores higher than a returned one, and for
    top_n >= 0 the number returned is min(top_n, number of candidates). *)
Theorem match_with_traditional_keeps_best
    (pair : similarity_fn -> Spectrum -> Spectrum -> pair_outcome)
    (query_spectra library_spectra : list Spectrum) (alg : string)
    (mz_tolerance min_score : Q) (top_n : Z) (rs : list match_result) :
  (match_with_traditional pair query_spectra library_spectra alg
     mz_tolerance min_score top_n).2 = Ok rs ->
  forall i query r,
    query_spectra !! i = Some query -> rs !! i = Some r ->
    exists fn dropped,
      select_similarity alg mz_tolerance = Ok fn
      /\ Ranking.candidates pair fn alg mz_tolerance min_score i query
           library_spectra ≡ₚ matches r ++ dropped
      /\ (forall k d, k ∈ matches r -> d ∈ dropped -> (score d <= score k)%Q)
      /\ ((0 <= top_n)%Z ->
          length (matches r)
          = Z.to_nat top_n
            `min` length (Ranking.candidates pair fn alg mz_tolerance
                            min_score i query library_spectra)).
Proof.
  unfold match_with_traditional.
  destruct (select_similarity alg mz_tolerance) as [fn|e]; [|done].
  cbn [snd]. intros [= <-] i query r Hq Hr.
  apply Ranking.match_queries_lookup in Hr as (q' & Hq' & ->).
  assert (q' = query) as -> by congruence. cbn [Nat.add].
  destruct (match_query_keeps_best pair fn alg mz_tolerance min_score top_n
              library_spectra i query) as (dropped & H1 & H2 & H3).
  by exists fn, dropped.
Qed.

Lemma match_with_traditional_keeps_best_witness :
  exists fn dropped,
    select_similarity "cosine" 0.01 = Ok fn
    /\ Ranking.candidates Ranking.always_one fn "cosine" 0.01 0 0
         Ranking.query0 [Ranking.lib_spectrum "A"; Ranking.lib_spectrum "B"]
       ≡ₚ matches
            (match_query Ranking.always_one (CosineGreedy 0.01) "cosine" 0.01
               0 1 [Ranking.lib_spectrum "A"; Ranking.lib_spectrum "B"] 0
               Ranking.query0).2 ++ dropped.
Proof.
  destruct (match_with_traditional_keeps_best Ranking.always_one
              [Ranking.query0]
              [Ranking.lib_spectrum "A"; Ranking.lib_spectrum "B"] "cosine"
              0.01 0 1 _ eq_refl 0%nat Ranking.query0 _ eq_refl eq_refl)
    as (fn & dropped & H1 & H2 & _).
  exists fn, dropped. split; [exact H1|exact H2].
Defined.

End RankingShape.

(** ** The aggregator on the results of match_with_traditional *)

Module Aggregation.

Lemma py_min_right (a b : Q) : (py_min a b <= b)%Q.
Proof.
  unfold py_min. destruct (Qlt_bool b a) eqn:E; [apply Qle_refl|].
  by apply Qlt_bool_false in E.
Qed.

Lemma py_max_upper (a b c : Q) : (a <= c)%Q -> (b <= c)%Q -> (py_max a b <= c)%Q.
Proof. intros Ha Hb. unfold py_max. by destruct (Qlt_bool a b). Qed.

Lemma peak_ratio_range (b : match_dict) :
  (0 <= matched_peaks b <= total_peaks b)%Z ->
  (0 <= Confidence.peak_ratio b <= 1)%Q.
Proof.
  intros [Hm Ht]. unfold Confidence.peak_ratio.
  destruct (0 <? total_peaks b)%Z eqn:E; [|split; done].
  apply Z.ltb_lt in E.
  assert (0 < inject_Z (total_peaks b))%Q as Hpos.
  { change 0%Q with (inject_Z 0). by rewrite <- Zlt_Qlt. }
  split.
  - apply Qle_shift_div_l; [done|]. rewrite Qmult_0_l.
    change 0%Q with (inject_Z 0). by rewrite <- Zle_Qle.
  - apply Qle_shift_div_r; [done|]. rewrite Qmult_1_l. by rewrite <- Zle_Qle.
Qed.

Lemma scaled_at_most (base x f : Q) :
  (0 <= base)%Q -> (x <= base)%Q -> (0 <= f <= 1)%Q ->
  (py_min 1.0 (py_max 0.0 (x * (0.5 + 0.5 * f))) <= base)%Q.
Proof.
  intros Hb Hx [Hf0 Hf1]. eapply Qle_trans; [apply py_min_right|].
  apply py_max_upper; [lra|].
  destruct (Qlt_le_dec x 0) as [Hneg|Hpos]; nra.
Qed.

(** X7: for every entry returned by match_with_traditional that has a best
    match of score >= 0, the confidence computed by the aggregator is at
    most the score of the best match. *)
Theorem confidence_at_most_best_score
    (pair : similarity_fn -> Spectrum -> Spectrum -> pair_outcome)
    (query_spectra library_spectra : list Spectrum) (alg : string)
    (mz_tolerance min_score : Q) (top_n : Z) (rs : list match_result)
    (r : match_result) (best : match_dict) :
  (match_with_traditional pair query_spectra library_spectra alg
     mz_tolerance min_score top_n).2 = Ok rs ->
  r ∈ rs ->
  best_match r = Some best ->
  (0 <= score best)%Q ->
  exists c,
    calculate_confidence_score (matches r) (best_match r) = Ok c
    /\ (c <= score best)%Q.
Proof.
  intros Hrs Hr Hbest Hscore.
  apply list_elem_of_lookup in Hr as [i Hi].
  destruct (lookup_lt_is_Some_2 query_spectra i) as [query Hq].
  { apply lookup_lt_Some in Hi.
    revert Hrs Hi. unfold match_with_traditional.
    destruct (select_similarity alg mz_tolerance) as [fn|e]; [|done].
    cbn [snd]. intros [= <-]. by rewrite Ranking.match_queries_length. }
  assert (StronglySorted Ranking.score_ge (matches r)
          /\ head (matches r) = Some best) as [Hsorted Hhead].
  { revert Hrs Hi. unfold match_with_traditional.
    destruct (select_similarity alg mz_tolerance) as [fn|e]; [|done].
    cbn [snd]. intros [= <-] Hi.
    apply Ranking.match_queries_lookup in Hi as (q' & Hq' & ->).
    destruct (Ranking.match_query_ranked pair fn alg mz_tolerance min_score
                top_n library_spectra (0 + i) q') as (_ & Hs & _ & _ & _).
    split; [done|]. by rewrite <- Hbest. }
  assert (0 <= matched_peaks best <= total_peaks best)%Z as Hpeaks.
  { apply head_Some_elem_of in Hhead. revert Hrs Hi Hhead.
    unfold match_with_traditional.
    destruct (select_similarity alg mz_tolerance) as [fn|e]; [|done].
    cbn [snd]. intros [= <-] Hi Hin.
    apply Ranking.match_queries_lookup in Hi as (q' & Hq' & ->).
    apply RankingShape.match_query_elem in Hin as (lib & _ & Hm).
    apply RankingShape.scored_entry_fields in Hm as (_ & _ & -> & -> & _).
    pose proof (RankingShape.count_matched_peaks_le_query mz_tolerance q' lib).
    lia. }
  rewrite Hbest, Confidence.calculate_confidence_score_value.
  eexists. split; [done|].
  apply scaled_at_most; [done| |by apply peak_ratio_range].
  destruct (1 <? length (matches r))%nat; [|apply Qle_refl].
  pose proof (Confidence.consistency_boost_sorted _ _ Hsorted Hhead). lra.
Qed.

Definition entry_A : match_result :=
  (match_query Ranking.always_one (CosineGreedy 0.01) "cosine" 0.01 0 10
     [Ranking.lib_spectrum "A"] 0 Ranking.query0).2.

Lemma confidence_at_most_best_score_witness :
  exists c,
    calculate_confidence_score (matches entry_A) (best_match entry_A) = Ok c
    /\ (c <= score RankingShape.match_A)%Q.
Proof.
  apply (confidence_at_most_best_score Ranking.always_one [Ranking.query0]
           [Ranking.lib_spectrum "A"] "cosine" 0.01 0 10 [entry_A] entry_A
           RankingShape.match_A).
  - reflexivity.
  - apply list_elem_of_here.
  - reflexivity.
  - intros H. vm_compute in H. discriminate H.
Defined.

(** X8: process_matching_results never raises and returns one result per
    entry, in order; each result copies the matches and the best match of
    its entry, counts the matches, carries the algorithm name given to the
    aggregator and a confidence in [0,1], is named by the entry's feature
    name or else "Feature_<query_index>", and has the peak of that name
    when the table has one. *)
Theorem process_matching_results_shape
    (xcms_peaks : list xcms_peak) (rs : list match_result) (alg : string) :
  exists prs,
    process_matching_results xcms_peaks rs alg = Ok prs
    /\ Forall2 (fun r cr =>
         cr_algorithm cr = alg
         /\ cr_matches cr = matches r
         /\ cr_best_match cr = best_match r
         /\ cr_match_count cr = length (matches r)
         /\ calculate_confidence_score (matches r) (best_match r)
            = Ok (cr_confidence_score cr)
         /\ (0 <= cr_confidence_score cr <= 1)%Q
         /\ cr_feature_name cr
            = default ("Feature_" +:+ pretty (query_index r))
                (query_spectrum r ≫= qi_feature_name)
         /\ (forall p, get_peak_info xcms_peaks (cr_feature_name cr) = Some p ->
               cr_xcms_peak cr = Some p)) rs prs.
Proof.
  induction rs as [|r rs (prs & Hprs & Hall)]; cbn [process_matching_results].
  - exists []. split; [done|constructor].
  - unfold process_one.
    destruct (Confidence.calculate_confidence_score_total (matches r)
                (best_match r)) as (c & Hc & Hrange).
    rewrite Hc. cbn [bind]. rewrite Hprs. cbn [bind]. eexists.
    split; [done|]. constructor; [|done]. cbn.
    repeat (split; [done|]). split.
    + by destruct (query_spectrum r) as [[? ? [name|]]|].
    + intros p Hp. unfold resolve_peak. by rewrite Hp.
Qed.

End Aggregation.

(** ** The learned-ranking matcher and the workflow: shape and errors *)

Module WorkflowShape.

Section Ms2query.

Variable ms2library : Type.
Variable match_spectrum :
  ms2library -> Spectrum -> bool -> Z -> option (list ms2query_match).
Variables (lib : ms2library) (analog_search : bool) (top_n : Z).

(** What match_with_ms2query builds for query number [i]. *)
Definition ms2query_entry (i : nat) (query : Spectrum) (e : match_result)
    : Prop :=
  query_index e = Z.of_nat i
  /\ best_match e = head (matches e)
  /\ Forall (fun m => algorithm m = "ms2query"
                      /\ total_peaks m = Z.of_nat (length (peaks_mz query)))
       (matches e)
  /\ (match_spectrum lib query analog_search top_n = None ->
      matches e = [] /\ best_match e = None /\ query_spectrum e = None)
  /\ (forall ms, match_spectrum lib query analog_search top_n = Some ms ->
      length (matches e) = length ms).

Lemma ms2query_loop_shape queries : forall i0,
  let rs := ms2query_loop ms2library match_spectrum lib analog_search top_n
              i0 queries in
  length rs = length queries
  /\ forall i q e, queries !! i = Some q -> rs !! i = Some e ->
       ms2query_entry (i0 + i) q e.
Proof.
  induction queries as [|q queries IH]; intros i0; cbn [ms2query_loop].
  - split; [done|]. intros i q e Hq. done.
  - destruct (IH (S i0)) as [Hlen Hall]. split; [cbn; by rewrite Hlen|].
    intros [|i] q' e Hq He; cbn in Hq, He.
    + injection Hq as <-. injection He as <-. rewrite Nat.add_0_r.
      unfold ms2query_entry.
      destruct (match_spectrum lib q analog_search top_n) as [ms|]; cbn.
      * split; [done|]. split; [done|]. split.
        -- apply Forall_fmap, Forall_forall. by intros m _.
        -- split; [done|]. intros ms' [= <-]. apply length_fmap.
      * split; [done|]. split; [done|]. split; [constructor|]. done.
    + replace (i0 + S i)%nat with (S i0 + i)%nat by lia. by apply Hall.
Qed.

End Ms2query.

(** X9: match_with_ms2query raises ImportError when the package is not
    importable and ValueError when no library can be obtained; otherwise
    it returns one entry per query, in order, whose matches all carry the
    algorithm "ms2query" and the number of peaks of the query, as many as
    MS2Query returned, with best_match the first of them; a query on which
    MS2Query raises yields an entry with no matches, no best_match and no
    query_spectrum. *)
Theorem match_with_ms2query_shape
    (MS2QUERY_AVAILABLE : bool) (ms2library : Type)
    (load_ms2library : string -> option ms2library)
    (match_spectrum :
       ms2library -> Spectrum -> bool -> Z -> option (list ms2query_match))
    (query_spectra : list Spectrum) (library_path : option string)
    (ms2lib : option ms2library) (analog_search : bool) (top_n : Z) :
  let r := match_with_ms2query MS2QUERY_AVAILABLE ms2library load_ms2library
             match_spectrum query_spectra library_path ms2lib analog_search
             top_n in
  (MS2QUERY_AVAILABLE = false -> r = Raise ImportError)
  /\ (MS2QUERY_AVAILABLE = true -> ms2lib = None ->
      library_path ≫= load_ms2library = None -> r = Raise ValueError)
  /\ (forall lib,
        MS2QUERY_AVAILABLE = true ->
        ms2lib = Some lib
        \/ (ms2lib = None /\ library_path ≫= load_ms2library = Some lib) ->
        exists rs,
          r = Ok rs /\ length rs = length query_spectra
          /\ forall i q e,
               query_spectra !! i = Some q -> rs !! i = Some e ->
               ms2query_entry ms2library match_spectrum lib analog_search
                 top_n i q e).
Proof.
  intros r. subst r. unfold match_with_ms2query. split; [|split].
  - by intros ->.
  - intros -> -> Hload. cbn [negb].
    destruct library_path as [path|]; [|done]. cbn in Hload. by rewrite Hload.
  - intros lib -> Hlib. cbn [negb].
    assert (match ms2lib with
            | Some lib => Ok lib
            | None =>
                match library_path with
                | Some path =>
                    match load_ms2library path with
                    | Some lib => Ok lib
                    | None => Raise ValueError
                    end
                | None => Raise ValueError
                end
            end = Ok lib) as ->.
    { destruct Hlib as [->|[-> Hload]]; [done|].
      destruct library_path as [path|]; [|done]. cbn in Hload.
      by rewrite Hload. }
    cbn [bind]. eexists. split; [done|].
    apply (ms2query_loop_shape ms2library match_spectrum lib analog_search
             top_n query_spectra 0).
Qed.

Lemma match_with_ms2query_shape_witness :
  match_with_ms2query false unit Workflow.no_library Workflow.no_match
    [Ranking.query0] (Some "uploads") None true 10 = Raise ImportError
  /\ match_with_ms2query true unit Workflow.no_library Workflow.no_match
       [Ranking.query0] (Some "uploads") None true 10 = Raise ValueError
  /\ exists rs,
       match_with_ms2query true unit Workflow.no_library Workflow.no_match
         [Ranking.query0] None (Some tt) true 10 = Ok rs
       /\ length rs = 1%nat.
Proof.
  split; [|split].
  - apply (proj1 (match_with_ms2query_shape false unit Workflow.no_library
                    Workflow.no_match [Ranking.query0] (Some "uploads") None
                    true 10)). reflexivity.
  - apply (proj1 (proj2 (match_with_ms2query_shape true unit
                           Workflow.no_library Workflow.no_match
                           [Ranking.query0] (Some "uploads") None true 10)));
      reflexivity.
  - destruct (proj2 (proj2 (match_with_ms2query_shape true unit
                              Workflow.no_library Workflow.no_match
                              [Ranking.query0] None (Some tt) true 10))
                tt eq_refl (or_introl eq_refl)) as (rs & H1 & H2 & _).
    exists rs. split; [exact H1|exact H2].
Defined.

(** The availability test of match_spectra repeats the one made by
    match_with_ms2query. *)
Lemma ms2query_attempt (MS2QUERY_AVAILABLE : bool) (ms2library : Type)
    (load_ms2library : string -> option ms2library)
    (match_spectrum :
       ms2library -> Spectrum -> bool -> Z -> option (list ms2query_match))
    (query_spectra : list Spectrum) (library_dir : string) (top_n : Z) :
  (if is_ms2query_available MS2QUERY_AVAILABLE
   then match_with_ms2query MS2QUERY_AVAILABLE ms2library load_ms2library
          match_spectrum query_spectra (Some library_dir) None true top_n
   else Raise ImportError)
  = match_with_ms2query MS2QUERY_AVAILABLE ms2library load_ms2library
      match_spectrum query_spectra (Some library_dir) None true top_n.
Proof. by destruct MS2QUERY_AVAILABLE. Qed.

Lemma ms2query_reports (MS2QUERY_AVAILABLE : bool) (ms2library : Type)
    (load_ms2library : string -> option ms2library)
    (match_spectrum :
       ms2library -> Spectrum -> bool -> Z -> option (list ms2query_match))
    (query_spectra : list Spectrum) (library_dir : string) (top_n : Z) rs :
  match_with_ms2query MS2QUERY_AVAILABLE ms2library load_ms2library
    match_spectrum query_spectra (Some library_dir) None true top_n = Ok rs ->
  length rs = length query_spectra
  /\ Forall (fun r => Workflow.reports "ms2query" (matches r) (best_match r))
       rs.
Proof.
  unfold match_with_ms2query. destruct MS2QUERY_AVAILABLE; [|done].
  cbn [negb]. destruct (load_ms2library library_dir) as [lib|]; [|done].
  cbn [bind]. intros [= <-].
  destruct (ms2query_loop_shape ms2library match_spectrum lib true
              top_n query_spectra 0) as [Hlen Hall].
  split; [done|]. apply Forall_lookup. intros i e He.
  destruct (lookup_lt_is_Some_2 query_spectra i) as [q Hq].
  { rewrite <- Hlen. by eapply lookup_lt_Some. }
  destruct (Hall i q e Hq He) as (_ & Hbest & Hms & _).
  assert (Forall (fun m => algorithm m = "ms2query") (matches e)) as Halg.
  { eapply Forall_impl; [exact Hms|]. by intros m [? _]. }
  split; [done|]. intros m Hm. rewrite Hbest in Hm.
  apply head_Some_elem_of in Hm. by eapply Forall_forall in Halg.
Qed.

Section Run.

Variable pair : similarity_fn -> Spectrum -> Spectrum -> pair_outcome.
Variable MS2QUERY_AVAILABLE : bool.
Variable ms2library : Type.
Variable load_ms2library : string -> option ms2library.
Variable match_spectrum :
  ms2library -> Spectrum -> bool -> Z -> option (list ms2query_match).
Variables query_spectra library_spectra : list Spectrum.
Variable library_dir : string.
Variable config : MatchingConfig.

Lemma traditional_reports alg rs :
  (match_with_traditional pair query_spectra library_spectra alg
     (cfg_mz_tolerance config) (cfg_min_score config) (cfg_top_n config)).2
    = Ok rs ->
  length rs = length query_spectra
  /\ Forall (fun r => Workflow.reports alg (matches r) (best_match r)) rs.
Proof.
  unfold match_with_traditional.
  destruct (select_similarity alg (cfg_mz_tolerance config)) as [fn|e];
    [|done].
  cbn [snd]. intros [= <-]. split; [apply Ranking.match_queries_length|].
  apply Workflow.match_queries_algorithm.
Qed.

Lemma traditional_raises alg e :
  (match_with_traditional pair query_spectra library_spectra alg
     (cfg_mz_tolerance config) (cfg_min_score config) (cfg_top_n config)).2
    = Raise e ->
  e = ValueError
  /\ alg <> "dot_product" /\ alg <> "cosine" /\ alg <> "modified_cosine".
Proof.
  unfold match_with_traditional, select_similarity.
  destruct (String.eqb alg "dot_product") eqn:H1; [done|].
  destruct (String.eqb alg "cosine") eqn:H2; [done|].
  destruct (String.eqb alg "modified_cosine") eqn:H3; [done|].
  cbn [snd]. intros [= <-]. by rewrite <- !String.eqb_neq.
Qed.

Lemma run_matching_reports alg rs a :
  run_matching pair MS2QUERY_AVAILABLE ms2library load_ms2library
    match_spectrum alg query_spectra library_spectra library_dir config
    = Ok (rs, a) ->
  (a = alg \/ (alg = "ms2query" /\ a = "cosine"))
  /\ length rs = length query_spectra
  /\ Forall (fun r => Workflow.reports a (matches r) (best_match r)) rs.
Proof.
  unfold run_matching. destruct (String.eqb alg "ms2query") eqn:Halg.
  - apply String.eqb_eq in Halg as ->. rewrite ms2query_attempt.
    destruct (match_with_ms2query _ _ _ _ _ _ _ _ _) as [rs'|e] eqn:Hattempt.
    + intros [= <- <-]. split; [by left|]. by eapply ms2query_reports.
    + destruct (match_with_traditional _ _ _ "cosine" _ _ _).2
        as [rs'|e'] eqn:Htrad; [|done].
      cbn [bind]. intros [= <- <-]. split; [by right|].
      by apply traditional_reports.
  - destruct (match_with_traditional _ _ _ alg _ _ _).2
      as [rs'|e'] eqn:Htrad; [|done].
    cbn [bind]. intros [= <- <-]. split; [by left|].
    by apply traditional_reports.
Qed.

Lemma run_matching_raises alg :
  let r := run_matching pair MS2QUERY_AVAILABLE ms2library load_ms2library
             match_spectrum alg query_spectra library_spectra library_dir
             config in
  ((exists e, r = Raise e)
   <-> alg <> "ms2query" /\ alg <> "dot_product" /\ alg <> "cosine"
       /\ alg <> "modified_cosine")
  /\ forall e, r = Raise e -> e = ValueError.
Proof.
  intros r. subst r. unfold run_matching.
  destruct (String.eqb alg "ms2query") eqn:Halg.
  - apply String.eqb_eq in Halg as ->.
    assert (exists rs a,
              match (if is_ms2query_available MS2QUERY_AVAILABLE
                     then match_with_ms2query MS2QUERY_AVAILABLE ms2library
                            load_ms2library match_spectrum query_spectra
                            (Some library_dir) None true (cfg_top_n config)
                     else Raise ImportError) with
              | Ok matching_results => Ok (matching_results, "ms2query")
              | Raise _ =>
                  matching_results <-!
                    (match_with_traditional pair query_spectra
                       library_spectra "cosine" (cfg_mz_tolerance config)
                       (cfg_min_score config) (cfg_top_n config)).2 ;;
                  Ok (matching_results, "cosine")
              end = Ok (rs, a)) as (rs & a & ->).
    { destruct (if is_ms2query_available MS2QUERY_AVAILABLE then _ else _);
        [by eexists _, _|].
      unfold match_with_traditional. cbn. by eexists _, _. }
    split; [|done]. split; [by intros [e ?]|]. by intros [? _].
  - apply String.eqb_neq in Halg.
    destruct (match_with_traditional _ _ _ alg _ _ _).2
      as [rs'|e'] eqn:Htrad; cbn [bind].
    + split; [|done]. split; [by intros [e ?]|].
      intros (_ & H1 & H2 & H3). exfalso. revert Htrad.
      unfold match_with_traditional, select_similarity.
      apply String.eqb_neq in H1, H2, H3. by rewrite H1, H2, H3.
    + apply traditional_raises in Htrad as (-> & H1 & H2 & H3).
      split; [|by intros e [= <-]]. split; [done|]. by eexists.
Qed.

End Run.

(** X10: whenever match_spectra returns, the algorithm of the response is
    the requested one, or "cosine" when "ms2query" was requested; it is
    the algorithm of every returned match, of every best match and of every
    processed result, and there is one entry and one processed result per
    query. *)
Theorem match_spectra_reports
    (pair : similarity_fn -> Spectrum -> Spectrum -> pair_outcome)
    (MS2QUERY_AVAILABLE : bool) (ms2library : Type)
    (load_ms2library : string -> option ms2library)
    (match_spectrum :
       ms2library -> Spectrum -> bool -> Z -> option (list ms2query_match))
    (alg : string) (query_spectra library_spectra : list Spectrum)
    (library_dir : string) (config : MatchingConfig)
    (xcms_peaks : list xcms_peak) (resp : matching_response) :
  match_spectra pair MS2QUERY_AVAILABLE ms2library load_ms2library
    match_spectrum alg query_spectra library_spectra library_dir config
    xcms_peaks = Ok resp ->
  (resp_algorithm resp = alg
   \/ (alg = "ms2query" /\ resp_algorithm resp = "cosine"))
  /\ length (resp_matches resp) = length query_spectra
  /\ length (resp_processed_results resp) = length query_spectra
  /\ Forall (fun r =>
               Workflow.reports (resp_algorithm resp) (matches r)
                 (best_match r)) (resp_matches resp)
  /\ Forall (fun cr =>
               cr_algorithm cr = resp_algorithm resp
               /\ Workflow.reports (resp_algorithm resp) (cr_matches cr)
                    (cr_best_match cr)) (resp_processed_results resp).
Proof.
  unfold match_spectra.
  destruct (run_matching _ _ _ _ _ _ _ _ _ _) as [[rs a]|e] eqn:Hrun; [|done].
  apply run_matching_reports in Hrun as (Ha & Hlen & Hrs). cbn [bind fst snd].
  destruct (Workflow.process_matching_results_total xcms_peaks a rs)
    as (prs & -> & Hprs).
  cbn [bind]. intros [= <-]. cbn.
  split; [done|]. split; [done|].
  split; [by rewrite <- (Forall2_length _ _ _ Hprs)|]. split; [done|].
  eapply Workflow.Forall2_transport; [|exact Hrs|exact Hprs].
  intros r cr Hr (Hcr & Hm & Hb). split; [done|]. by rewrite Hm, Hb.
Qed.

Lemma match_spectra_reports_witness :
  exists resp,
    match_spectra Ranking.always_one false unit Workflow.no_library
      Workflow.no_match "dot_product" [Ranking.query0]
      [Ranking.lib_spectrum "A"] "uploads" Workflow.default_config [F1]
    = Ok resp
    /\ length (resp_processed_results resp) = 1%nat.
Proof.
  eexists. split; [reflexivity|].
  apply (match_spectra_reports Ranking.always_one false unit
           Workflow.no_library Workflow.no_match "dot_product"
           [Ranking.query0] [Ranking.lib_spectrum "A"] "uploads"
           Workflow.default_config [F1] _ eq_refl).
Defined.

(** X11: match_spectra raises exactly when the requested algorithm is none
    of "ms2query", "dot_product", "cosine" and "modified_cosine", and the
    exception is then the ValueError of match_with_traditional; a request
    for "ms2query" never raises. *)
Theorem match_spectra_raises
    (pair : similarity_fn -> Spectrum -> Spectrum -> pair_outcome)
    (MS2QUERY_AVAILABLE : bool) (ms2library : Type)
    (load_ms2library : string -> option ms2library)
    (match_spectrum :
       ms2library -> Spectrum -> bool -> Z -> option (list ms2query_match))
    (alg : string) (query_spectra library_spectra : list Spectrum)
    (library_dir : string) (config : MatchingConfig)
    (xcms_peaks : list xcms_peak) :
  let r := match_spectra pair MS2QUERY_AVAILABLE ms2library load_ms2library
             match_spectrum alg query_spectra library_spectra library_dir
             config xcms_peaks in
  ((exists e, r = Raise e)
   <-> alg <> "ms2query" /\ alg <> "dot_product" /\ alg <> "cosine"
       /\ alg <> "modified_cosine")
  /\ forall e, r = Raise e -> e = ValueError.
Proof.
  intros r. subst r. unfold match_spectra.
  destruct (run_matching_raises pair MS2QUERY_AVAILABLE ms2library
              load_ms2library match_spectrum query_spectra library_spectra
              library_dir config alg) as [Hiff Honly].
  destruct (run_matching _ _ _ _ _ _ _ _ _ _) as [[rs a]|e]; cbn [bind fst snd].
  - destruct (Workflow.process_matching_results_total xcms_peaks a rs)
      as (prs & -> & _).
    cbn [bind]. split; [|done]. split; [by intros [e ?]|].
    intros H. apply Hiff in H as [e ?]. done.
  - split; [|intros e0 [= <-]; by apply Honly].
    split; [intros _; apply Hiff; by eexists|by eexists].
Qed.

Lemma match_spectra_raises_witness :
  match_spectra Ranking.always_one false unit Workflow.no_library
    Workflow.no_match "euclidean" [Ranking.query0] [Ranking.lib_spectrum "A"]
    "uploads" Workflow.default_config [F1] = Raise ValueError.
Proof.
  destruct (match_spectra_raises Ranking.always_one false unit
              Workflow.no_library Workflow.no_match "euclidean"
              [Ranking.query0] [Ranking.lib_spectrum "A"] "uploads"
              Workflow.default_config [F1]) as [Hiff Honly].
  destruct (proj2 Hiff) as [e He]; [repeat split; discriminate|].
  rewrite He. f_equal. exact (Honly e He).
Defined.

End WorkflowShape.

(** ** The correlator: when it returns, and the names it attaches *)

Module CorrelatorShape.

Lemma get_peak_info_spec (peaks : list xcms_peak) (peak_name : string) :
  match get_peak_info peaks peak_name with
  | Some f =>
      exists i, peaks !! i = Some f /\ pk_name f = peak_name
        /\ forall j g, peaks !! j = Some g -> (j < i)%nat ->
             pk_name g <> peak_name
  | None => forall p, p ∈ peaks -> pk_name p <> peak_name
  end.
Proof.
  induction peaks as [|peak peaks IH]; cbn [get_peak_info].
  - intros p Hp. by apply elem_of_nil in Hp.
  - destruct (String.eqb (pk_name peak) peak_name) eqn:Hn.
    + apply String.eqb_eq in Hn. exists 0%nat. split; [done|]. split; [done|].
      intros j g _ Hj. lia.
    + apply String.eqb_neq in Hn.
      destruct (get_peak_info peaks peak_name) as [f|].
      * destruct IH as (i & Hi & Hf & Hbefore). exists (S i).
        split; [done|]. split; [done|]. intros [|j] g Hg Hj.
        -- by injection Hg as <-.
        -- apply (Hbefore j g Hg). lia.
      * intros p [->|Hp]%elem_of_cons; [done|by apply IH].
Qed.

(** X12: get_peak_info returns the first peak of the table that carries
    the name, and None exactly when no peak carries it. *)
Theorem get_peak_info_first (peaks : list xcms_peak) (peak_name : string) :
  match get_peak_info peaks peak_name with
  | Some f =>
      exists i, peaks !! i = Some f /\ pk_name f = peak_name
        /\ forall j g, peaks !! j = Some g -> (j < i)%nat ->
             pk_name g <> peak_name
  | None => forall p, p ∈ peaks -> pk_name p <> peak_name
  end.
Proof.
  pose proof (get_peak_info_spec peaks peak_name) as Hspec.
  destruct (get_peak_info peaks peak_name) as [f|]; exact Hspec.
Qed.

Lemma get_peak_info_found peaks f :
  f ∈ peaks ->
  exists g, get_peak_info peaks (pk_name f) = Some g /\ pk_name g = pk_name f.
Proof.
  intros Hf. pose proof (get_peak_info_spec peaks (pk_name f)) as H.
  destruct (get_peak_info peaks (pk_name f)) as [g|].
  - destruct H as (i & _ & Hg & _). by exists g.
  - exfalso. by apply (H f Hf).
Qed.

Section Run.

Variable xcms_peaks : list xcms_peak.
Variables mz_tolerance rt_tolerance min_intensity : Q.

Let extract (run : list raw_spectrum) :=
  extract_loop xcms_peaks run mz_tolerance rt_tolerance min_intensity.

Lemma extract_loop_counts run :
  (length (extract run).1 <= length run)%nat
  /\ (forall out, (extract run).2 = Ok out ->
        (length out <= length (extract run).1)%nat)
  /\ (forall e, (extract run).2 = Raise e -> e = ZeroDivisionError).
Proof using Type.
  subst extract. cbv beta.
  induction run as [|s run (IH1 & IH2 & IH3)].
  { cbn. split; [lia|]. split; [by intros out [= <-]|done]. }
  rewrite Correlator.extract_loop_cons. unfold Correlator.step.
  set (rest := extract_loop xcms_peaks run mz_tolerance rt_tolerance
                 min_intensity) in *.
  assert ((length rest.1 <= length (s :: run))%nat
          /\ (forall out, rest.2 = Ok out -> (length out <= length rest.1)%nat)
          /\ (forall e, rest.2 = Raise e -> e = ZeroDivisionError)) as Hskip.
  { split; [cbn; lia|done]. }
  destruct (ms_level s =? 2)%Z; [|done].
  destruct (get_precursor_mz s) as [mz|]; [|done].
  destruct (get_precursor_rt s) as [rt|]; [|done].
  destruct (length (extract_peaks s min_intensity) =? 0)%nat; [done|].
  destruct (find_matching_xcms_peak xcms_peaks mz rt mz_tolerance rt_tolerance)
    as [[f|]|e] eqn:Hloc; cbn [fst snd length].
  - split; [lia|]. split.
    + intros out. destruct rest.2 as [out'|e]; [|done]. cbn [bind].
      intros [= <-]. cbn [length]. specialize (IH2 out' eq_refl). lia.
    + intros e. destruct rest.2 as [out'|e']; [done|]. cbn [bind].
      intros [= <-]. by apply IH3.
  - split; [lia|]. split; [|done]. intros out Hout.
    specialize (IH2 out Hout). lia.
  - split; [lia|]. split; [done|]. intros e' [= <-].
    by eapply LocatorErrors.locator_scan_raises_only.
Qed.

Lemma extract_loop_returns run :
  ~ (mz_tolerance == 0)%Q -> ~ (rt_tolerance == 0)%Q ->
  exists out, (extract run).2 = Ok out.
Proof using Type.
  intros Hmz Hrt. subst extract. cbv beta.
  induction run as [|s run [out Hout]]; [by eexists|].
  rewrite Correlator.extract_loop_cons. unfold Correlator.step.
  destruct (ms_level s =? 2)%Z; [|by eexists].
  destruct (get_precursor_mz s) as [mz|]; [|by eexists].
  destruct (get_precursor_rt s) as [rt|]; [|by eexists].
  destruct (length (extract_peaks s min_intensity) =? 0)%nat; [by eexists|].
  destruct (find_matching_xcms_peak xcms_peaks mz rt mz_tolerance rt_tolerance)
    as [[f|]|e] eqn:Hloc; cbn [snd].
  - rewrite Hout. by eexists.
  - by eexists.
  - exfalso.
    assert (exists e, locator_scan xcms_peaks mz rt mz_tolerance rt_tolerance
                        None None = Raise e) as Hraise by by eexists.
    apply LocatorErrors.locator_scan_raises in Hraise as [[?|?] _];
      contradiction.
Qed.

End Run.

(** X13: with both tolerances different from zero extract_ms2_spectra
    returns; in every case the locator is invoked at most once per spectrum
    of the run, at most one spectrum is emitted per invocation, and the
    only exception is the ZeroDivisionError of the locator. *)
Theorem extract_ms2_spectra_returns
    (xcms_peaks : list xcms_peak) (run : list raw_spectrum)
    (mz_tolerance rt_tolerance min_intensity : Q) :
  let r := extract_ms2_spectra xcms_peaks run mz_tolerance rt_tolerance
             min_intensity in
  (~ (mz_tolerance == 0)%Q -> ~ (rt_tolerance == 0)%Q ->
   exists out, r.2 = Ok out)
  /\ (length r.1 <= length run)%nat
  /\ (forall out, r.2 = Ok out -> (length out <= length r.1)%nat)
  /\ (forall e, r.2 = Raise e -> e = ZeroDivisionError).
Proof.
  intros r. subst r. unfold extract_ms2_spectra.
  split; [apply extract_loop_returns|]. apply extract_loop_counts.
Qed.

Lemma extract_ms2_spectra_returns_witness :
  exists out,
    (extract_ms2_spectra [F1] [Correlator.scan_A; Correlator.scan_B] 0.01 30
       100).2 = Ok out.
Proof.
  apply (proj1 (extract_ms2_spectra_returns [F1]
                  [Correlator.scan_A; Correlator.scan_B] 0.01 30 100));
    intros H; vm_compute in H; discriminate H.
Defined.

(** X14: every feature name attached by extract_ms2_spectra resolves in
    the feature table: get_peak_info finds a peak of that name. *)
Theorem extract_ms2_spectra_names_resolve
    (xcms_peaks : list xcms_peak) (run : list raw_spectrum)
    (mz_tolerance rt_tolerance min_intensity : Q)
    (out : list spectrum_dict) (d : spectrum_dict) :
  (extract_ms2_spectra xcms_peaks run mz_tolerance rt_tolerance
     min_intensity).2 = Ok out ->
  d ∈ out ->
  sd_matched_xcms_peak d = sd_feature_name d
  /\ exists g, get_peak_info xcms_peaks (sd_feature_name d) = Some g
       /\ pk_name g = sd_feature_name d.
Proof.
  intros Hout Hd.
  apply Correlator.extract_loop_annotated in Hout.
  eapply Forall_forall in Hout; [|exact Hd].
  destruct Hout as (_ & _ & _ & _ & f & Hf & _ & Hname & Hmatched).
  split; [congruence|]. rewrite Hname. by apply get_peak_info_found.
Qed.

Definition spectrum_A : spectrum_dict :=
  SpectrumDict "F1" 150.005 ((121 # 60) * 60) [50.1; 60.2]%Q [500; 300]%Q 2
    "F1".

Lemma extract_ms2_spectra_names_resolve_witness :
  sd_matched_xcms_peak spectrum_A = sd_feature_name spectrum_A
  /\ exists g, get_peak_info [F1] (sd_feature_name spectrum_A) = Some g
       /\ pk_name g = sd_feature_name spectrum_A.
Proof.
  apply (extract_ms2_spectra_names_resolve [F1] [Correlator.scan_A] 0.01 30
           100 [spectrum_A] spectrum_A).
  - reflexivity.
  - apply list_elem_of_here.
Defined.

End CorrelatorShape.

(** ** How the workflow names its results *)

Module ResultNames.

Lemma process_matching_results_lookup xcms_peaks alg rs : forall prs i cr,
  process_matching_results xcms_peaks rs alg = Ok prs ->
  prs !! i = Some cr ->
  exists r, rs !! i = Some r /\ process_one xcms_peaks alg r = Ok cr.
Proof.
  induction rs as [|r rs IH]; intros prs i cr; cbn [process_matching_results].
  - by intros [= <-].
  - destruct (process_one xcms_peaks alg r) as [cr0|e] eqn:Hone; [|done].
    cbn [bind].
    destruct (process_matching_results xcms_peaks rs alg) as [prs'|e]; [|done].
    cbn [bind]. intros [= <-]. destruct i as [|i]; cbn.
    + intros [= <-]. by exists r.
    + intros Hcr. by apply (IH prs').
Qed.

(** X15: the entries of match_with_traditional keep only the precursor m/z
    and the retention time of a query, so process_matching_results names
    the result of query i "Feature_i" whatever the query was tagged with,
    and attaches the peak found for that name or else by the secondary
    lookup on the precursor m/z and retention time of the query. *)
Theorem traditional_results_named_by_position
    (pair : similarity_fn -> Spectrum -> Spectrum -> pair_outcome)
    (query_spectra library_spectra : list Spectrum) (alg alg' : string)
    (mz_tolerance min_score : Q) (top_n : Z) (xcms_peaks : list xcms_peak)
    (rs : list match_result) (prs : list combined_result) :
  (match_with_traditional pair query_spectra library_spectra alg
     mz_tolerance min_score top_n).2 = Ok rs ->
  process_matching_results xcms_peaks rs alg' = Ok prs ->
  forall i query cr,
    query_spectra !! i = Some query -> prs !! i = Some cr ->
    cr_feature_name cr = "Feature_" +:+ pretty (Z.of_nat i)
    /\ cr_precursor_mz cr = sp_precursor_mz query
    /\ cr_retention_time cr = sp_retention_time query
    /\ cr_xcms_peak cr
       = resolve_peak xcms_peaks ("Feature_" +:+ pretty (Z.of_nat i))
           (sp_precursor_mz query) (sp_retention_time query).
Proof.
  unfold match_with_traditional.
  destruct (select_similarity alg mz_tolerance) as [fn|e]; [|done].
  cbn [snd]. intros [= <-] Hprs i query cr Hq Hcr.
  destruct (process_matching_results_lookup _ _ _ _ _ _ Hprs Hcr)
    as (r & Hr & Hone).
  apply Ranking.match_queries_lookup in Hr as (q' & Hq' & ->).
  assert (q' = query) as -> by congruence. cbn [Nat.add] in Hone.
  revert Hone. unfold process_one, match_query.
  cbn [snd query_index query_spectrum matches best_match default
       qi_feature_name qi_precursor_mz qi_retention_time].
  destruct (calculate_confidence_score _ _) as [c|e]; [|done].
  cbn [bind]. by intros [= <-].
Qed.

Lemma traditional_results_named_by_position_witness :
  exists prs cr,
    process_matching_results [F1] [Aggregation.entry_A] "cosine" = Ok prs
    /\ prs !! 0%nat = Some cr
    /\ cr_feature_name cr = "Feature_0".
Proof.
  destruct (Workflow.process_matching_results_total [F1] "cosine"
              [Aggregation.entry_A]) as (prs & Hprs & Hall).
  apply Forall2_cons_inv_l in Hall as (cr & prs' & _ & _ & ->).
  exists (cr :: prs'), cr. split; [exact Hprs|]. split; [reflexivity|].
  apply (traditional_results_named_by_position Ranking.always_one
           [Ranking.query0] [Ranking.lib_spectrum "A"] "cosine" "cosine"
           0.01 0 10 [F1] [Aggregation.entry_A] (cr :: prs') eq_refl Hprs
           0%nat Ranking.query0 cr eq_refl eq_refl).
Defined.

End ResultNames.

(** * Further functions of the code *)

(** ** filter_peaks (data_loader.py) *)

(** The four optional bounds are applied one after the other. *)
Definition filter_peaks (peaks : list xcms_peak)
    (mz_min mz_max rt_min rt_max : option Q) : list xcms_peak :=
  let filtered := peaks in
  let filtered :=
    match mz_min with
    | Some b => filter (fun p => Qle_bool b (pk_mz p) = true) filtered
    | None => filtered
    end in
  let filtered :=
    match mz_max with
    | Some b => filter (fun p => Qle_bool (pk_mz p) b = true) filtered
    | None => filtered
    end in
  let filtered :=
    match rt_min with
    | Some b => filter (fun p => Qle_bool b (pk_rt p) = true) filtered
    | None => filtered
    end in
  let filtered :=
    match rt_max with
    | Some b => filter (fun p => Qle_bool (pk_rt p) b = true) filtered
    | None => filtered
    end in
  filtered.

Module FilterPeaks.

(** A peak satisfies every bound that is supplied. *)
Definition in_range (mz_min mz_max rt_min rt_max : option Q) (p : xcms_peak)
    : Prop :=
  (forall b, mz_min = Some b -> (b <= pk_mz p)%Q)
  /\ (forall b, mz_max = Some b -> (pk_mz p <= b)%Q)
  /\ (forall b, rt_min = Some b -> (b <= pk_rt p)%Q)
  /\ (forall b, rt_max = Some b -> (pk_rt p <= b)%Q).

Lemma filter_peaks_elem peaks mz_min mz_max rt_min rt_max p :
  p ∈ filter_peaks peaks mz_min mz_max rt_min rt_max
  <-> p ∈ peaks /\ in_range mz_min mz_max rt_min rt_max p.
Proof.
  unfold filter_peaks, in_range.
  destruct mz_min as [a|], mz_max as [b|], rt_min as [c|], rt_max as [d|];
    rewrite ?list_elem_of_filter, ?Qle_bool_iff;
    (split;
     [intros H; repeat split; try tauto; try (intros ? [= <-]; tauto); done
     |intros (Hp & H1 & H2 & H3 & H4);
      repeat split; try done; eauto]).
Qed.

Lemma filter_peaks_sublist peaks mz_min mz_max rt_min rt_max :
  filter_peaks peaks mz_min mz_max rt_min rt_max `sublist_of` peaks.
Proof.
  unfold filter_peaks.
  destruct mz_min, mz_max, rt_min, rt_max;
    repeat (etrans; [apply sublist_filter|]); done.
Qed.

(** Filtering again by a predicate that every element satisfies changes
    nothing. *)
Lemma filter_all {A} (P : A -> Prop) `{!forall x, Decision (P x)} (l : list A) :
  Forall P l -> filter P l = l.
Proof.
  induction 1 as [|x l Hx _ IH]; [done|].
  by rewrite filter_cons_True, IH.
Qed.

Lemma Forall_filter_keep {A} (P Q : A -> Prop) `{!forall x, Decision (Q x)}
    (l : list A) :
  Forall P l -> Forall P (filter Q l).
Proof.
  rewrite !Forall_forall. intros Hall x Hx.
  apply list_elem_of_filter in Hx as [_ Hx]. by apply Hall.
Qed.

(** X16: filter_peaks keeps exactly the peaks that satisfy every supplied
    bound, in their order in the table; without bounds it returns the
    table, and filtering its result again with the same bounds changes
    nothing. *)
Theorem filter_peaks_exact (peaks : list xcms_peak)
    (mz_min mz_max rt_min rt_max : option Q) :
  let kept := filter_peaks peaks mz_min mz_max rt_min rt_max in
  (forall p, p ∈ kept
     <-> p ∈ peaks /\ in_range mz_min mz_max rt_min rt_max p)
  /\ kept `sublist_of` peaks
  /\ filter_peaks peaks None None None None = peaks
  /\ filter_peaks kept mz_min mz_max rt_min rt_max = kept.
Proof.
  intros kept. split; [intros p; apply filter_peaks_elem|].
  split; [apply filter_peaks_sublist|]. split; [done|].
  assert (Forall (in_range mz_min mz_max rt_min rt_max) kept) as Hall.
  { apply Forall_forall. intros p Hp. by apply filter_peaks_elem in Hp as [_ ?]. }
  clearbody kept. unfold filter_peaks.
  destruct mz_min as [a|], mz_max as [b|], rt_min as [c|], rt_max as [d|];
    rewrite ?filter_all; try done;
    repeat apply Forall_filter_keep;
    (eapply Forall_impl; [exact Hall|]);
    intros p (H1 & H2 & H3 & H4); apply Qle_bool_iff; eauto.
Qed.

End FilterPeaks.

(** ** generate_summary_statistics (results_processor.py) *)

Record summary : Type := Summary {
  total_features : nat;
  matched_features : nat;
  match_rate : Q;
  high_confidence_matches : nat;
  average_confidence_score : Q;
  algorithms_used : gmap string nat
}.

(** The loop that fills the [algorithms] dictionary. *)
Definition count_algorithms (processed_results : list combined_result)
    : gmap string nat :=
  foldl (fun algorithms result =>
           let algo := cr_algorithm result in
           <[algo := (default 0 (algorithms !! algo) + 1)%nat]> algorithms)
    ∅ processed_results.

(** The results that have a best match, the results of confidence at least
    0.7, and the confidences that are truthy (not zero). *)
Definition generate_summary_statistics
    (processed_results : list combined_result) : result summary :=
  let total_features := length processed_results in
  let matched_features :=
    length (filter (fun r => is_Some (cr_best_match r)) processed_results) in
  let high_confidence :=
    length (filter (fun r => Qle_bool 0.7 (cr_confidence_score r) = true)
              processed_results) in
  let scores :=
    cr_confidence_score
      <$> filter (fun r => Qeq_bool (cr_confidence_score r) 0 = false)
            processed_results in
  avg_score <-!
    (if (0 <? length scores)%nat
     then py_div (py_sum scores) (inject_Z (Z.of_nat (length scores)))
     else Ok 0.0%Q) ;;
  let algorithms := count_algorithms processed_results in
  rate <-!
    (if (0 <? total_features)%nat
     then py_div (inject_Z (Z.of_nat matched_features))
            (inject_Z (Z.of_nat total_features))
     else Ok 0.0%Q) ;;
  Ok {| total_features := total_features;
        matched_features := matched_features;
        match_rate := rate;
        high_confidence_matches := high_confidence;
        average_confidence_score := avg_score;
        algorithms_used := algorithms |}.

Module SummaryStatistics.

Lemma count_algorithms_lookup prs : forall (acc : gmap string nat) a,
  default 0%nat
    (foldl (fun algorithms result =>
              let algo := cr_algorithm result in
              <[algo := (default 0 (algorithms !! algo) + 1)%nat]> algorithms)
       acc prs !! a)
  = (default 0%nat (acc !! a)
     + length (filter (fun r => cr_algorithm r = a) prs))%nat.
Proof.
  induction prs as [|r prs IH]; intros acc a; cbn [foldl].
  - rewrite filter_nil. cbn. lia.
  - rewrite IH. cbv zeta. destruct (decide (cr_algorithm r = a)) as [<-|Hne].
    + rewrite lookup_insert_eq, filter_cons_True by done.
      cbn [from_option length]. unfold id. lia.
    + rewrite lookup_insert_ne, filter_cons_False by done. lia.
Qed.

Lemma count_algorithms_positive prs : forall (acc : gmap string nat) a n,
  (forall b m, acc !! b = Some m -> (0 < m)%nat) ->
  foldl (fun algorithms result =>
           let algo := cr_algorithm result in
           <[algo := (default 0 (algorithms !! algo) + 1)%nat]> algorithms)
    acc prs !! a = Some n ->
  (0 < n)%nat.
Proof.
  induction prs as [|r prs IH]; intros acc a n Hacc; cbn [foldl].
  - apply Hacc.
  - apply IH. intros b m. cbv zeta.
    destruct (decide (cr_algorithm r = b)) as [<-|Hne].
    + rewrite lookup_insert_eq. intros [= <-]. lia.
    + rewrite lookup_insert_ne by done. apply Hacc.
Qed.

Lemma count_algorithms_at (prs : list combined_result) (a : string) :
  let n := length (filter (fun r => cr_algorithm r = a) prs) in
  count_algorithms prs !! a = (if decide (n = 0%nat) then None else Some n).
Proof.
  intros n. pose proof (count_algorithms_lookup prs ∅ a) as Hn.
  rewrite lookup_empty in Hn. cbn [from_option] in Hn. fold n in Hn.
  unfold count_algorithms.
  destruct (foldl _ ∅ prs !! a) as [m|] eqn:Hm; cbn [from_option] in Hn;
    unfold id in Hn.
  - apply count_algorithms_positive in Hm; [|by intros b k ?].
    destruct (decide (n = 0%nat)); [lia|]. f_equal. lia.
  - by destruct (decide (n = 0%nat)); [|lia].
Qed.

(** The confidences that enter the average. *)
Definition scores_of (prs : list combined_result) : list Q :=
  cr_confidence_score
    <$> filter (fun r => Qeq_bool (cr_confidence_score r) 0 = false) prs.

(** The value returned: none of the two divisions can raise. *)
Lemma generate_summary_statistics_value (prs : list combined_result) :
  generate_summary_statistics prs
  = Ok {| total_features := length prs;
          matched_features :=
            length (filter (fun r => is_Some (cr_best_match r)) prs);
          match_rate :=
            if (0 <? length prs)%nat
            then (inject_Z (Z.of_nat
                    (length (filter (fun r => is_Some (cr_best_match r)) prs)))
                  / inject_Z (Z.of_nat (length prs)))%Q
            else 0.0%Q;
          high_confidence_matches :=
            length (filter (fun r => Qle_bool 0.7 (cr_confidence_score r) = true)
                      prs);
          average_confidence_score :=
            if (0 <? length (scores_of prs))%nat
            then (py_sum (scores_of prs)
                  / inject_Z (Z.of_nat (length (scores_of prs))))%Q
            else 0.0%Q;
          algorithms_used := count_algorithms prs |}.
Proof.
  unfold generate_summary_statistics. fold (scores_of prs).
  destruct (0 <? length (scores_of prs))%nat eqn:Hs.
  - apply Nat.ltb_lt in Hs. rewrite py_div_nonzero.
    2:{ apply Confidence.inject_Z_nonzero. lia. }
    cbn [bind]. destruct (0 <? length prs)%nat eqn:Ht; [|done].
    apply Nat.ltb_lt in Ht. rewrite py_div_nonzero; [done|].
    apply Confidence.inject_Z_nonzero. lia.
  - cbn [bind]. destruct (0 <? length prs)%nat eqn:Ht; [|done].
    apply Nat.ltb_lt in Ht. rewrite py_div_nonzero; [done|].
    apply Confidence.inject_Z_nonzero. lia.
Qed.

(** X17: the algorithms_used dictionary of generate_summary_statistics maps
    each algorithm name to the number of results that carry it, and has no
    entry for a name that no result carries. *)
Theorem algorithms_used_counts (prs : list combined_result) (a : string) :
  let n := length (filter (fun r => cr_algorithm r = a) prs) in
  exists s, generate_summary_statistics prs = Ok s
    /\ algorithms_used s !! a = (if decide (n = 0%nat) then None else Some n).
Proof.
  intros n. rewrite generate_summary_statistics_value. eexists.
  split; [done|]. apply count_algorithms_at.
Qed.


Lemma py_sum_lower (l : list Q) : forall a,
  Forall (fun x => (0 <= x)%Q) l -> (a <= foldl Qplus a l)%Q.
Proof.
  induction l as [|x l IH]; intros a Hl; cbn [foldl]; [apply Qle_refl|].
  apply Forall_cons in Hl as [Hx Hl].
  eapply Qle_trans; [|by apply IH]. lra.
Qed.

Lemma average_range (l : list Q) :
  Forall (fun x => (0 <= x <= 1)%Q) l -> (0 < length l)%nat ->
  (0 <= py_sum l / inject_Z (Z.of_nat (length l)) <= 1)%Q.
Proof.
  intros Hl Hlen.
  assert (0 < inject_Z (Z.of_nat (length l)))%Q as Hpos.
  { change 0%Q with (inject_Z 0). rewrite <- Zlt_Qlt. lia. }
  split.
  - apply Qle_shift_div_l; [done|]. rewrite Qmult_0_l. apply py_sum_lower.
    eapply Forall_impl; [exact Hl|]. by intros x [? _].
  - apply Qle_shift_div_r; [done|]. rewrite Qmult_1_l.
    pose proof (Confidence.py_sum_bound 1 l 0) as Hb.
    unfold py_sum. eapply Qle_trans; [apply Hb|]; [|lra].
    eapply Forall_impl; [exact Hl|]. by intros x [_ ?].
Qed.


Lemma process_matching_results_fields xcms_peaks alg rs : forall prs,
  process_matching_results xcms_peaks rs alg = Ok prs ->
  length prs = length rs
  /\ Forall (fun cr =>
               cr_algorithm cr = alg
               /\ calculate_confidence_score (cr_matches cr) (cr_best_match cr)
                  = Ok (cr_confidence_score cr)) prs.
Proof.
  induction rs as [|r rs IH]; intros prs; cbn [process_matching_results].
  - intros [= <-]. split; [done|constructor].
  - unfold process_one.
    destruct (calculate_confidence_score (matches r) (best_match r))
      as [c|e] eqn:Hc; [|done].
    cbn [bind].
    destruct (process_matching_results xcms_peaks rs alg) as [prs'|e]; [|done].
    cbn [bind]. intros [= <-]. destruct (IH prs' eq_refl) as [Hlen Hall].
    split; [cbn; by rewrite Hlen|]. constructor; [|done]. by cbn.
Qed.

Lemma filter_length_le {A} (P Q : A -> Prop) `{!forall x, Decision (P x)}
    `{!forall x, Decision (Q x)} (l : list A) :
  Forall (fun x => P x -> Q x) l ->
  (length (filter P l) <= length (filter Q l))%nat.
Proof.
  induction 1 as [|x l Hx _ IH]; [done|].
  destruct (decide (P x)) as [HP|HP].
  - rewrite (filter_cons_True P), (filter_cons_True Q) by auto. cbn. lia.
  - rewrite (filter_cons_False P) by done.
    destruct (decide (Q x)).
    + rewrite (filter_cons_True Q) by done. cbn. lia.
    + by rewrite (filter_cons_False Q).
Qed.

Lemma filter_all_length {A} (P : A -> Prop) `{!forall x, Decision (P x)}
    (l : list A) :
  Forall P l -> length (filter P l) = length l.
Proof. intros Hall. by rewrite FilterPeaks.filter_all. Qed.

(** X19: on the output of process_matching_results the summary is
    consistent: a result of confidence >= 0.7 has a best match, so
    high_confidence_matches <= matched_features <= total_features; the
    average confidence is in [0,1]; and algorithms_used is the single
    entry {algorithm: number of results}, or empty when there is no
    result. *)
Theorem summary_of_processed_results
    (xcms_peaks : list xcms_peak) (rs : list match_result) (alg : string)
    (prs : list combined_result) :
  process_matching_results xcms_peaks rs alg = Ok prs ->
  exists s,
    generate_summary_statistics prs = Ok s
    /\ total_features s = length rs
    /\ (high_confidence_matches s <= matched_features s)%nat
    /\ (matched_features s <= total_features s)%nat
    /\ (0 <= average_confidence_score s <= 1)%Q
    /\ algorithms_used s
       = (if decide (length rs = 0%nat) then ∅ else {[ alg := length rs ]}).
Proof.
  intros Hprs. apply process_matching_results_fields in Hprs as [Hlen Hall].
  rewrite generate_summary_statistics_value. eexists. split; [done|].
  cbn [total_features matched_features match_rate high_confidence_matches
       average_confidence_score algorithms_used].
  assert (Forall (fun cr => (0 <= cr_confidence_score cr <= 1)%Q
                            /\ (cr_best_match cr = None ->
                                cr_confidence_score cr = 0.0%Q)) prs) as Hconf.
  { eapply Forall_impl; [exact Hall|]. intros cr [_ Hc]. split.
    - destruct (Confidence.calculate_confidence_score_total (cr_matches cr)
                  (cr_best_match cr)) as (c & Hc' & Hr).
      rewrite Hc in Hc'. by injection Hc' as ->.
    - intros Hnone. rewrite Hnone in Hc. cbn in Hc. by injection Hc as <-. }
  split; [done|]. split; [|split; [|split]].
  - apply filter_length_le. eapply Forall_impl; [exact Hconf|].
    intros cr [_ Hnone] Hhigh.
    destruct (cr_best_match cr) as [b|]; [by eexists|].
    rewrite (Hnone eq_refl) in Hhigh. done.
  - apply length_filter.
  - destruct (0 <? length (scores_of prs))%nat eqn:Hs; [|split; done].
    apply Nat.ltb_lt in Hs. apply average_range; [|done].
    unfold scores_of. apply Forall_fmap, FilterPeaks.Forall_filter_keep.
    eapply Forall_impl; [exact Hconf|]. by intros cr [? _].
  - apply map_eq. intros a. rewrite count_algorithms_at.
    destruct (decide (a = alg)) as [->|Hne].
    + rewrite filter_all_length, Hlen.
      2:{ eapply Forall_impl; [exact Hall|]. by intros cr [? _]. }
      destruct (decide (length rs = 0%nat)); [done|].
      by rewrite lookup_singleton_eq.
    + assert (filter (fun r => cr_algorithm r = a) prs = []) as ->.
      { clear -Hall Hne. induction Hall as [|cr prs [Hcr _] _ IH]; [done|].
        rewrite filter_cons_False by congruence. exact IH. }
      cbn. destruct (decide (length rs = 0%nat)); [done|].
      by rewrite lookup_singleton_ne.
Qed.

Lemma summary_of_processed_results_witness :
  exists prs s,
    process_matching_results [F1] [Aggregation.entry_A] "cosine" = Ok prs
    /\ generate_summary_statistics prs = Ok s
    /\ algorithms_used s = {[ "cosine" := 1%nat ]}.
Proof.
  destruct (Workflow.process_matching_results_total [F1] "cosine"
              [Aggregation.entry_A]) as (prs & Hprs & _).
  destruct (summary_of_processed_results [F1] [Aggregation.entry_A] "cosine"
              prs Hprs) as (s & Hs & _ & _ & _ & _ & Halg).
  exists prs, s. split; [exact Hprs|]. split; [exact Hs|exact Halg].
Defined.

End SummaryStatistics.

(** ** format_results_for_export (results_processor.py) *)

(** The exceptions of the export: [result.get("xcms_peak", {})] and
    [result.get("best_match", {})] return the stored [None] when the result
    has no peak or no best match, and the [.get] that follows raises
    AttributeError; an unknown format raises ValueError. *)
Inductive export_error : Type :=
  | AttributeError
  | UnsupportedFormat.

Record csv_row : Type := CsvRow {
  row_feature_name : string;
  row_precursor_mz : option Q;
  row_retention_time : option Q;
  row_xcms_mz : Q;
  row_xcms_rt : Q;
  row_compound_name : string;
  row_match_score : Q;
  row_algorithm : string;
  row_confidence_score : Q;
  row_matched_peaks : Z;
  row_smiles : option string;
  row_inchi : option string;
  row_inchikey : option string
}.

Inductive exported : Type :=
  | ExportJson (processed_results : list combined_result)
  | ExportCsv (csv_rows : list csv_row).

(** The body of the loop of the csv branch. *)
Definition csv_row_of (result : combined_result) : export_error + csv_row :=
  match cr_best_match result with
  | None => inl AttributeError
  | Some best_match =>
      let metadata := metadata best_match in
      match cr_xcms_peak result with
      | None => inl AttributeError
      | Some xcms_peak =>
          inr {| row_feature_name := cr_feature_name result;
                 row_precursor_mz := cr_precursor_mz result;
                 row_retention_time := cr_retention_time result;
                 row_xcms_mz := pk_mz xcms_peak;
                 row_xcms_rt := pk_rt xcms_peak;
                 row_compound_name := compound_name best_match;
                 row_match_score := score best_match;
                 row_algorithm := cr_algorithm result;
                 row_confidence_score := cr_confidence_score result;
                 row_matched_peaks := matched_peaks best_match;
                 row_smiles := md_smiles metadata;
                 row_inchi := md_inchi metadata;
                 row_inchikey := md_inchikey metadata |}
      end
  end.

Fixpoint csv_rows_of (processed_results : list combined_result)
    : export_error + list csv_row :=
  match processed_results with
  | [] => inr []
  | result :: rest =>
      match csv_row_of result with
      | inl e => inl e
      | inr row =>
          match csv_rows_of rest with
          | inl e => inl e
          | inr csv_rows => inr (row :: csv_rows)
          end
      end
  end.

Definition format_results_for_export (processed_results : list combined_result)
    (format : string) : export_error + exported :=
  if String.eqb format "json" then inr (ExportJson processed_results)
  else if String.eqb format "csv" then
    match csv_rows_of processed_results with
    | inl e => inl e
    | inr csv_rows => inr (ExportCsv csv_rows)
    end
  else inl UnsupportedFormat.

Module ExportResults.

(** A result that the csv branch can flatten. *)
Definition exportable (result : combined_result) : Prop :=
  is_Some (cr_best_match result) /\ is_Some (cr_xcms_peak result).

Lemma csv_row_of_exportable result :
  exportable result ->
  exists row, csv_row_of result = inr row
    /\ row_feature_name row = cr_feature_name result
    /\ row_algorithm row = cr_algorithm result
    /\ row_confidence_score row = cr_confidence_score result
    /\ (score <$> cr_best_match result) = Some (row_match_score row)
    /\ (pk_mz <$> cr_xcms_peak result) = Some (row_xcms_mz row)
    /\ (pk_rt <$> cr_xcms_peak result) = Some (row_xcms_rt row).
Proof.
  intros [[b Hb] [p Hp]]. unfold csv_row_of. rewrite Hb, Hp.
  eexists. split; [done|]. by cbn.
Qed.

Lemma csv_row_of_not_exportable result :
  ~ exportable result -> csv_row_of result = inl AttributeError.
Proof.
  intros Hn. unfold csv_row_of.
  destruct (cr_best_match result) as [b|] eqn:Hb; [|done].
  destruct (cr_xcms_peak result) as [p|] eqn:Hp; [|done].
  destruct Hn. unfold exportable. rewrite Hb, Hp. split; by eexists.
Qed.

Lemma exportable_dec result : Decision (exportable result).
Proof. unfold exportable. apply _. Defined.

Lemma csv_rows_of_spec prs :
  match csv_rows_of prs with
  | inr rows =>
      Forall exportable prs
      /\ Forall2 (fun result row => csv_row_of result = inr row) prs rows
  | inl e => e = AttributeError /\ Exists (fun r => ~ exportable r) prs
  end.
Proof.
  induction prs as [|r prs IH]; cbn [csv_rows_of].
  - split; constructor.
  - destruct (exportable_dec r) as [Hr|Hr].
    + destruct (csv_row_of_exportable r Hr) as (row & Hrow & _).
      rewrite Hrow. destruct (csv_rows_of prs) as [e|rows].
      * destruct IH as [-> IH]. split; [done|]. by apply Exists_cons_tl.
      * destruct IH as [IH1 IH2]. split; by constructor.
    + rewrite (csv_row_of_not_exportable r Hr). split; [done|].
      by apply Exists_cons_hd.
Qed.

(** X20: format_results_for_export returns the results unchanged for
    "json" and raises ValueError for a format other than "json" and "csv";
    for "csv" it returns one row per result, in order, when every result
    has both an XCMS peak and a best match, and raises AttributeError as
    soon as one result lacks either. *)
Theorem format_results_for_export_outcomes
    (prs : list combined_result) (format : string) :
  (format = "json" ->
   format_results_for_export prs format = inr (ExportJson prs))
  /\ (format <> "json" -> format <> "csv" ->
      format_results_for_export prs format = inl UnsupportedFormat)
  /\ (format = "csv" ->
      (Forall exportable prs ->
       exists rows,
         format_results_for_export prs format = inr (ExportCsv rows)
         /\ Forall2 (fun result row => csv_row_of result = inr row) prs rows)
      /\ (Exists (fun r => ~ exportable r) prs ->
          format_results_for_export prs format = inl AttributeError)).
Proof.
  unfold format_results_for_export. split; [by intros ->|]. split.
  - intros H1 H2. apply String.eqb_neq in H1, H2. by rewrite H1, H2.
  - intros ->. cbn [String.eqb Ascii.eqb Bool.eqb].
    pose proof (csv_rows_of_spec prs) as Hspec.
    destruct (csv_rows_of prs) as [e|rows].
    + destruct Hspec as [-> Hex]. split; [|done].
      intros Hall. exfalso. apply Exists_exists in Hex as (r & Hr & Hn).
      by eapply Hn, Forall_forall.
    + destruct Hspec as [Hall Hrows]. split; [by exists rows|].
      intros Hex. exfalso. apply Exists_exists in Hex as (r & Hr & Hn).
      by eapply Hn, Forall_forall.
Qed.

(** A processed result for a query without any candidate. *)
Definition unmatched_result : combined_result :=
  CombinedResult "Feature_0" (Some F1) (Some 150.005%Q) (Some 121.0%Q)
    "cosine" [] None 0 0.0.

Lemma format_results_for_export_outcomes_witness :
  format_results_for_export [unmatched_result] "json"
  = inr (ExportJson [unmatched_result])
  /\ format_results_for_export [unmatched_result] "xlsx"
     = inl UnsupportedFormat
  /\ format_results_for_export [unmatched_result] "csv" = inl AttributeError.
Proof.
  split; [|split].
  - apply (proj1 (format_results_for_export_outcomes [unmatched_result]
                    "json")). reflexivity.
  - apply (proj1 (proj2 (format_results_for_export_outcomes
                           [unmatched_result] "xlsx"))); discriminate.
  - apply (proj2 (proj2 (format_results_for_export_outcomes
                           [unmatched_result] "csv")) eq_refl).
    apply Exists_cons_hd. intros [[b Hb] _]. discriminate Hb.
Defined.

(** X21: the csv export of the output of process_matching_results raises
    AttributeError as soon as one query has no best match, whatever the
    other results are. *)
Theorem csv_export_needs_all_matched
    (xcms_peaks : list xcms_peak) (rs : list match_result) (alg : string)
    (prs : list combined_result) (r : match_result) :
  process_matching_results xcms_peaks rs alg = Ok prs ->
  r ∈ rs -> best_match r = None ->
  format_results_for_export prs "csv" = inl AttributeError.
Proof.
  intros Hprs Hr Hnone.
  destruct (Workflow.process_matching_results_total xcms_peaks alg rs)
    as (prs' & Hprs' & Hall).
  assert (prs' = prs) as -> by congruence.
  unfold format_results_for_export. cbn [String.eqb Ascii.eqb Bool.eqb].
  pose proof (csv_rows_of_spec prs) as Hspec.
  destruct (csv_rows_of prs) as [e|rows]; [by destruct Hspec as [-> _]|].
  exfalso. destruct Hspec as [Hexp _].
  apply list_elem_of_lookup in Hr as [i Hi].
  destruct (Forall2_lookup_l _ _ _ _ _ Hall Hi) as (cr & Hcr & _ & _ & Hb).
  apply list_elem_of_lookup_2 in Hcr.
  eapply Forall_forall in Hexp as [[b Hb'] _]; [|exact Hcr]. congruence.
Qed.

Definition unmatched_entry : match_result :=
  MatchResult 0 (Some (QueryInfo (Some 150.005%Q) (Some 121.0%Q) None)) []
    None.

Lemma csv_export_needs_all_matched_witness :
  exists prs,
    process_matching_results [F1] [Aggregation.entry_A; unmatched_entry]
      "cosine" = Ok prs
    /\ format_results_for_export prs "csv" = inl AttributeError.
Proof.
  destruct (Workflow.process_matching_results_total [F1] "cosine"
              [Aggregation.entry_A; unmatched_entry]) as (prs & Hprs & _).
  exists prs. split; [exact Hprs|].
  apply (csv_export_needs_all_matched [F1]
           [Aggregation.entry_A; unmatched_entry] "cosine" prs
           unmatched_entry Hprs).
  - apply list_elem_of_further, list_elem_of_here.
  - reflexivity.
Defined.

End ExportResults.

(** ** validate_xcms_params (xcms_processor.py) *)

(** The values of a parameter dictionary; a float is an IEEE 754 value
    (a binary64 number, a signed zero, an infinity or a NaN); a bool is an
    int for [isinstance(x, (int, float))]. *)
#[local] Unset Elimination Schemes.
Inductive param_value : Type :=
  | PInt (n : Z)
  | PFloat (x : SpecFloat.spec_float)
  | PBool (b : bool)
  | PStr (s : string)
  | PList (l : list param_value)
  | PNone.
#[local] Set Elimination Schemes.

Definition get_default_xcms_params : gmap string param_value :=
  list_to_map [
    ("ppm", PInt 10);
    ("peakwidth", PList [PInt 5; PInt 30]);
    ("snthresh", PInt 6);
    ("mzdiff", PFloat (float_of_Q 0.01));
    ("quant_method", PStr "into");
    ("minfrac", PFloat (float_of_Q 0.5));
    ("minsamp", PInt 0);
    ("bw", PInt 5);
    ("mzwid", PFloat (float_of_Q 0.006));
    ("peak_detection_method", PStr "centWave");
    ("peak_grouping_method", PStr "density");
    ("rt_correction_method", PStr "obiwarp")
  ].

(** [isinstance(v, (int, float))]. *)
Definition is_number (v : param_value) : bool :=
  match v with
  | PInt _ | PFloat _ | PBool _ => true
  | _ => false
  end.

(** [v * k] for a number [v] and an int literal [k]: an int product for an
    int or a bool; for a float the IEEE 754 product with [float(k)]. *)
Definition times (v : param_value) (k : Z) : param_value :=
  match v with
  | PInt n => PInt (n * k)
  | PFloat x => PFloat (SpecFloat.SFmul 53 1024 x (float_of_Q (inject_Z k)))
  | PBool b => PInt ((if b then 1 else 0) * k)
  | _ => v
  end.

(** [if isinstance(validated.get(key), (int, float)):
       validated[key] = [validated[key], validated[key] * k]]. *)
Definition widen (key : string) (k : Z) (validated : gmap string param_value)
    : gmap string param_value :=
  match validated !! key with
  | Some v =>
      if is_number v then <[key := PList [v; times v k]]> validated
      else validated
  | None => validated
  end.

(** [validated.update(params)] lets the entries of [params] override the
    defaults. *)
Definition validate_xcms_params (params : gmap string param_value)
    : gmap string param_value :=
  let validated := params ∪ get_default_xcms_params in
  let validated := widen "peakwidth" 2 validated in
  let validated := widen "prefilter" 10 validated in
  validated.

Module XcmsParams.

Lemma widen_lookup_ne key k validated key' :
  key' <> key -> widen key k validated !! key' = validated !! key'.
Proof.
  intros Hne. unfold widen. destruct (validated !! key) as [v|]; [|done].
  destruct (is_number v); [|done]. by rewrite lookup_insert_ne.
Qed.

Lemma widen_lookup key k validated :
  widen key k validated !! key
  = match validated !! key with
    | Some v => Some (if is_number v then PList [v; times v k] else v)
    | None => None
    end.
Proof.
  unfold widen. destruct (validated !! key) as [v|] eqn:Hv; [|done].
  destruct (is_number v); [|done]. by rewrite lookup_insert_eq.
Qed.

Lemma widen_not_number key k validated v :
  widen key k validated !! key = Some v -> is_number v = false.
Proof.
  rewrite widen_lookup. destruct (validated !! key) as [w|]; [|done].
  destruct (is_number w) eqn:Hw; by intros [= <-].
Qed.

Lemma widen_id key k validated :
  (forall v, validated !! key = Some v -> is_number v = false) ->
  widen key k validated = validated.
Proof.
  intros Hv. unfold widen. destruct (validated !! key) as [v|]; [|done].
  by rewrite (Hv v eq_refl).
Qed.

Lemma widen_lookup_is_Some key k validated key' :
  is_Some (widen key k validated !! key') <-> is_Some (validated !! key').
Proof.
  destruct (decide (key' = key)) as [->|Hne].
  - rewrite widen_lookup. destruct (validated !! key); [|done].
    split; by eexists.
  - by rewrite widen_lookup_ne.
Qed.

(** X22: validate_xcms_params returns a dictionary that has every default
    key and every key of the given parameters; a key other than peakwidth
    and prefilter holds the given value, or the default when none is given;
    a number w given for peakwidth becomes the list [w, w * 2] and a number
    p given for prefilter the list [p, p * 10] (an int product for an int
    or a bool, the IEEE 754 product for a float), any other value given for
    them is kept, a missing peakwidth is the default [5, 30] and a missing
    prefilter stays missing; so peakwidth and prefilter never hold a bare
    number, and validating twice is the same as validating once. *)
Theorem validate_xcms_params_normalises (params : gmap string param_value) :
  let validated := validate_xcms_params params in
  let listed (k : Z) (v : param_value) : param_value :=
    match v with
    | PInt n => PList [PInt n; PInt (n * k)]
    | PFloat x =>
        PList [PFloat x;
               PFloat (SpecFloat.SFmul 53 1024 x (float_of_Q (inject_Z k)))]
    | PBool b => PList [PBool b; PInt (if b then k else 0)]
    | PStr _ | PList _ | PNone => v
    end in
  (forall key, is_Some (validated !! key)
     <-> is_Some (params !! key) \/ is_Some (get_default_xcms_params !! key))
  /\ (forall key, key <> "peakwidth" -> key <> "prefilter" ->
        validated !! key
        = match params !! key with
          | Some v => Some v
          | None => get_default_xcms_params !! key
          end)
  /\ validated !! "peakwidth"
     = Some (listed 2%Z (default (PList [PInt 5; PInt 30])
                         (params !! "peakwidth")))
  /\ validated !! "prefilter" = listed 10%Z <$> params !! "prefilter"
  /\ (forall v, validated !! "peakwidth" = Some v -> is_number v = false)
  /\ (forall v, validated !! "prefilter" = Some v -> is_number v = false)
  /\ validate_xcms_params validated = validated.
Proof.
  intros validated listed. subst validated. unfold validate_xcms_params.
  set (merged := params ∪ get_default_xcms_params).
  assert (forall key, merged !! key
            = match params !! key with
              | Some v => Some v
              | None => get_default_xcms_params !! key
              end) as Hmerged.
  { intros key. unfold merged. rewrite lookup_union.
    destruct (params !! key), (get_default_xcms_params !! key); done. }
  assert (forall k v, (if is_number v then PList [v; times v k] else v)
                      = listed k v) as Hlisted.
  { intros k [n|x|[]| | |]; cbn; try done. by rewrite Z.mul_1_l. }
  assert (forall v, widen "prefilter" 10 (widen "peakwidth" 2 merged)
                      !! "peakwidth" = Some v -> is_number v = false) as Hpw.
  { intros v. rewrite widen_lookup_ne by done. apply widen_not_number. }
  assert (forall v, widen "prefilter" 10 (widen "peakwidth" 2 merged)
                      !! "prefilter" = Some v -> is_number v = false) as Hpf.
  { intros v. apply widen_not_number. }
  split; [|split; [|split; [|split; [|split; [|split]]]]]; try done.
  - intros key. rewrite !widen_lookup_is_Some, Hmerged.
    destruct (params !! key); [|by intuition].
    split; [intros _; left|]; by eexists.
  - intros key H1 H2. by rewrite !widen_lookup_ne, Hmerged by done.
  - rewrite widen_lookup_ne by done. rewrite widen_lookup, Hmerged.
    destruct (params !! "peakwidth") as [v|]; cbn [default from_option id].
    + by rewrite Hlisted.
    + done.
  - rewrite widen_lookup, widen_lookup_ne, Hmerged by done.
    destruct (params !! "prefilter") as [v|]; cbn [fmap option_fmap option_map].
    + by rewrite Hlisted.
    + done.
  - set (validated := widen "prefilter" 10 (widen "peakwidth" 2 merged)) in *.
    assert (validated ∪ get_default_xcms_params = validated) as ->.
    { apply map_eq. intros key. rewrite lookup_union.
      destruct (validated !! key) as [v|] eqn:Hv;
        [by destruct (get_default_xcms_params !! key)|].
      destruct (get_default_xcms_params !! key) as [d|] eqn:Hd; [|done].
      exfalso. assert (is_Some (validated !! key)) as [? ?]; [|congruence].
      unfold validated. rewrite !widen_lookup_is_Some, Hmerged.
      destruct (params !! key); by eexists. }
    rewrite (widen_id "peakwidth") by done.
    by rewrite (widen_id "prefilter").
Qed.

(** An int prefilter; a float peakwidth; a float prefilter whose product
    is rounded (0.1 * 10 is 1.0) and one whose product overflows. *)
Example validate_xcms_params_widened :
  validate_xcms_params {[ "prefilter" := PInt 3 ]} !! "prefilter"
  = Some (PList [PInt 3; PInt 30])
  /\ validate_xcms_params {[ "peakwidth" := PFloat (float_of_Q 7.5) ]}
       !! "peakwidth"
     = Some (PList [PFloat (float_of_Q 7.5); PFloat (float_of_Q 15)])
  /\ validate_xcms_params {[ "prefilter" := PFloat (float_of_Q 0.1) ]}
       !! "prefilter"
     = Some (PList [PFloat (float_of_Q 0.1); PFloat (float_of_Q 1)])
  /\ validate_xcms_params {[ "prefilter" := PFloat (float_of_Q 1e308) ]}
       !! "prefilter"
     = Some (PList [PFloat (float_of_Q 1e308);
                    PFloat (SpecFloat.S754_infinity false)]).
Proof. repeat split; by vm_compute. Qed.

Lemma validate_xcms_params_defaults :
  validate_xcms_params ∅ = get_default_xcms_params.
Proof.
  unfold validate_xcms_params. rewrite (left_id_L ∅ (∪)).
  rewrite (widen_id "peakwidth"); [|by intros v [= <-]].
  rewrite (widen_id "prefilter"); [done|]. by intros v.
Qed.

End XcmsParams.

(** ** More on the lookups, the correlator and the candidates *)

Module Composition.

(** X23: when at most one feature of the table lies within both windows
    (and the tolerances are not zero), find_peak_by_mz_rt and
    find_matching_xcms_peak return the same answer. *)
Theorem lookups_agree_when_unique
    (peaks : list xcms_peak) (mz rt mz_tolerance rt_tolerance : Q) :
  ~ (mz_tolerance == 0)%Q ->
  ~ (rt_tolerance == 0)%Q ->
  (forall i j p q,
     peaks !! i = Some p -> peaks !! j = Some q ->
     within p mz rt mz_tolerance rt_tolerance = true ->
     within q mz rt mz_tolerance rt_tolerance = true -> i = j) ->
  find_matching_xcms_peak peaks mz rt mz_tolerance rt_tolerance
  = Ok (find_peak_by_mz_rt peaks mz rt mz_tolerance rt_tolerance).
Proof.
  intros Hmz Hrt Hunique.
  destruct (Locator.find_matching_xcms_peak_spec mz rt mz_tolerance
              rt_tolerance Hmz Hrt peaks) as [Hnone Hsome].
  pose proof (SecondaryLookup.find_peak_by_mz_rt_first peaks mz rt
                mz_tolerance rt_tolerance) as Hfirst.
  destruct (find_peak_by_mz_rt peaks mz rt mz_tolerance rt_tolerance) as [f|].
  - destruct Hfirst as (i & Hi & Hf & _).
    destruct Hsome as (j & g & -> & Hj & Hg & _).
    { exists f. split; [by eapply list_elem_of_lookup_2|done]. }
    assert (j = i) as -> by by eapply Hunique. congruence.
  - apply Hnone. intros p Hp Hc. by rewrite (Hfirst p Hp) in Hc.
Qed.

Lemma lookups_agree_when_unique_witness :
  find_matching_xcms_peak [F1] 150.005 121.0 0.01 30
  = Ok (find_peak_by_mz_rt [F1] 150.005 121.0 0.01 30).
Proof.
  apply (lookups_agree_when_unique [F1] 150.005 121.0 0.01 30).
  - intros H. vm_compute in H. discriminate H.
  - intros H. vm_compute in H. discriminate H.
  - intros [|i] [|j] p q Hp Hq _ _; try done.
Defined.

(** X24: extract_ms2_spectra works spectrum by spectrum: when the first
    part of a run is extracted without an exception, the extraction of the
    whole run makes the locator calls of both parts, one after the other,
    and returns the spectra of the first part followed by those of the
    second. *)
Theorem extract_ms2_spectra_app
    (xcms_peaks : list xcms_peak) (run1 run2 : list raw_spectrum)
    (mz_tolerance rt_tolerance min_intensity : Q) (out1 : list spectrum_dict) :
  let extract run :=
    extract_ms2_spectra xcms_peaks run mz_tolerance rt_tolerance
      min_intensity in
  (extract run1).2 = Ok out1 ->
  extract (run1 ++ run2)
  = ((extract run1).1 ++ (extract run2).1,
     out2 <-! (extract run2).2 ;; Ok (out1 ++ out2)).
Proof.
  intros extract. subst extract. unfold extract_ms2_spectra. cbv beta.
  revert out1. induction run1 as [|s run1 IH]; intros out1.
  - cbn. intros [= <-]. destruct (extract_loop _ run2 _ _ _) as [calls [out|e]];
      done.
  - rewrite <- app_comm_cons, !Correlator.extract_loop_cons.
    unfold Correlator.step.
    destruct (ms_level s =? 2)%Z; [|apply IH].
    destruct (get_precursor_mz s) as [mz|]; [|apply IH].
    destruct (get_precursor_rt s) as [rt|]; [|apply IH].
    destruct (length (extract_peaks s min_intensity) =? 0)%nat; [apply IH|].
    destruct (find_matching_xcms_peak xcms_peaks mz rt mz_tolerance
                rt_tolerance) as [[f|]|e]; cbn [fst snd]; [| |done].
    + destruct (extract_loop xcms_peaks run1 mz_tolerance rt_tolerance
                  min_intensity).2 as [out1'|e] eqn:H1; [|done].
      cbn [bind]. intros [= <-]. rewrite (IH out1' eq_refl). cbn [fst snd].
      f_equal. by destruct (extract_loop _ run2 _ _ _).2.
    + intros H1. rewrite (IH out1 H1). done.
Qed.

Lemma extract_ms2_spectra_app_witness :
  extract_ms2_spectra [F1] ([Correlator.scan_A] ++ [Correlator.scan_B]) 0.01
    30 100
  = ((extract_ms2_spectra [F1] [Correlator.scan_A] 0.01 30 100).1
       ++ (extract_ms2_spectra [F1] [Correlator.scan_B] 0.01 30 100).1,
     out2 <-! (extract_ms2_spectra [F1] [Correlator.scan_B] 0.01 30 100).2 ;;
     Ok ([CorrelatorShape.spectrum_A] ++ out2)).
Proof.
  apply (extract_ms2_spectra_app [F1] [Correlator.scan_A] [Correlator.scan_B]
           0.01 30 100 [CorrelatorShape.spectrum_A]).
  reflexivity.
Defined.

(** The candidates of a query at a higher threshold are those of the
    lower threshold whose score is not below the higher one, in order. *)
Definition reaches (min_score : Q) (m : match_dict) : Prop :=
  Qlt_bool (score m) min_score = false.

Lemma reaches_dec (min_score : Q) (m : match_dict) :
  Decision (reaches min_score m).
Proof. unfold reaches. apply _. Defined.

#[local] Existing Instance reaches_dec.

Lemma score_library_min_score
    (pair : similarity_fn -> Spectrum -> Spectrum -> pair_outcome)
    (fn : similarity_fn) (alg : string) (tol lower higher : Q) (i : nat)
    (query : Spectrum) (library : list Spectrum) :
  (lower <= higher)%Q ->
  (score_library pair fn alg tol higher i query library).2
  = filter (reaches higher)
      (score_library pair fn alg tol lower i query library).2.
Proof.
  intros Hle. induction library as [|lib library IH]; [done|].
  cbn [score_library]. destruct (pair fn query lib) as [| |s]; cbn [snd];
    [done..|].
  destruct (Qlt_bool s higher) eqn:Hh.
  - destruct (Qlt_bool s lower) eqn:Hl; cbn [snd]; [done|].
    rewrite filter_cons_False; [done|]. unfold reaches. cbn. by rewrite Hh.
  - assert (Qlt_bool s lower = false) as ->.
    { apply Qlt_bool_false in Hh. apply Qlt_bool_false.
      by eapply Qle_trans. }
    cbn [snd]. rewrite filter_cons_True by (unfold reaches; cbn; by rewrite Hh).
    by rewrite IH.
Qed.

(** Sorting and dropping the entries below a threshold commute. *)
Lemma insert_by_score_head (m : match_dict) (l : list match_dict) :
  (forall y, y ∈ l -> (score y <= score m)%Q) ->
  insert_by_score m l = m :: l.
Proof.
  destruct l as [|x l]; [done|]. intros Hle. cbn [insert_by_score].
  destruct (Qlt_bool (score m) (score x)) eqn:Hlt; [|done].
  apply Qlt_bool_iff in Hlt.
  pose proof (Hle x (list_elem_of_here _ _)) as Hx.
  exfalso. by eapply Qlt_not_le.
Qed.

Lemma insert_by_score_filter (h : Q) (m : match_dict) (l : list match_dict) :
  StronglySorted Ranking.score_ge l ->
  filter (reaches h) (insert_by_score m l)
  = if decide (reaches h m) then insert_by_score m (filter (reaches h) l)
    else filter (reaches h) l.
Proof.
  induction 1 as [|x l Hs IH Hx]; cbn [insert_by_score].
  - destruct (decide (reaches h m)).
    + by rewrite filter_cons_True.
    + by rewrite filter_cons_False.
  - destruct (Qlt_bool (score m) (score x)) eqn:Hlt.
    + destruct (decide (reaches h x)) as [Hr|Hr].
      * rewrite !(filter_cons_True _ x), IH by done.
        destruct (decide (reaches h m)); [|done].
        cbn [insert_by_score]. by rewrite Hlt.
      * rewrite !(filter_cons_False _ x), IH by done.
        destruct (decide (reaches h m)) as [Hm|Hm]; [|done].
        exfalso. apply Hr. unfold reaches in *.
        apply Qlt_bool_false in Hm. apply Qlt_bool_iff in Hlt.
        apply Qlt_bool_false. eapply Qle_trans; [exact Hm|].
        by apply Qlt_le_weak.
    + apply Qlt_bool_false in Hlt.
      destruct (decide (reaches h m)) as [Hm|Hm].
      * rewrite filter_cons_True by done.
        symmetry. apply insert_by_score_head.
        intros y [_ Hy]%list_elem_of_filter.
        apply elem_of_cons in Hy as [->|Hy]; [done|].
        eapply Qle_trans; [|exact Hlt].
        by eapply Forall_forall in Hx.
      * by rewrite filter_cons_False.
Qed.

Lemma sort_by_score_reverse_filter (h : Q) (l : list match_dict) :
  sort_by_score_reverse (filter (reaches h) l)
  = filter (reaches h) (sort_by_score_reverse l).
Proof.
  unfold sort_by_score_reverse.
  induction l as [|m l IH]; [done|]. cbn [foldr].
  rewrite insert_by_score_filter
    by apply (Ranking.sort_by_score_reverse_sorted l).
  destruct (decide (reaches h m)).
  - rewrite filter_cons_True by done. cbn [foldr]. by rewrite IH.
  - by rewrite filter_cons_False.
Qed.

(** In a list in non-increasing score order the entries that reach the
    threshold come first, so that keeping the first [k] entries and
    dropping the entries below the threshold commute. *)
Lemma take_filter_sorted (h : Q) (l : list match_dict) : forall k,
  StronglySorted Ranking.score_ge l ->
  take k (filter (reaches h) l) = filter (reaches h) (take k l).
Proof.
  induction l as [|x l IH]; intros k Hs; [by destruct k|].
  apply StronglySorted_cons in Hs as [Hx Hs].
  destruct (decide (reaches h x)) as [Hr|Hr].
  - rewrite filter_cons_True by done. destruct k as [|k]; [done|].
    cbn [take]. by rewrite filter_cons_True, IH.
  - assert (forall l', l' ⊆ x :: l -> filter (reaches h) l' = []) as Hnone.
    { intros l' Hl'. induction l' as [|y l' IH']; [done|].
      rewrite filter_cons_False.
      - apply IH'. intros z Hz. apply Hl'. by apply list_elem_of_further.
      - assert (y ∈ x :: l) as [->|Hy]%elem_of_cons; [|done|].
        { apply Hl'. apply list_elem_of_here. }
        intros Hy'. apply Hr. unfold reaches in *.
        apply Qlt_bool_false in Hy'. apply Qlt_bool_false.
        eapply Qle_trans; [exact Hy'|].
        by eapply Forall_forall in Hx. }
    rewrite (Hnone (x :: l)) by done.
    rewrite (Hnone (take k (x :: l))); [by destruct k|].
    intros z Hz. by eapply subseteq_take.
Qed.

(** What remains of one result when the matches below [min_score] are
    dropped from it. *)
Definition raise_min_score (min_score : Q) (r : match_result) : match_result :=
  {| query_index := query_index r;
     query_spectrum := query_spectrum r;
     matches := filter (reaches min_score) (matches r);
     best_match := head (filter (reaches min_score) (matches r)) |}.

Lemma match_queries_min_score
    (pair : similarity_fn -> Spectrum -> Spectrum -> pair_outcome)
    (fn : similarity_fn) (alg : string) (tol lower higher : Q) (top_n : Z)
    (library queries : list Spectrum) : forall i0,
  (lower <= higher)%Q ->
  (0 <= top_n)%Z ->
  match_queries pair fn alg tol higher top_n library i0 queries
  = ((match_queries pair fn alg tol lower top_n library i0 queries).1,
     raise_min_score higher
       <$> (match_queries pair fn alg tol lower top_n library i0 queries).2).
Proof.
  intros i0 Hle Hn. revert i0.
  induction queries as [|q queries IH]; intros i0; [done|].
  cbn [match_queries fst snd]. rewrite IH. cbn [fst snd fmap list_fmap].
  f_equal; [f_equal|f_equal].
  - unfold match_query. cbn [fst].
    by rewrite !Ranking.score_library_calls.
  - unfold match_query, raise_min_score. cbn [snd query_index query_spectrum
      matches best_match].
    rewrite (score_library_min_score pair fn alg tol lower higher) by done.
    rewrite sort_by_score_reverse_filter.
    unfold py_slice_to. rewrite (proj2 (Z.leb_le 0 top_n) Hn).
    by rewrite take_filter_sorted by apply Ranking.sort_by_score_reverse_sorted.
Qed.

(** X25: for a top_n that is not negative, raising min_score only removes
    matches: the outcome of match_with_traditional at a higher threshold
    is the outcome at the lower threshold with the matches whose score is
    below the higher threshold dropped from every result (in the same
    order, best_match being the first that remains), and the same calls to
    the scorer are made. *)
Theorem match_with_traditional_min_score
    (pair : similarity_fn -> Spectrum -> Spectrum -> pair_outcome)
    (query_spectra library_spectra : list Spectrum) (alg : string)
    (mz_tolerance lower higher : Q) (top_n : Z) :
  (lower <= higher)%Q ->
  (0 <= top_n)%Z ->
  let at_lower :=
    match_with_traditional pair query_spectra library_spectra alg
      mz_tolerance lower top_n in
  match_with_traditional pair query_spectra library_spectra alg mz_tolerance
    higher top_n
  = (at_lower.1,
     results <-! at_lower.2 ;; Ok (raise_min_score higher <$> results)).
Proof.
  intros Hle Hn at_lower. subst at_lower. unfold match_with_traditional.
  destruct (select_similarity alg mz_tolerance) as [fn|e]; [|done].
  rewrite (match_queries_min_score pair fn alg mz_tolerance lower higher)
    by done.
  done.
Qed.

Lemma match_with_traditional_min_score_witness :
  match_with_traditional Ranking.always_one [Ranking.query0]
    [Ranking.lib_spectrum "A"] "cosine" 0.01 2 5
  = ((match_with_traditional Ranking.always_one [Ranking.query0]
        [Ranking.lib_spectrum "A"] "cosine" 0.01 0 5).1,
     results <-! (match_with_traditional Ranking.always_one [Ranking.query0]
                    [Ranking.lib_spectrum "A"] "cosine" 0.01 0 5).2 ;;
     Ok (raise_min_score 2 <$> results)).
Proof.
  apply (match_with_traditional_min_score Ranking.always_one [Ranking.query0]
           [Ranking.lib_spectrum "A"] "cosine" 0.01 0 2 5).
  - intros H. vm_compute in H. discriminate H.
  - lia.
Defined.

End Composition.

(** ** Library summary (library_parser.py) *)

(** [min(xs) if xs else None] and [max(xs) if xs else None]: Python keeps
    the first of the smallest (largest) items. *)
Definition py_min_list (xs : list Q) : option Q :=
  match xs with
  | [] => None
  | x :: rest => Some (foldl py_min x rest)
  end.

Definition py_max_list (xs : list Q) : option Q :=
  match xs with
  | [] => None
  | x :: rest => Some (foldl py_max x rest)
  end.

Record mz_range : Type := MzRange {
  range_min : option Q;
  range_max : option Q
}.

(** The dictionary returned by get_library_info; [list(set(compounds))]
    has no specified order and is kept as a set. *)
Record library_info : Type := LibraryInfo {
  li_count : nat;
  li_compounds : gset string;
  li_precursor_mz_range : option mz_range;
  li_formats : list string
}.

(** A string read with [.get] as the operand of [or]: [None] and the empty
    string are falsy. *)
Definition truthy_string (x : option string) : option string :=
  match x with
  | Some s => if String.eqb s "" then None else Some s
  | None => None
  end.

Section LibrarySummary.

(** The [title] key of the metadata, which only get_library_info reads. *)
Variable title : Spectrum -> option string.

(** [spectrum.get("compound_name") or spectrum.get("name") or
    spectrum.get("title", "Unknown")]. *)
Definition library_compound_name (spectrum : Spectrum) : string :=
  match truthy_string (sp_compound_name spectrum) with
  | Some s => s
  | None =>
      match truthy_string (sp_name spectrum) with
      | Some s => s
      | None => default "Unknown" (title spectrum)
      end
  end.

(** The body of the [for spectrum in spectra] loop, on the lists
    [compounds] and [precursor_mzs]. *)
Definition library_info_step (acc : list string * list Q)
    (spectrum : Spectrum) : list string * list Q :=
  let compounds := acc.1 ++ [library_compound_name spectrum] in
  match sp_precursor_mz spectrum with
  | Some precursor_mz =>
      if truthy (Some precursor_mz)
      then (compounds, acc.2 ++ [precursor_mz])
      else (compounds, acc.2)
  | None => (compounds, acc.2)
  end.

Definition get_library_info (spectra : list Spectrum) : library_info :=
  if (length spectra =? 0)%nat then
    {| li_count := 0;
       li_compounds := ∅;
       li_precursor_mz_range := None;
       li_formats := [] |}
  else
    let '(compounds, precursor_mzs) :=
      foldl library_info_step ([], []) spectra in
    {| li_count := length spectra;
       li_compounds := list_to_set compounds;
       li_precursor_mz_range :=
         Some {| range_min := py_min_list precursor_mzs;
                 range_max := py_max_list precursor_mzs |};
       li_formats := ["matchms"] |}.

End LibrarySummary.

Module LibraryInfo.

(** The precursor m/z values that the loop collects. *)
Definition collected (spectrum : Spectrum) : option Q :=
  match sp_precursor_mz spectrum with
  | Some precursor_mz =>
      if truthy (Some precursor_mz) then Some precursor_mz else None
  | None => None
  end.

Lemma library_info_loop title (spectra : list Spectrum) : forall acc,
  foldl (library_info_step title) acc spectra
  = (acc.1 ++ (library_compound_name title <$> spectra),
     acc.2 ++ omap collected spectra).
Proof.
  induction spectra as [|s spectra IH]; intros [compounds mzs].
  - cbn. by rewrite !app_nil_r.
  - cbn [foldl]. rewrite IH. unfold library_info_step, collected.
    cbn [fst snd fmap list_fmap omap list_omap].
    destruct (sp_precursor_mz s) as [mz|]; [destruct (truthy (Some mz))|];
      cbn [fst snd]; by rewrite <- ?app_assoc.
Qed.

Lemma foldl_py_min (xs : list Q) : forall a,
  (foldl py_min a xs ∈ a :: xs)
  /\ forall x, x ∈ a :: xs -> (foldl py_min a xs <= x)%Q.
Proof.
  induction xs as [|b xs IH]; intros a.
  - cbn. split; [apply list_elem_of_here|].
    intros x ->%list_elem_of_singleton. apply Qle_refl.
  - cbn [foldl]. destruct (IH (py_min a b)) as [Hin Hle]. split.
    + apply elem_of_cons in Hin as [->|Hin].
      * unfold py_min. destruct (Qlt_bool b a).
        -- apply list_elem_of_further, list_elem_of_here.
        -- apply list_elem_of_here.
      * by do 2 apply list_elem_of_further.
    + assert (py_min a b <= a /\ py_min a b <= b)%Q as [Ha Hb].
      { unfold py_min. destruct (Qlt_bool b a) eqn:E.
        - apply Qlt_bool_iff in E. split; [by apply Qlt_le_weak|apply Qle_refl].
        - apply Qlt_bool_false in E. split; [apply Qle_refl|done]. }
      pose proof (Hle _ (list_elem_of_here _ _)) as Hm.
      intros x [->|[->|Hx]%elem_of_cons]%elem_of_cons.
      * by eapply Qle_trans.
      * by eapply Qle_trans.
      * apply Hle. by apply list_elem_of_further.
Qed.

Lemma foldl_py_max (xs : list Q) : forall a,
  (foldl py_max a xs ∈ a :: xs)
  /\ forall x, x ∈ a :: xs -> (x <= foldl py_max a xs)%Q.
Proof.
  induction xs as [|b xs IH]; intros a.
  - cbn. split; [apply list_elem_of_here|].
    intros x ->%list_elem_of_singleton. apply Qle_refl.
  - cbn [foldl]. destruct (IH (py_max a b)) as [Hin Hle]. split.
    + apply elem_of_cons in Hin as [->|Hin].
      * unfold py_max. destruct (Qlt_bool a b).
        -- apply list_elem_of_further, list_elem_of_here.
        -- apply list_elem_of_here.
      * by do 2 apply list_elem_of_further.
    + assert (a <= py_max a b /\ b <= py_max a b)%Q as [Ha Hb].
      { unfold py_max. destruct (Qlt_bool a b) eqn:E.
        - apply Qlt_bool_iff in E. split; [by apply Qlt_le_weak|apply Qle_refl].
        - apply Qlt_bool_false in E. split; [apply Qle_refl|done]. }
      pose proof (Hle _ (list_elem_of_here _ _)) as Hm.
      intros x [->|[->|Hx]%elem_of_cons]%elem_of_cons.
      * by eapply Qle_trans.
      * by eapply Qle_trans.
      * apply Hle. by apply list_elem_of_further.
Qed.

Lemma collected_elem (spectra : list Spectrum) (mz : Q) :
  mz ∈ omap collected spectra
  <-> exists s, s ∈ spectra /\ sp_precursor_mz s = Some mz
                /\ truthy (Some mz) = true.
Proof.
  rewrite list_elem_of_omap. unfold collected. split.
  - intros (s & Hs & Hc). exists s. split; [done|].
    destruct (sp_precursor_mz s) as [p|]; [|done].
    destruct (truthy (Some p)) eqn:E; [|done]. by injection Hc as ->.
  - intros (s & Hs & Hp & Ht). exists s. split; [done|].
    by rewrite Hp, Ht.
Qed.

(** X26: for a library that is not empty, get_library_info counts the
    spectra, lists exactly the names of the spectra, and reports as range
    the smallest and the largest precursor m/z among the spectra whose
    precursor m/z is present and not zero; both bounds are [None] exactly
    when no spectrum has such a precursor m/z (a precursor m/z of 0.0 is
    left out of the range). *)
Theorem get_library_info_summary (title : Spectrum -> option string)
    (spectra : list Spectrum) :
  spectra <> [] ->
  let info := get_library_info title spectra in
  let usable s mz :=
    s ∈ spectra /\ sp_precursor_mz s = Some mz /\ truthy (Some mz) = true in
  li_count info = length spectra
  /\ li_formats info = ["matchms"]
  /\ (forall name,
        name ∈ li_compounds info
        <-> exists s, s ∈ spectra /\ library_compound_name title s = name)
  /\ exists lo hi,
       li_precursor_mz_range info
       = Some {| range_min := lo; range_max := hi |}
       /\ match lo, hi with
          | None, None => forall s mz, ~ usable s mz
          | Some lo, Some hi =>
              (exists s, usable s lo) /\ (exists s, usable s hi)
              /\ forall s mz, usable s mz -> (lo <= mz <= hi)%Q
          | _, _ => False
          end.
Proof.
  intros Hne info usable. subst info. unfold get_library_info.
  destruct spectra as [|s0 spectra]; [done|]. cbn [length Nat.eqb].
  rewrite library_info_loop. cbn [fst snd app].
  cbn [li_count li_formats li_compounds li_precursor_mz_range].
  split; [done|]. split; [done|]. split.
  { intros name. rewrite elem_of_list_to_set, list_elem_of_fmap.
    split; intros (s & H1 & H2); exists s; by split. }
  eexists _, _. split; [reflexivity|].
  assert (forall s mz, usable s mz -> mz ∈ omap collected (s0 :: spectra))
    as Hin.
  { intros s mz H. apply collected_elem. by exists s. }
  assert (forall mz, mz ∈ omap collected (s0 :: spectra)
                     -> exists s, usable s mz) as Hout.
  { intros mz H. by apply collected_elem in H. }
  destruct (omap collected (s0 :: spectra)) as [|x xs].
  - cbn [py_min_list py_max_list]. intros s mz H.
    apply Hin in H. by apply elem_of_nil in H.
  - cbn [py_min_list py_max_list].
    destruct (foldl_py_min xs x) as [Hlo Hle], (foldl_py_max xs x) as [Hhi Hge].
    split; [by apply Hout|]. split; [by apply Hout|].
    intros s mz H. apply Hin in H. split; [by apply Hle|by apply Hge].
Qed.

Definition library_A : list Spectrum :=
  [Ranking.query0; Ranking.lib_spectrum "A"].

Lemma get_library_info_summary_witness :
  li_count (get_library_info (fun _ => None) library_A) = length library_A
  /\ li_formats (get_library_info (fun _ => None) library_A) = ["matchms"]
  /\ (forall name,
        name ∈ li_compounds (get_library_info (fun _ => None) library_A)
        <-> exists s, s ∈ library_A
                      /\ library_compound_name (fun _ => None) s = name)
  /\ exists lo hi,
       li_precursor_mz_range (get_library_info (fun _ => None) library_A)
       = Some {| range_min := lo; range_max := hi |}
       /\ match lo, hi with
          | None, None =>
              forall s mz,
                ~ (s ∈ library_A /\ sp_precursor_mz s = Some mz
                   /\ truthy (Some mz) = true)
          | Some lo, Some hi =>
              (exists s, s ∈ library_A /\ sp_precursor_mz s = Some lo
                         /\ truthy (Some lo) = true)
              /\ (exists s, s ∈ library_A /\ sp_precursor_mz s = Some hi
                            /\ truthy (Some hi) = true)
              /\ forall s mz,
                   s ∈ library_A /\ sp_precursor_mz s = Some mz
                   /\ truthy (Some mz) = true ->
                   (lo <= mz <= hi)%Q
          | _, _ => False
          end.
Proof.
  apply (get_library_info_summary (fun _ => None) library_A).
  unfold library_A. discriminate.
Defined.

End LibraryInfo.
